(** * CO2 emissions dashboard: a shallow embedding of [co2_emissions_dashboard.py]

    The pipeline of [CO2EmissionsAnalyzer] is embedded as pure functions with
    explicit state passing.

    - Numbers.  pandas stores the numeric columns as 64-bit floats; they are
      idealised here as exact rationals [Q], and NaN is a separate value
      ([NaN] in a raw cell, [None] in a numeric column).  Rounding is not
      modelled.
    - Exceptions.  A Python call that may raise returns a [result]; the
      [try]/[except Exception] blocks of the methods turn [Raise] into the
      boolean [false] they return.
    - Files.  The file system accepts every write into a directory that
      exists; whether [visualization/] exists, and whether the name [Path]
      is bound, is part of the state ([Runtime]).
    - Libraries.  pandas operations are given their documented semantics
      ([groupby] with its defaults [sort=True], [dropna=True]; [rolling] with
      [min_periods]; [max] and [mean] skipping NaN).  The regression routines
      of scikit-learn and SciPy and the sorting kernel behind [sort_values]
      are parameters of the development. *)

From Stdlib Require Import List String Ascii ZArith QArith Qreduction Bool Lia.
From Stdlib Require Import Permutation Sorted OrderedTypeEx.
Import ListNotations.

Set Implicit Arguments.

(** ** Python exceptions and the error monad *)

Inductive exn : Type :=
| KeyError (key : string)
| TypeError
| ValueError
| OSError
| InvalidIndexError.

Inductive result (A : Type) : Type :=
| Ok (a : A)
| Raise (e : exn).

Arguments Ok {A} a.
Arguments Raise {A} e.

Definition bind {A B : Type} (m : result A) (k : A -> result B) : result B :=
  match m with
  | Ok a => k a
  | Raise e => Raise e
  end.

Notation "x <- m ;; k" := (bind m (fun x => k))
  (at level 61, m at next level, right associativity).

Fixpoint mapM {A B : Type} (f : A -> result B) (l : list A) : result (list B) :=
  match l with
  | [] => Ok []
  | a :: l' => b <- f a ;; bs <- mapM f l' ;; Ok (b :: bs)
  end.

(** ** Numbers *)

Definition Qltb (a b : Q) : bool := negb (Qle_bool b a).

Definition qmax (a b : Q) : Q := if Qle_bool a b then b else a.

(** [x < c] where [x] may be NaN: every comparison with NaN is false. *)
Definition nan_lt (x : option Q) (c : Q) : bool :=
  match x with
  | Some q => Qltb q c
  | None => false
  end.

Definition sumQ (l : list Q) : Q := fold_right Qplus 0 l.

(** The non-missing values of a numeric column. *)
Fixpoint dropna (l : list (option Q)) : list Q :=
  match l with
  | [] => []
  | Some q :: l' => q :: dropna l'
  | None :: l' => dropna l'
  end.

(** [mean] with [skipna]: NaN when nothing is left to average.  The quotient
    is kept in lowest terms, so that equal numbers are equal terms. *)
Definition mean (l : list (option Q)) : option Q :=
  match dropna l with
  | [] => None
  | q :: qs =>
      Some (Qred (sumQ (q :: qs) / inject_Z (Z.of_nat (List.length (q :: qs)))))
  end.

(** ** Cells, series and frames *)

(** A cell of a column read from a CSV file: a number, a string that is not
    a number, or a missing value. *)
Inductive cell : Type :=
| Num (q : Q)
| Str (s : string)
| NaN.

(** [Series.max()]: NaN is skipped; a string among the values makes the
    comparison against the numbers (or the later comparison of the string
    maximum against a float) raise [TypeError]. *)
Fixpoint series_max (s : list cell) : result (option Q) :=
  match s with
  | [] => Ok None
  | Str _ :: _ => Raise TypeError
  | NaN :: s' => series_max s'
  | Num q :: s' =>
      m <- series_max s' ;;
      Ok (Some (match m with Some q' => qmax q q' | None => q end))
  end.

(** [series *= k], element by element. *)
Definition cell_mul (k : Q) (c : cell) : result cell :=
  match c with
  | Num q => Ok (Num (q * k))
  | NaN => Ok NaN
  | Str _ => Raise TypeError
  end.

(** [pd.to_numeric(series, errors='coerce')]: what does not parse becomes
    NaN.  [parse_float] is Python's reading of a numeric string. *)
Definition to_numeric (parse_float : string -> option Q) (c : cell)
  : option Q :=
  match c with
  | Num q => Some q
  | Str s => parse_float s
  | NaN => None
  end.

(** One row of a source table, by canonical field.  The field
    [co2_emissions] holds the cell of the column labelled [co2] or
    [co2_emissions], and [country_code] that of [iso_code] or [country_code];
    the labels a table really has are in [columns] below. *)
Record Row : Type := mkRow {
  country : option string;
  year : option Z;
  co2_emissions : cell;
  co2_per_capita : option Q;
  country_code : option string;
  source : option string
}.

Record DataFrame : Type := mkDF {
  columns : list string;
  rows : list Row
}.

Definition in_columns (label : string) (df : DataFrame) : bool :=
  existsb (String.eqb label) (columns df).

(** [df[label]] used as one series: [KeyError] when the label is absent;
    when the label is there more than once the selection is a frame, on
    which the scalar use that follows raises [ValueError]. *)
Definition getitem {A : Type} (df : DataFrame) (label : string)
    (field : Row -> A) : result (list A) :=
  match count_occ string_dec (columns df) label with
  | O => Raise (KeyError label)
  | S O => Ok (map field (rows df))
  | S (S _) => Raise ValueError
  end.

Definition set_co2_emissions (c : cell) (r : Row) : Row :=
  mkRow (country r) (year r) c (co2_per_capita r) (country_code r) (source r).

Definition set_source (name : string) (r : Row) : Row :=
  mkRow (country r) (year r) (co2_emissions r) (co2_per_capita r)
        (country_code r) (Some name).

(** [df['source'] = name] *)
Definition assign_source (df : DataFrame) (name : string) : DataFrame :=
  mkDF (if in_columns "source" df then columns df
        else columns df ++ ["source"%string])
       (map (set_source name) (rows df)).

(** ** [_standardize_format] *)

Definition column_map : list (string * string) :=
  [ ("country", "country"); ("year", "year"); ("co2", "co2_emissions");
    ("co2_per_capita", "co2_per_capita"); ("iso_code", "country_code") ]%string.

Fixpoint lookup (k : string) (m : list (string * string)) : option string :=
  match m with
  | [] => None
  | (k', v) :: m' => if String.eqb k k' then Some v else lookup k m'
  end.

Definition rename_label (label : string) : string :=
  match lookup label column_map with
  | Some v => v
  | None => label
  end.

(** [df.rename(columns={k: v for k, v in column_map.items()
                        if k in df.columns})] *)
Definition rename (df : DataFrame) : DataFrame :=
  mkDF (map rename_label (columns df)) (rows df).

Definition scale_row (k : Q) (r : Row) : result Row :=
  c <- cell_mul k (co2_emissions r) ;; Ok (set_co2_emissions c r).

(** [df['co2_emissions'] *= k] *)
Definition scale_co2_emissions (df : DataFrame) (k : Q) : result DataFrame :=
  rs <- mapM (scale_row k) (rows df) ;; Ok (mkDF (columns df) rs).

Definition _standardize_format (df : DataFrame) : result DataFrame :=
  let df := rename df in
  if in_columns "co2_emissions" df then
    s <- getitem df "co2_emissions" co2_emissions ;;
    m <- series_max s ;;
    if nan_lt m 1000 then scale_co2_emissions df 1000000
    else
      s' <- getitem df "co2_emissions" co2_emissions ;;
      m' <- series_max s' ;;
      if nan_lt m' 1000000 then scale_co2_emissions df 1000
      else Ok df
  else Ok df.

(** ** [pd.concat] *)

Fixpoint nodupb (l : list string) : bool :=
  match l with
  | [] => true
  | x :: l' => negb (existsb (String.eqb x) l') && nodupb l'
  end.

(** The labels of all frames, each once, in order of first appearance. *)
Definition union_columns (dfs : list DataFrame) : list string :=
  fold_left
    (fun acc c => if existsb (String.eqb c) acc then acc else acc ++ [c])
    (flat_map columns dfs) [].

(** A row seen through the labels of its own frame: a field whose column the
    frame lacks is filled with NaN in the concatenated table. *)
Definition reindex (df : DataFrame) (r : Row) : Row :=
  mkRow (if in_columns "country" df then country r else None)
        (if in_columns "year" df then year r else None)
        (if in_columns "co2_emissions" df then co2_emissions r else NaN)
        (if in_columns "co2_per_capita" df then co2_per_capita r else None)
        (if in_columns "country_code" df then country_code r else None)
        (if in_columns "source" df then source r else None).

Definition same_labels (l l' : list string) : bool :=
  if list_eq_dec string_dec l l' then true else false.

(** [pd.concat(dfs, ignore_index=True)].  Frames whose labels are all
    distinct are aligned on the union of their labels.  A frame repeats a
    label when the renaming puts [co2] next to [co2_emissions] or
    [iso_code] next to [country_code]: pandas cannot reindex such a frame
    ([InvalidIndexError]) and lets it through only when no frame needs
    reindexing, that is when all frames carry the same labels in the same
    order; the table then has these labels, the repeated one twice. *)
Definition concat (dfs : list DataFrame) : result DataFrame :=
  match dfs with
  | [] => Raise ValueError
  | d :: _ =>
      if forallb (fun df => nodupb (columns df)) dfs
      then Ok (mkDF (union_columns dfs)
                    (flat_map (fun df => map (reindex df) (rows df)) dfs))
      else if forallb (fun df => same_labels (columns df) (columns d)) dfs
      then Ok (mkDF (columns d)
                    (flat_map (fun df => map (reindex df) (rows df)) dfs))
      else Raise InvalidIndexError
  end.

(** ** The Combined Dataset *)

Record CombinedRow : Type := mkCombined {
  c_country : string;
  c_year : Z;
  c_country_code : string;
  c_co2_emissions : option Q;
  c_co2_per_capita : option Q;
  co2_ma_5yr : option Q
}.

(** A row of the concatenated table once [co2_emissions] is numeric. *)
Record NumRow : Type := mkNumRow {
  n_country : option string;
  n_year : option Z;
  n_country_code : option string;
  n_co2_emissions : option Q;
  n_co2_per_capita : option Q
}.

Definition key : Type := (string * Z * string)%type.

Definition key_compare (a b : key) : comparison :=
  let '(c1, y1, k1) := a in
  let '(c2, y2, k2) := b in
  match String.compare c1 c2 with
  | Eq => match Z.compare y1 y2 with
          | Eq => String.compare k1 k2
          | o => o
          end
  | o => o
  end.

Definition key_eqb (a b : key) : bool :=
  match key_compare a b with Eq => true | _ => false end.

(** The group key of a row; [groupby] leaves out rows with NaN in a key
    column ([dropna=True] is its default). *)
Definition row_key (r : NumRow) : option key :=
  match n_country r, n_year r, n_country_code r with
  | Some c, Some y, Some k => Some (c, y, k)
  | _, _, _ => None
  end.

Definition in_group (k : key) (r : NumRow) : bool :=
  match row_key r with
  | Some k' => key_eqb k' k
  | None => false
  end.

(** Insertion of a key in an ascending list of distinct keys. *)
Fixpoint insert_key (k : key) (l : list key) : list key :=
  match l with
  | [] => [k]
  | h :: t =>
      match key_compare k h with
      | Lt => k :: h :: t
      | Eq => h :: t
      | Gt => h :: insert_key k t
      end
  end.

(** The distinct keys of the table, ascending ([sort=True]). *)
Fixpoint group_keys (rs : list NumRow) : list key :=
  match rs with
  | [] => []
  | r :: rs' =>
      match row_key r with
      | Some k => insert_key k (group_keys rs')
      | None => group_keys rs'
      end
  end.

Definition aggregate (rs : list NumRow) (k : key) : CombinedRow :=
  let g := filter (in_group k) rs in
  let '(c, y, code) := k in
  mkCombined c y code (mean (map n_co2_emissions g))
             (mean (map n_co2_per_capita g)) None.

(** [df.groupby(['country', 'year', 'country_code'], as_index=False)
       .agg({'co2_emissions': 'mean', 'co2_per_capita': 'mean'})] *)
Definition groupby_agg (rs : list NumRow) : list CombinedRow :=
  map (aggregate rs) (group_keys rs).

(** Order of [sort_values(['country', 'year'])]. *)
Definition country_year_leb (a b : CombinedRow) : bool :=
  match String.compare (c_country a) (c_country b) with
  | Lt => true
  | Eq => Z.leb (c_year a) (c_year b)
  | Gt => false
  end.

Section StableSort.
Variable A : Type.
Variable leb : A -> A -> bool.

Fixpoint insert_sorted (x : A) (l : list A) : list A :=
  match l with
  | [] => [x]
  | h :: t => if leb x h then x :: h :: t else h :: insert_sorted x t
  end.

(** A stable sort: an element goes in front of the first element that is
    not smaller, hence in front of its equals that came after it. *)
Fixpoint stable_sort (l : list A) : list A :=
  match l with
  | [] => []
  | x :: l' => insert_sorted x (stable_sort l')
  end.
End StableSort.

(** [x.rolling(5, min_periods=3).mean()] at one row, from its window. *)
Definition window_mean (w : list (option Q)) : option Q :=
  if (3 <=? List.length (dropna w))%nat then mean w else None.

Definition set_ma (ma : option Q) (r : CombinedRow) : CombinedRow :=
  mkCombined (c_country r) (c_year r) (c_country_code r) (c_co2_emissions r)
             (c_co2_per_capita r) ma.

Definition same_country (c : string) (r : CombinedRow) : bool :=
  String.eqb (c_country r) c.

(** [grouped.groupby('country')['co2_emissions'].transform(rolling mean)]:
    [seen] holds the rows already passed, latest first; the window of a row
    is the row itself and the four rows of its country before it, oldest
    first. *)
Fixpoint rolling_transform (seen rest : list CombinedRow) : list CombinedRow :=
  match rest with
  | [] => []
  | r :: rest' =>
      let before := filter (same_country (c_country r)) seen in
      let w := rev (firstn 5 (map c_co2_emissions (r :: before))) in
      set_ma (window_mean w) r :: rolling_transform (r :: seen) rest'
  end.

(** ** [_clean_combined_data] *)

Section Clean.
(** Python's reading of a numeric string, for [pd.to_numeric]. *)
Variable parse_float : string -> option Q.

Definition numeric_row (r : Row) : NumRow :=
  mkNumRow (country r) (year r) (country_code r)
           (to_numeric parse_float (co2_emissions r)) (co2_per_capita r).

Definition notna {A : Type} (x : option A) : bool :=
  match x with Some _ => true | None => false end.

Definition year_ge (y0 : Z) (y : option Z) : bool :=
  match y with Some y => (y0 <=? y)%Z | None => false end.

(** The rows that survive lines 74 and 75. *)
Definition surviving (df : DataFrame) : list NumRow :=
  filter (fun r => year_ge 1970 (n_year r))
    (filter (fun r => notna (n_country r)) (map numeric_row (rows df))).

Definition _clean_combined_data (df : DataFrame) : result (list CombinedRow) :=
  _ <- getitem df "co2_emissions" co2_emissions ;;
  _ <- getitem df "country" country ;;
  _ <- getitem df "year" year ;;
  _ <- getitem df "country_code" country_code ;;
  _ <- getitem df "co2_per_capita" co2_per_capita ;;
  let grouped := groupby_agg (surviving df) in
  let grouped := stable_sort country_year_leb grouped in
  Ok (rolling_transform [] grouped).
End Clean.

(** ** Hotspot entries and program state *)

Record Hotspot : Type := mkHotspot {
  h_country : string;
  growth_rate : Q;
  p_value : Q;
  recent_emissions : Q
}.

(** The fields of the object [CO2EmissionsAnalyzer]. *)
Record Analyzer : Type := mkAnalyzer {
  combined_data : option (list CombinedRow);
  hotspots : option (list Hotspot)
}.

(** What the program reads and writes: the CSV files, the table
    [global_emissions] of the database and the files under
    [visualization/]. *)
Record World : Type := mkWorld {
  read_csv : string -> result DataFrame;
  global_emissions : option (list CombinedRow);
  tableau_emissions_data : option (list (CombinedRow * bool));
  hotspots_trend : option (list CombinedRow);
  global_emissions_map : option (list CombinedRow)
}.

(** What the export and render stages depend on besides the data.  The name
    [Path] is bound only when the module is run as a script: line 211
    imports it under [if __name__ == "__main__"], after the class is
    defined.  The directory [visualization/] is created by
    [prepare_tableau_data] alone. *)
Record Runtime : Type := mkRuntime {
  Path_bound : bool;
  visualization_dir : bool
}.

(** The program run as a script, in a directory without [visualization/]. *)
Definition script_run : Runtime := mkRuntime true false.

Definition DATA_SOURCES : list (string * string) :=
  [ ("edgar", "data/edgar_emissions.csv");
    ("global_carbon", "data/global_carbon_atlas.csv");
    ("bp_stats", "data/bp_statistical_review.csv") ]%string.

(** [__init__] *)
Definition init : Analyzer := mkAnalyzer None None.

(** The value of [scipy.stats.linregress], a five-field tuple. *)
Record LinregressResult : Type := mkLinregress {
  slope : Q;
  intercept : Q;
  rvalue : Q;
  pvalue : Q;
  stderr : Q
}.

Definition as_tuple (r : LinregressResult) : list Q :=
  [slope r; intercept r; rvalue r; pvalue r; stderr r].

(** [t[i:j]] *)
Definition slice {A : Type} (i j : nat) (t : list A) : list A :=
  firstn (j - i) (skipn i t).

(** [recent['country'].unique()]: each value once, in order of first
    appearance. *)
Fixpoint unique (l : list string) : list string :=
  match l with
  | [] => []
  | x :: l' => x :: filter (fun y => negb (String.eqb y x)) (unique l')
  end.

(** scikit-learn validates the arrays given to [fit]: a NaN raises
    [ValueError]. *)
Definition check_finite (d : list (Z * option Q)) : result (list (Z * Q)) :=
  mapM (fun p => match snd p with
                 | Some y => Ok (fst p, y)
                 | None => Raise ValueError
                 end) d.

(** The arrays [X] and [y] of lines 100 and 101, paired. *)
Definition fit_input (recent : list CombinedRow) (c : string)
  : list (Z * option Q) :=
  let country_data := filter (same_country c) recent in
  combine (map c_year country_data) (map co2_ma_5yr country_data).

Definition year_from (start_year : Z) (r : CombinedRow) : bool :=
  (start_year <=? c_year r)%Z.

Definition isin (cs : list string) (c : string) : bool :=
  existsb (String.eqb c) cs.

Section Pipeline.
(** Python's reading of a numeric string, for [pd.to_numeric]. *)
Variable parse_float : string -> option Q.
(** [LinearRegression().fit(X, y).coef_[0]] on validated arrays. *)
Variable LinearRegression_coef : list (Z * Q) -> result Q.
(** [stats.linregress(x, y)]. *)
Variable linregress : list (Z * Q) -> result LinregressResult.
(** [DataFrame.sort_values('growth_rate', ascending=False)] with the
    default [kind]. *)
Variable sort_values : list Hotspot -> list Hotspot.

(** *** [load_and_clean_data] *)

Definition load_source (w : World) (s : string * string) : result DataFrame :=
  let '(name, path) := s in
  df <- read_csv w path ;;
  _standardize_format (assign_source df name).

Definition load_and_clean_data (w : World) (a : Analyzer)
  : World * Analyzer * bool :=
  match (dfs <- mapM (load_source w) DATA_SOURCES ;;
         combined <- concat dfs ;;
         _clean_combined_data parse_float combined) with
  | Ok combined =>
      (mkWorld (read_csv w) (Some combined) (tableau_emissions_data w)
               (hotspots_trend w) (global_emissions_map w),
       mkAnalyzer (Some combined) (hotspots a),
       true)
  | Raise _ => (w, a, false)
  end.

(** *** [identify_hotspots] *)

(** The body of the loop for one country: [None] when nothing is
    appended. *)
Definition analyse (recent : list CombinedRow) (c : string)
  : result (option Hotspot) :=
  let country_data := filter (same_country c) recent in
  if (List.length country_data <? 5)%nat then Ok None
  else
    d <- check_finite (fit_input recent c) ;;
    slope <- LinearRegression_coef d ;;
    res <- linregress d ;;
    match slice 3 5 (as_tuple res) with
    | [_; p_value] =>
        if Qltb 0 slope && Qltb p_value (1 # 20)
        then Ok (Some (mkHotspot c slope p_value (last (map snd d) 0)))
        else Ok None
    | _ => Raise ValueError
    end.

Fixpoint scan (recent : list CombinedRow) (countries : list string)
    (acc : list Hotspot) : result (list Hotspot) :=
  match countries with
  | [] => Ok acc
  | c :: cs =>
      h <- analyse recent c ;;
      scan recent cs (match h with Some x => acc ++ [x] | None => acc end)
  end.

(** Lines 117 and 118: a frame built from the empty list has no column
    [growth_rate] to sort by. *)
Definition rank (hs : list Hotspot) : result (list Hotspot) :=
  match hs with
  | [] => Raise (KeyError "growth_rate")
  | _ :: _ => Ok (firstn 3 (sort_values hs))
  end.

Definition detect (cd : list CombinedRow) (start_year : Z)
  : result (list Hotspot) :=
  let recent := filter (year_from start_year) cd in
  hs <- scan recent (unique (map c_country recent)) [] ;;
  rank hs.

Definition identify_hotspots (a : Analyzer) (start_year : Z) : Analyzer * bool :=
  match combined_data a with
  | None => (a, false)
  | Some cd =>
      match detect cd start_year with
      | Ok top => (mkAnalyzer (combined_data a) (Some top), true)
      | Raise _ => (a, false)
      end
  end.

(** *** [prepare_tableau_data] *)

Definition is_hotspot (a : Analyzer) (r : CombinedRow) : bool :=
  match hotspots a with
  | Some hs => isin (map h_country hs) (c_country r)
  | None => false
  end.

(** Line 132 raises when there is no dataset, line 137 raises [NameError]
    when [Path] is not bound; both before anything is written.  Otherwise
    line 137 makes sure the directory exists and line 138 writes the
    export. *)
Definition prepare_tableau_data (rt : Runtime) (w : World) (a : Analyzer)
  : Runtime * World * bool :=
  match combined_data a with
  | None => (rt, w, false)
  | Some cd =>
      if Path_bound rt then
        (mkRuntime (Path_bound rt) true,
         mkWorld (read_csv w) (global_emissions w)
                 (Some (map (fun r => (r, is_hotspot a r)) cd))
                 (hotspots_trend w) (global_emissions_map w),
         true)
      else (rt, w, false)
  end.

(** *** [generate_visualizations] *)

(** Nothing here creates [visualization/]: when it does not exist the first
    write raises ([savefig] of line 167, or [write_html] of line 179 when
    there is no hotspot list) and nothing is written. *)
Definition generate_visualizations (rt : Runtime) (w : World) (a : Analyzer)
  : World * bool :=
  match combined_data a with
  | None => (w, false)
  | Some cd =>
      if visualization_dir rt then
        let trend :=
          match hotspots a with
          | Some hs =>
              Some (filter (fun r => isin (map h_country hs) (c_country r)) cd)
          | None => hotspots_trend w
          end in
        (mkWorld (read_csv w) (global_emissions w) (tableau_emissions_data w)
                 trend
                 (Some (filter (fun r => (c_year r =? 2020)%Z) cd)),
         true)
      else (w, false)
  end.

(** *** [main] *)

Definition main (rt : Runtime) (w : World) : Runtime * World :=
  let analyzer := init in
  let '(w, analyzer, ok) := load_and_clean_data w analyzer in
  if negb ok then (rt, w)
  else
    let '(analyzer, ok) := identify_hotspots analyzer 2015 in
    if negb ok then (rt, w)
    else
      let '(rt, w, _) := prepare_tableau_data rt w analyzer in
      let '(w, _) := generate_visualizations rt w analyzer in
      (rt, w).
End Pipeline.

(** ** The Combined Dataset as a frame *)

Definition cell_of (x : option Q) : cell :=
  match x with
  | Some q => Num q
  | None => NaN
  end.

Definition combined_columns : list string :=
  [ "country"; "year"; "country_code"; "co2_emissions"; "co2_per_capita";
    "co2_ma_5yr" ]%string.

Definition row_of_combined (r : CombinedRow) : Row :=
  mkRow (Some (c_country r)) (Some (c_year r)) (cell_of (c_co2_emissions r))
        (c_co2_per_capita r) (Some (c_country_code r)) None.

(** The frame that [_clean_combined_data] returns, as an argument of a
    second call. *)
Definition as_frame (cd : list CombinedRow) : DataFrame :=
  mkDF combined_columns (map row_of_combined cd).

(** * Specification-side definitions *)

(** ** Unit rescaling *)

(** A cell multiplied by [k]: a missing value stays missing. *)
Definition times (k : Q) (r : Row) : Row :=
  match co2_emissions r with
  | Num q => set_co2_emissions (Num (q * k)) r
  | _ => r
  end.

(** [m] is the maximum observed value of a numeric series. *)
Definition observed_max (s : list cell) (m : Q) : Prop :=
  (forall t, ~ In (Str t) s) /\
  (exists q, In (Num q) s /\ q == m) /\
  (forall q, In (Num q) s -> q <= m).

(** ** Grouping *)

Definition combined_key (r : CombinedRow) : key :=
  (c_country r, c_year r, c_country_code r).

Definition key_lt (a b : key) : Prop := key_compare a b = Lt.

(** A number kept in lowest terms, or a missing value. *)
Definition lowest_terms (x : option Q) : Prop :=
  match x with
  | Some q => Qred q = q
  | None => True
  end.

Definition numeric_of_combined (r : CombinedRow) : NumRow :=
  mkNumRow (Some (c_country r)) (Some (c_year r)) (Some (c_country_code r))
           (c_co2_emissions r) (c_co2_per_capita r).

(** ** Smoothing *)

(** The trailing window at position [j] of a series: the last five values
    up to and including the one at [j]. *)
Definition trailing_window (xs : list (option Q)) (j : nat) : list (option Q) :=
  skipn (S j - 5) (firstn (S j) xs).

(** The rolling mean of one series, [prev] being the values before it,
    latest first. *)
Fixpoint rolling_series (prev xs : list (option Q)) : list (option Q) :=
  match xs with
  | [] => []
  | x :: xs' =>
      window_mean (rev (firstn 5 (x :: prev))) :: rolling_series (x :: prev) xs'
  end.

(** ** Ranking *)

Definition desc_by_growth (a b : Hotspot) : Prop :=
  growth_rate b <= growth_rate a.

(** What pandas promises of [sort_values] whatever the [kind]: the rows are
    the same and come in descending order of the key.  Only the kinds
    [mergesort] and [stable] also promise to keep equal keys in their
    order; the call of line 118 names no [kind] and gets [quicksort]. *)
Definition sort_contract (sort : list Hotspot -> list Hotspot) : Prop :=
  forall l, Permutation (sort l) l /\ StronglySorted desc_by_growth (sort l).

Definition same_growth (g : Q) (h : Hotspot) : bool :=
  Qeq_bool (growth_rate h) g.

(** A sorting kernel is stable when the entries of equal key keep their
    order. *)
Definition stable_kernel (sort : list Hotspot -> list Hotspot) : Prop :=
  forall g l, filter (same_growth g) (sort l) = filter (same_growth g) l.

(** ** The inclusion rule *)

(** The value that line 107 binds to [p_value]. *)
Definition recorded_p_value (res : LinregressResult) : Q :=
  nth 1 (slice 3 5 (as_tuple res)) 0.

Section HotspotSpec.
Variable LinearRegression_coef : list (Z * Q) -> result Q.
Variable linregress : list (Z * Q) -> result LinregressResult.

(** The entry of country [c], if it has five rows or more in [recent],
    all with a smoothed value, and passes [growth_rate > 0] and
    [p_value < 0.05]. *)
Definition entry (recent : list CombinedRow) (c : string) : option Hotspot :=
  if (List.length (filter (same_country c) recent) <? 5)%nat then None
  else
    match check_finite (fit_input recent c) with
    | Ok d =>
        match LinearRegression_coef d, linregress d with
        | Ok g, Ok res =>
            let p := recorded_p_value res in
            if Qltb 0 g && Qltb p (1 # 20)
            then Some (mkHotspot c g p (last (map snd d) 0))
            else None
        | _, _ => None
        end
    | Raise _ => None
    end.

Definition option_list {A : Type} (o : option A) : list A :=
  match o with
  | Some a => [a]
  | None => []
  end.

(** The entries of the countries that qualify, in the order in which the
    countries first appear in [recent]. *)
Definition qualifying (recent : list CombinedRow) : list Hotspot :=
  flat_map (fun c => option_list (entry recent c))
           (unique (map c_country recent)).
End HotspotSpec.

(** * Instances and tables for the examples *)

(** An instance of [parse_float]: unsigned decimal integers. *)
Definition digit_of (a : ascii) : option Z :=
  let n := Z.of_nat (nat_of_ascii a) in
  if ((48 <=? n) && (n <=? 57))%Z then Some (n - 48)%Z else None.

Fixpoint parse_digits_from (acc : Z) (s : string) : option Z :=
  match s with
  | EmptyString => Some acc
  | String a s' =>
      match digit_of a with
      | Some d => parse_digits_from (10 * acc + d)%Z s'
      | None => None
      end
  end.

Definition parse_digits (s : string) : option Q :=
  match s with
  | EmptyString => None
  | _ => option_map inject_Z (parse_digits_from 0 s)
  end.

Definition canonical_columns : list string :=
  [ "country"; "year"; "co2_emissions"; "co2_per_capita"; "country_code" ]%string.

(** A table whose one row names no country code. *)
Definition codeless_table : DataFrame :=
  mkDF canonical_columns
       [ mkRow (Some "Atlantis"%string) (Some 2000%Z) (Num 5) None None None ].

(** Least squares on exact numbers. *)
Definition count (d : list (Z * Q)) : Q := inject_Z (Z.of_nat (List.length d)).
Definition x_mean (d : list (Z * Q)) : Q :=
  sumQ (map (fun p => inject_Z (fst p)) d) / count d.
Definition y_mean (d : list (Z * Q)) : Q := sumQ (map snd d) / count d.
Definition ss_xx (d : list (Z * Q)) : Q :=
  sumQ (map (fun p => (inject_Z (fst p) - x_mean d)
                      * (inject_Z (fst p) - x_mean d)) d).
Definition ss_xy (d : list (Z * Q)) : Q :=
  sumQ (map (fun p => (inject_Z (fst p) - x_mean d) * (snd p - y_mean d)) d).
Definition ss_yy (d : list (Z * Q)) : Q :=
  sumQ (map (fun p => (snd p - y_mean d) * (snd p - y_mean d)) d).
Definition ols_slope (d : list (Z * Q)) : Q := Qred (ss_xy d / ss_xx d).
Definition residual_ss (d : list (Z * Q)) : Q :=
  ss_yy d - ss_xy d * ss_xy d / ss_xx d.

(** An instance of [LinearRegression_coef]: the least-squares slope. *)
Definition exact_coef (d : list (Z * Q)) : result Q := Ok (ols_slope d).

(** An instance of [linregress] for series that lie on a line, where the
    statistics of the fit are rational: the correlation is 1, -1 or 0, the
    p-value 0 (1 for a flat series) and the standard error 0.  It declines
    any other series, and, as SciPy does, a series whose [x] are all
    equal. *)
Definition line_linregress (d : list (Z * Q)) : result LinregressResult :=
  if Qeq_bool (ss_xx d) 0 then Raise ValueError
  else if Qeq_bool (residual_ss d) 0 then
    let b := ols_slope d in
    Ok (mkLinregress b (Qred (y_mean d - b * x_mean d))
          (if Qltb 0 b then 1 else if Qltb b 0 then -1 else 0)
          (if Qeq_bool b 0 then 1 else 0)
          0)
  else Raise ValueError.

(** A sorting kernel that meets [sort_contract] and keeps entries of equal
    growth rate in their order. *)
Definition stable_desc : list Hotspot -> list Hotspot :=
  stable_sort (fun x h => Qle_bool (growth_rate h) (growth_rate x)).

(** Rows of a Combined Dataset for a country whose smoothed values lie on
    the line [base + step * (year - 2015)], from 2015 on. *)
Definition line_rows (c code : string) (base step : Z) (n : nat)
  : list CombinedRow :=
  map (fun i : nat =>
         let v := inject_Z (base + step * Z.of_nat i) in
         mkCombined c (2015 + Z.of_nat i) code (Some v) None (Some v))
      (seq 0 n).

(** Two countries with the same growth rate. *)
Definition twins : list CombinedRow :=
  line_rows "Aland" "ALD" 100 10 5 ++ line_rows "Bland" "BLD" 200 10 5.

(** Five countries on lines of different slope, and one with four rows. *)
Definition five_lines : list CombinedRow :=
  line_rows "Aland" "ALD" 100 10 6 ++ line_rows "Bland" "BLD" 100 30 6 ++
  line_rows "Cland" "CLD" 100 20 6 ++ line_rows "Dland" "DLD" 100 50 6 ++
  line_rows "Eland" "ELD" 100 40 6 ++ line_rows "Fland" "FLD" 100 90 4.

(** A country whose every year shows the same value. *)
Definition flat_country : list CombinedRow :=
  line_rows "Aland" "ALD" 100 0 6.

(** Source tables and worlds. *)
Definition source_columns : list string :=
  [ "country"; "year"; "co2"; "co2_per_capita"; "iso_code" ]%string.

Definition obs (c code : string) (y : Z) (e : cell) : Row :=
  mkRow (Some c) (Some y) e None (Some code) None.

Definition empty_source : DataFrame := mkDF source_columns [].

Definition world_of (edgar global_carbon bp_stats : DataFrame) : World :=
  mkWorld
    (fun path =>
       if String.eqb path "data/edgar_emissions.csv" then Ok edgar
       else if String.eqb path "data/global_carbon_atlas.csv"
       then Ok global_carbon
       else if String.eqb path "data/bp_statistical_review.csv"
       then Ok bp_stats
       else Raise OSError)
    None None None None.

(** A source in megatons: its largest value is 500. *)
Definition megaton_source : DataFrame :=
  mkDF source_columns
       [ obs "Aland" "ALD" 2019 (Num 500); obs "Aland" "ALD" 2020 (Num 20);
         obs "Bland" "BLD" 2020 NaN ].

(** A source in kilotons (largest value 50000) and one in tons (largest
    value 5000000). *)
Definition kiloton_source : DataFrame :=
  mkDF source_columns
       [ obs "Aland" "ALD" 2019 (Num 50000); obs "Aland" "ALD" 2020 (Num 700) ].

Definition ton_source : DataFrame :=
  mkDF source_columns
       [ obs "Aland" "ALD" 2019 (Num 5000000); obs "Aland" "ALD" 2020 (Num 700) ].

(** Two rows for the same key, from two sources, and a year without
    value. *)
Definition overlap_table : DataFrame :=
  mkDF canonical_columns
       [ mkRow (Some "Aland"%string) (Some 2000%Z) (Num 100) (Some 2)
               (Some "ALD"%string) None;
         mkRow (Some "Aland"%string) (Some 2000%Z) (Num 300) None
               (Some "ALD"%string) None;
         mkRow (Some "Aland"%string) (Some 2001%Z) NaN None
               (Some "ALD"%string) None;
         mkRow (Some "Aland"%string) (Some 1969%Z) (Num 7) None
               (Some "ALD"%string) None;
         mkRow None (Some 2001%Z) (Num 7) None (Some "ALD"%string) None ].

(** A country with three yearly values, and one with two. *)
Definition short_series : DataFrame :=
  mkDF canonical_columns
       [ obs "Aland" "ALD" 2000 (Num 10); obs "Aland" "ALD" 2001 (Num 20);
         obs "Aland" "ALD" 2002 (Num 60); obs "Bland" "BLD" 2000 (Num 10);
         obs "Bland" "BLD" 2001 (Num 20) ].

(** A country whose records begin in 2015: the Combined Dataset it gives
    has no smoothed value for 2015 and 2016. *)
Definition newcomer_table : DataFrame :=
  mkDF canonical_columns
       (map (fun i : nat =>
               mkRow (Some "Newland"%string) (Some (2015 + Z.of_nat i)%Z)
                     (Num (inject_Z (100 + 10 * Z.of_nat i))) None
                     (Some "NWL"%string) None)
            (seq 0 5)).

Definition newcomer : list CombinedRow :=
  rolling_transform [] (groupby_agg (surviving parse_digits newcomer_table)).

(** One country reporting 5 megatons every year from 2010 to 2020. *)
Definition steady_source : DataFrame :=
  mkDF source_columns
       (map (fun i : nat => obs "Aland" "ALD" (2010 + Z.of_nat i) (Num 5))
            (seq 0 11)).

Definition steady_world : World :=
  world_of steady_source empty_source empty_source.

(** A source with a value that is no number. *)
Definition unparsable_source : DataFrame :=
  mkDF source_columns
       [ obs "Aland" "ALD" 2019 (Num 5);
         obs "Aland" "ALD" 2020 (Str "not reported") ].

Definition unparsable_world : World :=
  world_of unparsable_source empty_source empty_source.

(** Sources without emissions column. *)
Definition bare_source : DataFrame :=
  mkDF [ "country"; "year"; "co2_per_capita"; "iso_code" ]%string
       [ mkRow (Some "Aland"%string) (Some 2020%Z) NaN (Some 4) (Some "ALD"%string)
               None ].

Definition bare_world : World := world_of bare_source bare_source bare_source.

(** The Combined Datasets of [overlap_table] and [short_series]. *)
Definition overlap_combined : list CombinedRow :=
  [ mkCombined "Aland" 2000 "ALD" (Some 200) (Some 2) None;
    mkCombined "Aland" 2001 "ALD" None None None ].

Definition short_combined : list CombinedRow :=
  [ mkCombined "Aland" 2000 "ALD" (Some 10) None None;
    mkCombined "Aland" 2001 "ALD" (Some 20) None None;
    mkCombined "Aland" 2002 "ALD" (Some 60) None (Some 30);
    mkCombined "Bland" 2000 "BLD" (Some 10) None None;
    mkCombined "Bland" 2001 "BLD" (Some 20) None None ].

(** The three fastest growing countries of [five_lines]. *)
Definition top_of_five : list Hotspot :=
  [ mkHotspot "Dland" 50 0 350; mkHotspot "Eland" 40 0 300;
    mkHotspot "Bland" 30 0 250 ].

Definition twin_a : Hotspot := mkHotspot "Aland" 10 0 140.
Definition twin_b : Hotspot := mkHotspot "Bland" 10 0 240.

(** The three tables of [bare_world] as loaded, and their concatenation. *)
Definition bare_loaded (name : string) : DataFrame :=
  mkDF [ "country"; "year"; "co2_per_capita"; "country_code"; "source" ]%string
       [ mkRow (Some "Aland"%string) (Some 2020%Z) NaN (Some 4)
               (Some "ALD"%string) (Some name) ].

Definition bare_frames : list DataFrame :=
  [ bare_loaded "edgar"; bare_loaded "global_carbon"; bare_loaded "bp_stats" ].

Definition bare_combined : DataFrame :=
  mkDF [ "country"; "year"; "co2_per_capita"; "country_code"; "source" ]%string
       (flat_map rows bare_frames).

(** A country growing on a line and a country that stays flat. *)
Definition rising_and_flat : list CombinedRow :=
  line_rows "Aland" "ALD" 100 10 6 ++ line_rows "Bland" "BLD" 100 0 6.

(** * Further definitions *)

(** A source with no observed emission value, and one below one megaton. *)
Definition silent_source : DataFrame :=
  mkDF source_columns
       [ obs "Aland" "ALD" 2019 NaN; obs "Aland" "ALD" 2020 NaN ].

Definition small_source : DataFrame :=
  mkDF source_columns [ obs "Aland" "ALD" 2020 (Num (1 # 2)) ].

Definition megaton_standardized : DataFrame :=
  mkDF canonical_columns
       [ obs "Aland" "ALD" 2019 (Num 500000000);
         obs "Aland" "ALD" 2020 (Num 20000000); obs "Bland" "BLD" 2020 NaN ].

Definition kiloton_standardized : DataFrame :=
  mkDF canonical_columns
       [ obs "Aland" "ALD" 2019 (Num 50000000);
         obs "Aland" "ALD" 2020 (Num 700000) ].

(** One step of [union_columns]. *)
Definition add_label (acc : list string) (c : string) : list string :=
  if existsb (String.eqb c) acc then acc else acc ++ [c].

(** A table without the label [country_code]. *)
Definition codeless_columns_table : DataFrame :=
  mkDF [ "country"; "year"; "co2_emissions"; "co2_per_capita" ]%string [].

(** The table in which every emission string that does not parse is made a
    missing value. *)
Definition blank_unparsable (parse_float : string -> option Q) (df : DataFrame)
  : DataFrame :=
  mkDF (columns df)
       (map (fun r =>
               match co2_emissions r with
               | Str s =>
                   match parse_float s with
                   | None => set_co2_emissions NaN r
                   | Some _ => r
                   end
               | _ => r
               end)
            (rows df)).


(** A world in which no file can be read. *)
Definition empty_disk : World :=
  mkWorld (fun _ => Raise OSError) None None None None.

(** One country whose emissions rise by 100000 tons a year from 2010 to
    2020. *)
Definition rising_source : DataFrame :=
  mkDF source_columns
       (map (fun i : nat =>
               obs "Aland" "ALD" (2010 + Z.of_nat i)
                   (Num (inject_Z (1000000 + 100000 * Z.of_nat i))))
            (seq 0 11)).

Definition rising_world : World :=
  world_of rising_source empty_source empty_source.

Definition d_entry : Hotspot := mkHotspot "Dland" 50 0 350.

Definition no_row : CombinedRow := mkCombined "" 0 "" None None None.

(** A source with one observation. *)
Definition single_source (c code : string) (y : Z) (q : Q) : DataFrame :=
  mkDF source_columns [ obs c code y (Num q) ].

Definition loaded_columns : list string :=
  [ "country"; "year"; "co2_emissions"; "co2_per_capita"; "country_code";
    "source" ]%string.

(** The row of [single_source] once loaded from the source [name], with the
    value [v]. *)
Definition loaded_row (c code name : string) (y : Z) (v : Q) : Row :=
  mkRow (Some c) (Some y) (Num v) None (Some code) (Some name).

(** A series that rises with noise: least squares give slope 10, intercept
    -20050 and a residual sum of squares of 30, hence a standard error of
    the slope of exactly 1. *)
Definition noisy_series : list (Z * Q) :=
  [ (2015%Z, 102); (2016%Z, 109); (2017%Z, 116); (2018%Z, 133);
    (2019%Z, 140) ].

(** SciPy's result on [noisy_series]; the correlation and the p-value are
    rounded to six places. *)
Definition noisy_result : LinregressResult :=
  mkLinregress 10 (-20050) (985329 # 1000000) (2128 # 1000000) 1.

Fixpoint same_data (d d' : list (Z * Q)) : bool :=
  match d, d' with
  | [], [] => true
  | (x, y) :: t, (x', y') :: t' =>
      (x =? x')%Z && Qeq_bool y y' && same_data t t'
  | _, _ => false
  end.

(** An instance of [linregress] that also answers on [noisy_series]. *)
Definition tabled_linregress (d : list (Z * Q)) : result LinregressResult :=
  if same_data d noisy_series then Ok noisy_result else line_linregress d.

(** A country on a line and a country following [noisy_series]. *)
Definition line_and_noise : list CombinedRow :=
  line_rows "Aland" "ALD" 100 10 5 ++
  map (fun p : Z * Q => mkCombined "Nland" (fst p) "NLD" (Some (snd p)) None
                                   (Some (snd p)))
      noisy_series.

(** A source whose one country has its records from 2015 to 2019, and the
    Combined Dataset it gives: no smoothed value for 2015 and 2016. *)
Definition newcomer_source : DataFrame :=
  mkDF source_columns
       (map (fun i : nat =>
               obs "Newland" "NWL" (2015 + Z.of_nat i)
                   (Num (inject_Z (1000000 + 10 * Z.of_nat i))))
            (seq 0 5)).

Definition newcomer_world : World :=
  world_of newcomer_source empty_source empty_source.

Definition newcomer_combined : list CombinedRow :=
  [ mkCombined "Newland" 2015 "NWL" (Some 1000000) None None;
    mkCombined "Newland" 2016 "NWL" (Some 1000010) None None;
    mkCombined "Newland" 2017 "NWL" (Some 1000020) None (Some 1000010);
    mkCombined "Newland" 2018 "NWL" (Some 1000030) None (Some 1000015);
    mkCombined "Newland" 2019 "NWL" (Some 1000040) None (Some 1000020) ].

(** A source with a country on a line (Aland, 2010 to 2020) and a country
    whose five-year means from 2015 to 2019 are the values of
    [noisy_series] (Nland, 2011 to 2019).  The values are in tons: the
    largest is above 1e6, so the source is not rescaled. *)
Definition line_and_noise_source : DataFrame :=
  mkDF source_columns
       (rows rising_source ++
        map (fun p : Z * Q => obs "Nland" "NLD" (fst p) (Num (snd p)))
            [ (2011%Z, 102); (2012%Z, 102); (2013%Z, 102); (2014%Z, 102);
              (2015%Z, 102); (2016%Z, 137); (2017%Z, 137); (2018%Z, 187);
              (2019%Z, 137) ]).

Definition line_and_noise_world : World :=
  world_of line_and_noise_source empty_source empty_source.

(** The entry of Aland in that run. *)
Definition aland_entry : Hotspot := mkHotspot "Aland" 100000 0 1800000.

(** * Properties *)

(** ** Numbers *)

Lemma Qltb_lt (a b : Q) : Qltb a b = true <-> a < b.
Proof.
  unfold Qltb. rewrite negb_true_iff. split; intro H.
  - apply Qnot_le_lt. intro Hle. apply Qle_bool_iff in Hle. congruence.
  - destruct (Qle_bool b a) eqn:E; [|reflexivity].
    apply Qle_bool_iff in E. exfalso. exact (Qlt_not_le _ _ H E).
Qed.

Lemma Qltb_ge (a b : Q) : Qltb a b = false <-> b <= a.
Proof.
  unfold Qltb. rewrite negb_false_iff. apply Qle_bool_iff.
Qed.

Lemma Qltb_comp (a a' b : Q) : a == a' -> Qltb a b = Qltb a' b.
Proof.
  intro H. destruct (Qltb a' b) eqn:E.
  - apply Qltb_lt. apply Qltb_lt in E. now rewrite H.
  - apply Qltb_ge. apply Qltb_ge in E. now rewrite H.
Qed.

Lemma qmax_cases (a b : Q) :
  (qmax a b = a \/ qmax a b = b) /\ a <= qmax a b /\ b <= qmax a b.
Proof.
  unfold qmax. destruct (Qle_bool a b) eqn:E.
  - apply Qle_bool_iff in E. repeat split; auto. apply Qle_refl.
  - assert (b <= a).
    { apply Qlt_le_weak, Qnot_le_lt. intro H. apply Qle_bool_iff in H. congruence. }
    repeat split; auto. apply Qle_refl.
Qed.

(** ** The error monad *)

Lemma mapM_ok_map {A B : Type} (f : A -> result B) (g : A -> B) (l : list A) :
  (forall a, In a l -> f a = Ok (g a)) -> mapM f l = Ok (map g l).
Proof.
  induction l as [|a l IH]; intro H; simpl; [reflexivity|].
  rewrite (H a (or_introl eq_refl)). simpl.
  rewrite IH; [reflexivity|]. intros; apply H; now right.
Qed.

Lemma mapM_raise {A B : Type} (f : A -> result B) (l : list A) (a : A) (e : exn) :
  In a l -> f a = Raise e -> exists e', mapM f l = Raise e'.
Proof.
  induction l as [|b l IH]; intros Hin Hf; [contradiction|].
  simpl. destruct Hin as [->|Hin].
  - rewrite Hf. simpl. eauto.
  - destruct (f b); simpl; [|eauto].
    destruct (IH Hin Hf) as [e' ->]. simpl. eauto.
Qed.

(** ** Unit rescaling ([_standardize_format]) *)

Lemma series_max_numeric (s : list cell) :
  (forall t, ~ In (Str t) s) ->
  exists m, series_max s = Ok m /\
    match m with
    | Some q => In (Num q) s /\ forall q', In (Num q') s -> q' <= q
    | None => forall q, ~ In (Num q) s
    end.
Proof.
  induction s as [|c s IH]; intro Hs.
  - exists None. split; [reflexivity|]. intros q [].
  - destruct IH as [m [Hm Hspec]].
    { intros t Ht. apply (Hs t). now right. }
    destruct c as [q|t|]; simpl.
    + rewrite Hm. simpl. eexists. split; [reflexivity|].
      destruct m as [q'|].
      * destruct Hspec as [Hin Hmax].
        destruct (qmax_cases q q') as [[E|E] [H1 H2]]; rewrite E in *.
        -- split; [now left|]. intros x [Hx|Hx].
           ++ injection Hx as <-. apply Qle_refl.
           ++ eapply Qle_trans; [apply Hmax, Hx|exact H2].
        -- split; [now right|]. intros x [Hx|Hx].
           ++ injection Hx as <-. exact H1.
           ++ apply Hmax, Hx.
      * split; [now left|]. intros x [Hx|Hx].
        -- injection Hx as <-. apply Qle_refl.
        -- exfalso. exact (Hspec x Hx).
    + exfalso. apply (Hs t). now left.
    + exists m. split; [exact Hm|].
      destruct m as [q'|].
      * destruct Hspec as [Hin Hmax]. split; [now right|].
        intros x [Hx|Hx]; [discriminate|auto].
      * intros x [Hx|Hx]; [discriminate|]. exact (Hspec x Hx).
Qed.

Lemma series_max_observed (s : list cell) (m : Q) :
  observed_max s m -> exists q, series_max s = Ok (Some q) /\ q == m.
Proof.
  intros [Hstr [[q0 [Hin0 Heq0]] Hmax]].
  destruct (series_max_numeric s Hstr) as [[q|] [Hm Hspec]].
  - exists q. split; [exact Hm|]. destruct Hspec as [Hin Hle].
    apply Qle_antisym; [apply Hmax, Hin|].
    rewrite <- Heq0. apply Hle, Hin0.
  - exfalso. exact (Hspec q0 Hin0).
Qed.

Lemma series_max_string (s : list cell) (t : string) :
  In (Str t) s -> series_max s = Raise TypeError.
Proof.
  induction s as [|c s IH]; intros Hin; [contradiction|].
  destruct Hin as [->|Hin]; [reflexivity|].
  destruct c; simpl; auto. rewrite (IH Hin). reflexivity.
Qed.

Lemma scale_numeric (df : DataFrame) (k : Q) :
  (forall t, ~ In (Str t) (map co2_emissions (rows df))) ->
  scale_co2_emissions df k = Ok (mkDF (columns df) (map (times k) (rows df))).
Proof.
  intro Hs. unfold scale_co2_emissions.
  rewrite (mapM_ok_map (scale_row k) (times k)); [reflexivity|].
  intros r Hr. unfold scale_row, times.
  destruct (co2_emissions r) as [q|t|] eqn:E; simpl; try reflexivity.
  - exfalso. apply (Hs t). rewrite <- E. now apply in_map.
  - unfold set_co2_emissions. rewrite <- E. now destruct r.
Qed.

Lemma in_columns_count (label : string) (df : DataFrame) :
  in_columns label df = true <->
  (0 < count_occ string_dec (columns df) label)%nat.
Proof.
  unfold in_columns. rewrite existsb_exists. split.
  - intros [x [Hin Hx]]. apply String.eqb_eq in Hx. subst.
    now apply (count_occ_In string_dec) in Hin.
  - intro Hin. exists label. split; [|apply String.eqb_refl].
    now apply (count_occ_In string_dec).
Qed.

(** C2.  A source whose one [co2_emissions] column is numeric with maximum
    observed value [m] is rescaled as a whole: every value is multiplied by
    1e6 when [m < 1e3], by 1e3 when [1e3 <= m < 1e6], and the table is left
    as it is when [m >= 1e6].  The function only sees the table of one
    source. *)
Theorem standardize_rescales_by_magnitude (df : DataFrame) (m : Q) :
  count_occ string_dec (columns (rename df)) "co2_emissions"%string = 1%nat ->
  observed_max (map co2_emissions (rows df)) m ->
  (m < 1000 ->
   _standardize_format df =
     Ok (mkDF (columns (rename df)) (map (times 1000000) (rows df)))) /\
  (1000 <= m -> m < 1000000 ->
   _standardize_format df =
     Ok (mkDF (columns (rename df)) (map (times 1000) (rows df)))) /\
  (1000000 <= m -> _standardize_format df = Ok (rename df)).
Proof.
  intros Hcount Hmax.
  destruct (series_max_observed Hmax) as [q [Hq Heq]].
  assert (Hin : in_columns "co2_emissions" (rename df) = true).
  { apply in_columns_count. rewrite Hcount. lia. }
  assert (Hget : getitem (rename df) "co2_emissions" co2_emissions
                 = Ok (map co2_emissions (rows df))).
  { unfold getitem. rewrite Hcount. reflexivity. }
  assert (Hstr : forall t, ~ In (Str t) (map co2_emissions (rows (rename df)))).
  { exact (proj1 Hmax). }
  unfold _standardize_format. cbv zeta. rewrite Hin, Hget. simpl bind.
  rewrite Hq. simpl bind. unfold nan_lt.
  rewrite !(Qltb_comp _ Heq).
  repeat split.
  - intro Hlt. apply Qltb_lt in Hlt. rewrite Hlt.
    now rewrite scale_numeric.
  - intros Hge Hlt. apply Qltb_ge in Hge. apply Qltb_lt in Hlt.
    rewrite Hge, Hlt. now rewrite scale_numeric.
  - intro Hge.
    assert (H3 : Qltb m 1000 = false).
    { apply Qltb_ge. eapply Qle_trans; [|exact Hge]. discriminate. }
    apply Qltb_ge in Hge. rewrite H3, Hge. reflexivity.
Qed.

(** ** The order on group keys *)

Lemma string_compare_refl (s : string) : String.compare s s = Eq.
Proof. now apply String_as_OT.cmp_eq. Qed.

Lemma string_lt_trans (a b c : string) :
  String.compare a b = Lt -> String.compare b c = Lt -> String.compare a c = Lt.
Proof.
  intros H1 H2. apply String_as_OT.cmp_lt.
  apply String_as_OT.cmp_lt in H1. apply String_as_OT.cmp_lt in H2.
  eapply String_as_OT.lt_trans; eassumption.
Qed.

Lemma string_compare_eq (a b : string) : String.compare a b = Eq -> a = b.
Proof. apply String_as_OT.cmp_eq. Qed.

Lemma key_compare_eq (a b : key) : key_compare a b = Eq <-> a = b.
Proof.
  destruct a as [[c1 y1] k1], b as [[c2 y2] k2]. unfold key_compare. split.
  - destruct (String.compare c1 c2) eqn:E1; try discriminate.
    destruct (Z.compare y1 y2) eqn:E2; try discriminate.
    intro E3. apply string_compare_eq in E1, E3. apply Z.compare_eq in E2.
    now subst.
  - intro H. injection H as -> -> ->.
    now rewrite string_compare_refl, Z.compare_refl, string_compare_refl.
Qed.

Lemma key_compare_refl (a : key) : key_compare a a = Eq.
Proof. now apply key_compare_eq. Qed.

Lemma key_compare_antisym (a b : key) :
  key_compare a b = CompOpp (key_compare b a).
Proof.
  destruct a as [[c1 y1] k1], b as [[c2 y2] k2]. unfold key_compare.
  pose proof (String_as_OT.cmp_antisym c1 c2) as Hc.
  pose proof (String_as_OT.cmp_antisym k1 k2) as Hk.
  unfold String_as_OT.cmp in Hc, Hk. rewrite Hc.
  destruct (String.compare c2 c1); simpl; try reflexivity.
  rewrite (Z.compare_antisym y2 y1).
  destruct (Z.compare y2 y1); simpl; try reflexivity.
  exact Hk.
Qed.

Lemma key_lt_trans (a b c : key) : key_lt a b -> key_lt b c -> key_lt a c.
Proof.
  destruct a as [[c1 y1] k1], b as [[c2 y2] k2], c as [[c3 y3] k3].
  unfold key_lt, key_compare.
  destruct (String.compare c1 c2) eqn:E12; try discriminate;
  destruct (String.compare c2 c3) eqn:E23; try discriminate.
  - apply string_compare_eq in E12, E23. subst. rewrite string_compare_refl.
    destruct (Z.compare y1 y2) eqn:Y12; try discriminate;
    destruct (Z.compare y2 y3) eqn:Y23; try discriminate.
    + apply Z.compare_eq in Y12, Y23. subst. rewrite Z.compare_refl.
      apply string_lt_trans.
    + apply Z.compare_eq in Y12. subst. now rewrite Y23.
    + apply Z.compare_eq in Y23. subst. now rewrite Y12.
    + intros _ _. rewrite Z.compare_lt_iff in *.
      assert (H : (y1 ?= y3)%Z = Lt) by (apply Z.compare_lt_iff; lia).
      now rewrite H.
  - apply string_compare_eq in E12. subst. now rewrite E23.
  - apply string_compare_eq in E23. subst. now rewrite E12.
  - now rewrite (string_lt_trans _ _ _ E12 E23).
Qed.

Lemma key_lt_irrefl (a : key) : ~ key_lt a a.
Proof. unfold key_lt. now rewrite key_compare_refl. Qed.

Lemma key_eqb_eq (a b : key) : key_eqb a b = true <-> a = b.
Proof.
  unfold key_eqb. rewrite <- key_compare_eq.
  destruct (key_compare a b); split; congruence.
Qed.

Lemma in_group_iff (k : key) (r : NumRow) :
  in_group k r = true <-> row_key r = Some k.
Proof.
  unfold in_group. destruct (row_key r) as [k'|].
  - rewrite key_eqb_eq. split; congruence.
  - split; discriminate.
Qed.

(** ** The keys of [groupby] *)

Lemma insert_key_In (k x : key) (l : list key) :
  In x (insert_key k l) <-> x = k \/ In x l.
Proof.
  induction l as [|h t IH]; simpl.
  - intuition.
  - destruct (key_compare k h) eqn:E; simpl.
    + apply key_compare_eq in E. subst. intuition.
    + intuition.
    + rewrite IH. intuition.
Qed.

Lemma insert_key_HdRel (h k : key) (t : list key) :
  HdRel key_lt h t -> key_lt h k -> HdRel key_lt h (insert_key k t).
Proof.
  intros Ht Hk. destruct t as [|x t]; simpl.
  - now constructor.
  - inversion Ht; subst. destruct (key_compare k x); now constructor.
Qed.

Lemma insert_key_Sorted (k : key) (l : list key) :
  Sorted key_lt l -> Sorted key_lt (insert_key k l).
Proof.
  induction l as [|h t IH]; intro Hs; simpl.
  - repeat constructor.
  - inversion Hs; subst. destruct (key_compare k h) eqn:E.
    + exact Hs.
    + constructor; [exact Hs|now constructor].
    + constructor; [now apply IH|].
      apply insert_key_HdRel; [assumption|].
      unfold key_lt. rewrite key_compare_antisym, E. reflexivity.
Qed.

Lemma group_keys_Sorted (rs : list NumRow) : Sorted key_lt (group_keys rs).
Proof.
  induction rs as [|r rs IH]; simpl; [constructor|].
  destruct (row_key r); [now apply insert_key_Sorted|exact IH].
Qed.

Lemma group_keys_In (rs : list NumRow) (k : key) :
  In k (group_keys rs) <-> exists r, In r rs /\ row_key r = Some k.
Proof.
  induction rs as [|r rs IH]; simpl.
  - split; [contradiction|]. intros [r [[] _]].
  - destruct (row_key r) as [k'|] eqn:E.
    + rewrite insert_key_In, IH. split.
      * intros [->|[r' [Hin Hk]]]; eauto.
      * intros [r' [[<-|Hin] Hk]]; [left; congruence|right; eauto].
    + rewrite IH. split.
      * intros [r' [Hin Hk]]; eauto.
      * intros [r' [[<-|Hin] Hk]]; [congruence|eauto].
Qed.

Lemma key_lt_StronglySorted (l : list key) :
  Sorted key_lt l -> StronglySorted key_lt l.
Proof. apply Sorted_StronglySorted. exact key_lt_trans. Qed.

Lemma StronglySorted_key_NoDup (l : list key) :
  StronglySorted key_lt l -> NoDup l.
Proof.
  induction 1 as [|a l Hs IH Hall]; constructor; [|exact IH].
  intro Hin. rewrite Forall_forall in Hall.
  exact (key_lt_irrefl (Hall a Hin)).
Qed.

Lemma group_keys_NoDup (rs : list NumRow) : NoDup (group_keys rs).
Proof.
  apply StronglySorted_key_NoDup, key_lt_StronglySorted, group_keys_Sorted.
Qed.

Lemma aggregate_key (rs : list NumRow) (k : key) :
  combined_key (aggregate rs k) = k.
Proof. now destruct k as [[c y] code]. Qed.

Lemma groupby_agg_keys (rs : list NumRow) :
  map combined_key (groupby_agg rs) = group_keys rs.
Proof.
  unfold groupby_agg. rewrite map_map.
  rewrite (map_ext _ (fun k => k)); [apply map_id|].
  intros k. apply aggregate_key.
Qed.

(** ** Insertion sort *)

Section StableSortFacts.
Variable A : Type.
Variable leb : A -> A -> bool.

Lemma insert_sorted_perm (x : A) (l : list A) :
  Permutation (insert_sorted leb x l) (x :: l).
Proof.
  induction l as [|h t IH]; simpl; [reflexivity|].
  destruct (leb x h); [reflexivity|].
  rewrite IH. apply perm_swap.
Qed.

Lemma stable_sort_perm (l : list A) : Permutation (stable_sort leb l) l.
Proof.
  induction l as [|x l IH]; simpl; [reflexivity|].
  rewrite insert_sorted_perm. now constructor.
Qed.

(** A list that is in order already is left as it is. *)
Lemma stable_sort_sorted_id (l : list A) :
  Sorted (fun a b => leb a b = true) l -> stable_sort leb l = l.
Proof.
  induction 1 as [|x l Hs IH Hhd]; simpl; [reflexivity|].
  rewrite IH. destruct Hhd as [|h t Hxh]; simpl; [reflexivity|].
  now rewrite Hxh.
Qed.

Variable R : A -> A -> Prop.
Hypothesis leb_true : forall x h, leb x h = true -> R x h.
Hypothesis leb_false : forall x h, leb x h = false -> R h x.

Lemma insert_sorted_HdRel (a x : A) (l : list A) :
  HdRel R a l -> R a x -> HdRel R a (insert_sorted leb x l).
Proof.
  intros Hl Hx. destruct l as [|h t]; simpl; [now constructor|].
  inversion Hl; subst. destruct (leb x h); now constructor.
Qed.

Lemma insert_sorted_Sorted (x : A) (l : list A) :
  Sorted R l -> Sorted R (insert_sorted leb x l).
Proof.
  induction 1 as [|h t Hs IH Hhd]; simpl; [repeat constructor|].
  destruct (leb x h) eqn:E.
  - constructor; [now constructor|]. constructor. now apply leb_true.
  - constructor; [exact IH|].
    apply insert_sorted_HdRel; [exact Hhd|now apply leb_false].
Qed.

Lemma stable_sort_Sorted (l : list A) : Sorted R (stable_sort leb l).
Proof.
  induction l as [|x l IH]; simpl; [constructor|].
  now apply insert_sorted_Sorted.
Qed.
End StableSortFacts.

(** ** The cleaning pipeline *)

Lemma key_lt_country_year (a b : CombinedRow) :
  key_lt (combined_key a) (combined_key b) -> country_year_leb a b = true.
Proof.
  unfold key_lt, combined_key, key_compare, country_year_leb.
  destruct (String.compare (c_country a) (c_country b)); try easy.
  destruct (Z.compare (c_year a) (c_year b)) eqn:E; try easy; intros _.
  - apply Z.compare_eq in E. rewrite E. apply Z.leb_refl.
  - apply Z.leb_le, Z.lt_le_incl. exact E.
Qed.

Lemma Sorted_keys_country_year (l : list CombinedRow) :
  Sorted key_lt (map combined_key l) ->
  Sorted (fun a b => country_year_leb a b = true) l.
Proof.
  induction l as [|a l IH]; simpl; intro Hs; [constructor|].
  inversion Hs as [|? ? Hs' Hhd]; subst. constructor; [now apply IH|].
  destruct l as [|b l]; simpl in *; constructor.
  inversion Hhd; subst. now apply key_lt_country_year.
Qed.

Lemma groupby_sorted_stays (rs : list NumRow) :
  stable_sort country_year_leb (groupby_agg rs) = groupby_agg rs.
Proof.
  apply stable_sort_sorted_id, Sorted_keys_country_year.
  rewrite groupby_agg_keys. apply group_keys_Sorted.
Qed.

Lemma rolling_transform_erase (seen rest : list CombinedRow) :
  map (set_ma None) (rolling_transform seen rest) = map (set_ma None) rest.
Proof.
  revert seen. induction rest as [|r rest IH]; intro seen; simpl; [reflexivity|].
  now rewrite IH.
Qed.

Lemma rolling_transform_keys (seen rest : list CombinedRow) :
  map combined_key (rolling_transform seen rest) = map combined_key rest.
Proof.
  revert seen. induction rest as [|r rest IH]; intro seen; simpl; [reflexivity|].
  now rewrite IH.
Qed.

Lemma rolling_transform_In (seen rest : list CombinedRow) (row : CombinedRow) :
  In row (rolling_transform seen rest) ->
  exists r ma, In r rest /\ row = set_ma ma r.
Proof.
  revert seen. induction rest as [|r rest IH]; intro seen; simpl; [contradiction|].
  intros [<-|Hin].
  - eauto.
  - destruct (IH _ Hin) as [r' [ma [H1 H2]]]. eauto.
Qed.

Lemma getitem_ok_inv {A : Type} (df : DataFrame) (label : string)
    (field : Row -> A) (s : list A) :
  getitem df label field = Ok s ->
  count_occ string_dec (columns df) label = 1%nat.
Proof.
  unfold getitem.
  destruct (count_occ string_dec (columns df) label) as [|[|n]];
    now try discriminate.
Qed.

Lemma getitem_absent {A : Type} (df : DataFrame) (label : string)
    (field : Row -> A) :
  in_columns label df = false ->
  getitem df label field = Raise (KeyError label).
Proof.
  intro H. unfold getitem.
  destruct (count_occ string_dec (columns df) label) eqn:E; [reflexivity|].
  assert (in_columns label df = true) by (apply in_columns_count; lia).
  congruence.
Qed.

(** What [_clean_combined_data] returns when it returns. *)
Lemma clean_ok (parse_float : string -> option Q) (df : DataFrame)
    (cd : list CombinedRow) :
  _clean_combined_data parse_float df = Ok cd ->
  cd = rolling_transform [] (groupby_agg (surviving parse_float df)).
Proof.
  unfold _clean_combined_data.
  destruct (getitem df "co2_emissions" co2_emissions); [|discriminate].
  destruct (getitem df "country" country); [|discriminate].
  destruct (getitem df "year" year); [|discriminate].
  destruct (getitem df "country_code" country_code); [|discriminate].
  destruct (getitem df "co2_per_capita" co2_per_capita); [|discriminate].
  simpl. rewrite groupby_sorted_stays. congruence.
Qed.

Lemma clean_keys (parse_float : string -> option Q) (df : DataFrame)
    (cd : list CombinedRow) :
  _clean_combined_data parse_float df = Ok cd ->
  map combined_key cd = group_keys (surviving parse_float df).
Proof.
  intro H. rewrite (clean_ok _ _ H), rolling_transform_keys.
  apply groupby_agg_keys.
Qed.

(** ** One row per key (grouping) *)

Lemma NoDup_map_eq {A B : Type} (f : A -> B) (l : list A) (a b : A) :
  NoDup (map f l) -> In a l -> In b l -> f a = f b -> a = b.
Proof.
  induction l as [|x l IH]; simpl; intros Hnd Ha Hb Hf; [contradiction|].
  inversion Hnd as [|? ? Hx Hnd']; subst.
  destruct Ha as [->|Ha], Hb as [->|Hb]; auto.
  - exfalso. apply Hx. rewrite Hf. now apply in_map.
  - exfalso. apply Hx. rewrite <- Hf. now apply in_map.
Qed.

Lemma combined_key_set_ma (ma : option Q) (r : CombinedRow) :
  combined_key (set_ma ma r) = combined_key r.
Proof. reflexivity. Qed.

Lemma surviving_In (parse_float : string -> option Q) (df : DataFrame)
    (r : NumRow) :
  In r (surviving parse_float df) <->
  exists raw, In raw (rows df) /\ r = numeric_row parse_float raw /\
              country raw <> None /\
              exists y, year raw = Some y /\ (1970 <= y)%Z.
Proof.
  unfold surviving. rewrite !filter_In, in_map_iff. split.
  - intros [[[raw [<- Hraw]] Hc] Hy]. exists raw. simpl in *.
    repeat split; auto.
    + destruct (country raw); [discriminate|discriminate Hc].
    + destruct (year raw) as [y|]; [|discriminate Hy].
      exists y. split; [reflexivity|]. now apply Z.leb_le.
  - intros [raw [Hraw [-> [Hc [y [Hy Hge]]]]]]. simpl. repeat split.
    + eauto.
    + destruct (country raw); [reflexivity|congruence].
    + rewrite Hy. simpl. now apply Z.leb_le.
Qed.

(** C3 (amended).  When the cleaning step returns, the Combined Dataset has
    one row per (country, year, country_code) triple; every surviving row
    that names a country code belongs to the group of exactly one of these
    rows; the values of a row are the means, missing values left out, over
    the surviving rows of its group, which is not empty; and a surviving row
    without country code belongs to no group. *)
Theorem clean_one_row_per_key (parse_float : string -> option Q)
    (df : DataFrame) (cd : list CombinedRow) :
  _clean_combined_data parse_float df = Ok cd ->
  NoDup (map combined_key cd) /\
  (forall r, In r (surviving parse_float df) -> n_country_code r <> None ->
     exists row, In row cd /\ in_group (combined_key row) r = true /\
       forall row', In row' cd -> in_group (combined_key row') r = true ->
                    row' = row) /\
  (forall row, In row cd ->
     let g := filter (in_group (combined_key row)) (surviving parse_float df) in
     g <> [] /\
     c_co2_emissions row = mean (map n_co2_emissions g) /\
     c_co2_per_capita row = mean (map n_co2_per_capita g)) /\
  (forall r, In r (surviving parse_float df) -> n_country_code r = None ->
     forall row, In row cd -> in_group (combined_key row) r = false).
Proof.
  intro Hclean.
  pose proof (clean_keys _ _ Hclean) as Hkeys.
  assert (Hnd : NoDup (map combined_key cd)).
  { rewrite Hkeys. apply group_keys_NoDup. }
  split; [exact Hnd|]. split; [|split].
  - intros r Hr Hcode.
    assert (Hk : exists k, row_key r = Some k).
    { apply surviving_In in Hr.
      destruct Hr as [raw [_ [-> [Hc [y [Hy _]]]]]].
      unfold row_key. simpl in *. rewrite Hy.
      destruct (country raw); [|congruence].
      destruct (country_code raw); [eauto|congruence]. }
    destruct Hk as [k Hk].
    assert (Hin : In k (map combined_key cd)).
    { rewrite Hkeys. apply group_keys_In. eauto. }
    apply in_map_iff in Hin. destruct Hin as [row [Hrow Hin]].
    exists row. split; [exact Hin|]. split.
    + apply in_group_iff. congruence.
    + intros row' Hin' Hg. apply in_group_iff in Hg.
      apply (NoDup_map_eq combined_key cd); auto. congruence.
  - intros row Hrow. rewrite (clean_ok _ _ Hclean) in Hrow.
    apply rolling_transform_In in Hrow.
    destruct Hrow as [r0 [ma [Hr0 ->]]].
    unfold groupby_agg in Hr0. apply in_map_iff in Hr0.
    destruct Hr0 as [k [<- Hk]].
    rewrite combined_key_set_ma, aggregate_key. cbv zeta.
    split; [|destruct k as [[c y] code]; split; reflexivity].
    apply group_keys_In in Hk. destruct Hk as [r [Hr Hrk]].
    intro Hnil.
    assert (Hf : In r (filter (in_group k) (surviving parse_float df))).
    { apply filter_In. split; [exact Hr|]. now apply in_group_iff. }
    rewrite Hnil in Hf. exact Hf.
  - intros r _ Hcode row _. unfold in_group, row_key. rewrite Hcode.
    now destruct (n_country r), (n_year r).
Qed.

(** C3, as stated, fails on a row without country code: the row survives
    the filters, and the Combined Dataset has no row at all. *)
Lemma row_without_code_is_dropped :
  surviving parse_digits codeless_table
    = [ mkNumRow (Some "Atlantis"%string) (Some 2000%Z) None (Some 5) None ] /\
  _clean_combined_data parse_digits codeless_table = Ok [] /\
  ~ (forall r, In r (surviving parse_digits codeless_table) ->
       exists cd row, _clean_combined_data parse_digits codeless_table = Ok cd /\
                      In row cd /\ c_country row = "Atlantis"%string).
Proof.
  split; [reflexivity|]. split; [reflexivity|].
  intro H. destruct (H _ (or_introl eq_refl)) as [cd [row [Hcd [Hin _]]]].
  vm_compute in Hcd. injection Hcd as <-. exact Hin.
Qed.

(** ** The rolling mean *)

Lemma same_country_eq (c : string) (r : CombinedRow) :
  same_country c r = true -> c_country r = c.
Proof. apply String.eqb_eq. Qed.

(** The rolling mean of a country only depends on the rows of that
    country. *)
Lemma rolling_transform_country (c : string) (seen rest : list CombinedRow) :
  map co2_ma_5yr (filter (same_country c) (rolling_transform seen rest))
  = rolling_series (map c_co2_emissions (filter (same_country c) seen))
                   (map c_co2_emissions (filter (same_country c) rest)).
Proof.
  revert seen. induction rest as [|r rest IH]; intro seen; [reflexivity|].
  cbn [rolling_transform filter].
  change (same_country c (set_ma _ r)) with (same_country c r).
  destruct (same_country c r) eqn:E.
  - cbn [map rolling_series]. rewrite IH. cbn [filter]. rewrite E.
    apply same_country_eq in E. rewrite E. reflexivity.
  - rewrite IH. cbn [filter]. rewrite E. reflexivity.
Qed.

Lemma rolling_transform_emissions (c : string) (seen rest : list CombinedRow) :
  map c_co2_emissions (filter (same_country c) (rolling_transform seen rest))
  = map c_co2_emissions (filter (same_country c) rest).
Proof.
  revert seen. induction rest as [|r rest IH]; intro seen; [reflexivity|].
  cbn [rolling_transform filter].
  change (same_country c (set_ma _ r)) with (same_country c r).
  destruct (same_country c r); cbn [map]; now rewrite IH.
Qed.

Lemma rolling_series_nth (prev xs : list (option Q)) (j : nat) (x : option Q) :
  nth_error xs j = Some x ->
  nth_error (rolling_series prev xs) j
  = Some (window_mean (rev (firstn 5 (rev (firstn (S j) xs) ++ prev)))).
Proof.
  revert prev j. induction xs as [|x0 xs IH]; intros prev j Hj.
  - now destruct j.
  - destruct j as [|j]; [reflexivity|].
    cbn [rolling_series nth_error]. rewrite (IH _ _ Hj).
    change (firstn (S (S j)) (x0 :: xs)) with (x0 :: firstn (S j) xs).
    cbn [rev]. now rewrite <- app_assoc.
Qed.

Lemma rolling_series_window (xs : list (option Q)) (j : nat) (x : option Q) :
  nth_error xs j = Some x ->
  nth_error (rolling_series [] xs) j
  = Some (window_mean (trailing_window xs j)).
Proof.
  intro Hj. rewrite (rolling_series_nth [] _ _ Hj).
  rewrite app_nil_r, firstn_rev, rev_involutive.
  assert (Hlen : List.length (firstn (S j) xs) = S j).
  { apply firstn_length_le.
    assert (j < List.length xs)%nat by (apply nth_error_Some; congruence). lia. }
  rewrite Hlen. reflexivity.
Qed.

Lemma rolling_series_length (prev xs : list (option Q)) :
  List.length (rolling_series prev xs) = List.length xs.
Proof.
  revert prev. induction xs as [|x xs IH]; intro prev; simpl; [reflexivity|].
  now rewrite IH.
Qed.

Lemma dropna_length (l : list (option Q)) :
  (List.length (dropna l) <= List.length l)%nat.
Proof.
  induction l as [|[q|] l IH]; simpl; lia.
Qed.

Lemma window_mean_defined (w : list (option Q)) :
  window_mean w <> None <-> (3 <= List.length (dropna w))%nat.
Proof.
  unfold window_mean, mean.
  destruct (3 <=? List.length (dropna w))%nat eqn:E.
  - apply Nat.leb_le in E. split; [auto|]. intros _.
    destruct (dropna w); [simpl in E; lia|discriminate].
  - apply Nat.leb_gt in E. split; [congruence|lia].
Qed.

Lemma trailing_window_length (xs : list (option Q)) (j : nat) :
  (List.length (trailing_window xs j) <= S j)%nat.
Proof.
  unfold trailing_window. rewrite length_skipn.
  pose proof (firstn_le_length (S j) xs). lia.
Qed.

(** Within a country the rows come in ascending year. *)
Lemma years_ascending (c : string) (l : list CombinedRow) :
  StronglySorted key_lt (map combined_key l) ->
  StronglySorted Z.le (map c_year (filter (same_country c) l)).
Proof.
  induction l as [|a l IH]; simpl; intro Hs; [constructor|].
  inversion Hs as [|? ? Hs' Hall]; subst.
  destruct (same_country c a) eqn:Ea; [|now apply IH].
  simpl. constructor; [now apply IH|].
  rewrite Forall_forall in *. intros y Hy.
  apply in_map_iff in Hy. destruct Hy as [b [<- Hb]].
  apply filter_In in Hb. destruct Hb as [Hb Eb].
  specialize (Hall (combined_key b) (in_map _ _ _ Hb)).
  apply same_country_eq in Ea, Eb.
  unfold key_lt, combined_key, key_compare in Hall.
  rewrite Ea, Eb, string_compare_refl in Hall.
  destruct (Z.compare (c_year a) (c_year b)) eqn:E; try discriminate.
  - apply Z.compare_eq in E. lia.
  - apply Z.lt_le_incl. exact E.
Qed.

(** C4.  In the Combined Dataset the rows of a country come in ascending
    year; [co2_ma_5yr] of the row at position [j] among them is the mean of
    the non-missing [co2_emissions] of the trailing window of five rows, and
    it is defined exactly when that window holds three non-missing values or
    more.  A country with three rows, each with a value, has it defined on
    the third row only; a country with at most two rows has it missing
    everywhere. *)
Theorem rolling_mean_per_country (parse_float : string -> option Q)
    (df : DataFrame) (cd : list CombinedRow) (c : string) :
  _clean_combined_data parse_float df = Ok cd ->
  let country_data := filter (same_country c) cd in
  let xs := map c_co2_emissions country_data in
  StronglySorted Z.le (map c_year country_data) /\
  (forall j row, nth_error country_data j = Some row ->
     co2_ma_5yr row
       = (if (3 <=? List.length (dropna (trailing_window xs j)))%nat
          then mean (trailing_window xs j) else None) /\
     (co2_ma_5yr row <> None <->
      (3 <= List.length (dropna (trailing_window xs j)))%nat)) /\
  (forall e1 e2 e3, xs = [Some e1; Some e2; Some e3] ->
     map co2_ma_5yr country_data = [None; None; mean xs] /\ mean xs <> None) /\
  ((List.length country_data <= 2)%nat ->
   forall row, In row country_data -> co2_ma_5yr row = None).
Proof.
  intros Hclean country_data xs.
  pose proof (clean_ok _ _ Hclean) as Hcd.
  assert (Hma : map co2_ma_5yr country_data = rolling_series [] xs).
  { unfold xs, country_data. rewrite Hcd at 1.
    rewrite rolling_transform_country. simpl filter. simpl map at 1.
    rewrite Hcd at 1. now rewrite rolling_transform_emissions. }
  assert (Hnth : forall j row, nth_error country_data j = Some row ->
            co2_ma_5yr row = window_mean (trailing_window xs j)).
  { intros j row Hj.
    pose proof (map_nth_error co2_ma_5yr _ _ Hj) as H1.
    pose proof (map_nth_error c_co2_emissions _ _ Hj) as H2.
    fold xs in H2. rewrite Hma, (rolling_series_window _ _ H2) in H1.
    congruence. }
  split; [|split; [|split]].
  - apply years_ascending, key_lt_StronglySorted.
    rewrite (clean_keys _ _ Hclean). apply group_keys_Sorted.
  - intros j row Hj. rewrite (Hnth _ _ Hj). split; [reflexivity|].
    apply window_mean_defined.
  - intros e1 e2 e3 Hxs. rewrite Hma, Hxs. split; [reflexivity|discriminate].
  - intros Hlen row Hin. apply In_nth_error in Hin. destruct Hin as [j Hj].
    rewrite (Hnth _ _ Hj).
    assert (Hjlt : (j < List.length country_data)%nat).
    { apply nth_error_Some. congruence. }
    destruct (window_mean (trailing_window xs j)) eqn:E; [|reflexivity].
    assert (H3 : (3 <= List.length (dropna (trailing_window xs j)))%nat).
    { apply window_mean_defined. congruence. }
    pose proof (dropna_length (trailing_window xs j)).
    pose proof (trailing_window_length xs j). lia.
Qed.

(** ** Aggregating an aggregated table *)

Lemma mean_lowest_terms (l : list (option Q)) : lowest_terms (mean l).
Proof.
  unfold mean, lowest_terms. destruct (dropna l); [exact I|].
  apply Qred_complete, Qred_correct.
Qed.

Lemma mean_singleton (x : option Q) : lowest_terms x -> mean [x] = x.
Proof.
  destruct x as [q|]; unfold lowest_terms; intro H; [|reflexivity].
  unfold mean. cbn [dropna List.length sumQ fold_right]. f_equal.
  rewrite <- H at 2. apply Qred_complete. unfold Qdiv.
  change (/ inject_Z (Z.of_nat 1)) with 1.
  now rewrite Qmult_1_r, Qplus_0_r.
Qed.

Lemma insert_key_front (k : key) (l : list key) :
  HdRel key_lt k l -> insert_key k l = k :: l.
Proof.
  intros [|h t H]; simpl; [reflexivity|].
  unfold key_lt in H. now rewrite H.
Qed.

Lemma group_keys_of_combined (l : list CombinedRow) :
  Sorted key_lt (map combined_key l) ->
  group_keys (map numeric_of_combined l) = map combined_key l.
Proof.
  induction l as [|a l IH]; simpl; intro Hs; [reflexivity|].
  inversion Hs as [|? ? Hs' Hhd]; subst.
  rewrite (IH Hs'). now apply insert_key_front.
Qed.

Lemma in_group_combined (k : key) (r : CombinedRow) :
  in_group k (numeric_of_combined r) = key_eqb (combined_key r) k.
Proof. reflexivity. Qed.

Lemma filter_group_none (l : list CombinedRow) (k : key) :
  ~ In k (map combined_key l) ->
  filter (in_group k) (map numeric_of_combined l) = [].
Proof.
  induction l as [|x l IH]; simpl; intro Hk; [reflexivity|].
  rewrite in_group_combined.
  destruct (key_eqb (combined_key x) k) eqn:E.
  - exfalso. apply Hk. left. now apply key_eqb_eq.
  - apply IH. intro H. apply Hk. now right.
Qed.

Lemma filter_group_singleton (l : list CombinedRow) (a : CombinedRow) :
  NoDup (map combined_key l) -> In a l ->
  filter (in_group (combined_key a)) (map numeric_of_combined l)
  = [numeric_of_combined a].
Proof.
  induction l as [|b l IH]; simpl; intros Hnd Hin; [contradiction|].
  inversion Hnd as [|? ? Hb Hnd']; subst.
  rewrite in_group_combined.
  destruct (key_eqb (combined_key b) (combined_key a)) eqn:E.
  - apply key_eqb_eq in E.
    assert (b = a).
    { destruct Hin as [H|H]; [exact H|].
      exfalso. apply Hb. rewrite E. now apply in_map. }
    subst b. f_equal. now apply filter_group_none.
  - destruct Hin as [->|Hin].
    + rewrite (proj2 (key_eqb_eq _ _) eq_refl) in E. discriminate.
    + now apply IH.
Qed.

Lemma aggregate_of_combined (l : list CombinedRow) (a : CombinedRow) :
  NoDup (map combined_key l) -> In a l ->
  lowest_terms (c_co2_emissions a) -> lowest_terms (c_co2_per_capita a) ->
  aggregate (map numeric_of_combined l) (combined_key a) = set_ma None a.
Proof.
  intros Hnd Hin He Hp. unfold aggregate.
  rewrite (filter_group_singleton _ _ Hnd Hin). unfold combined_key.
  cbn [map n_co2_emissions n_co2_per_capita numeric_of_combined].
  now rewrite (mean_singleton _ He), (mean_singleton _ Hp).
Qed.

Lemma groupby_agg_of_combined (l : list CombinedRow) :
  Sorted key_lt (map combined_key l) ->
  (forall a, In a l ->
     lowest_terms (c_co2_emissions a) /\ lowest_terms (c_co2_per_capita a)) ->
  groupby_agg (map numeric_of_combined l) = map (set_ma None) l.
Proof.
  intros Hs Hc. unfold groupby_agg.
  rewrite (group_keys_of_combined _ Hs), map_map.
  apply map_ext_in. intros a Ha. destruct (Hc a Ha).
  apply aggregate_of_combined; auto.
  apply StronglySorted_key_NoDup, key_lt_StronglySorted, Hs.
Qed.

Lemma filter_all {A : Type} (f : A -> bool) (l : list A) :
  (forall x, In x l -> f x = true) -> filter f l = l.
Proof.
  induction l as [|x l IH]; simpl; intro H; [reflexivity|].
  rewrite (H x (or_introl eq_refl)). f_equal. apply IH. auto.
Qed.

Lemma to_numeric_cell_of (parse_float : string -> option Q) (x : option Q) :
  to_numeric parse_float (cell_of x) = x.
Proof. now destruct x. Qed.

Lemma surviving_as_frame (parse_float : string -> option Q)
    (cd : list CombinedRow) :
  (forall r, In r cd -> (1970 <= c_year r)%Z) ->
  surviving parse_float (as_frame cd) = map numeric_of_combined cd.
Proof.
  intro Hy. unfold surviving, as_frame. cbn [rows]. rewrite map_map.
  rewrite (map_ext _ numeric_of_combined).
  2:{ intro r. unfold numeric_row, row_of_combined, numeric_of_combined.
      cbn. now rewrite to_numeric_cell_of. }
  rewrite (filter_all (fun r => notna (n_country r))).
  2:{ intros r Hr. apply in_map_iff in Hr. now destruct Hr as [a [<- _]]. }
  apply filter_all. intros r Hr. apply in_map_iff in Hr.
  destruct Hr as [a [<- Ha]]. cbn. apply Z.leb_le. auto.
Qed.

Lemma clean_as_frame (parse_float : string -> option Q)
    (cd : list CombinedRow) :
  _clean_combined_data parse_float (as_frame cd)
  = Ok (rolling_transform []
          (stable_sort country_year_leb
             (groupby_agg (surviving parse_float (as_frame cd))))).
Proof. reflexivity. Qed.

Lemma groupby_agg_no_ma (rs : list NumRow) :
  map (set_ma None) (groupby_agg rs) = groupby_agg rs.
Proof.
  unfold groupby_agg. rewrite map_map. apply map_ext.
  intros [[c y] code]. reflexivity.
Qed.

Lemma groupby_agg_lowest_terms (rs : list NumRow) (row : CombinedRow) :
  In row (groupby_agg rs) ->
  lowest_terms (c_co2_emissions row) /\ lowest_terms (c_co2_per_capita row).
Proof.
  unfold groupby_agg. intro H. apply in_map_iff in H.
  destruct H as [[[c y] code] [<- _]]. split; apply mean_lowest_terms.
Qed.

(** Every row of the Combined Dataset has [year >= 1970]. *)
Lemma clean_years (parse_float : string -> option Q) (df : DataFrame)
    (cd : list CombinedRow) :
  _clean_combined_data parse_float df = Ok cd ->
  forall r, In r cd -> (1970 <= c_year r)%Z.
Proof.
  intros Hclean r Hr.
  assert (Hk : In (combined_key r) (group_keys (surviving parse_float df))).
  { rewrite <- (clean_keys _ _ Hclean). now apply in_map. }
  apply group_keys_In in Hk. destruct Hk as [n [Hn Hkey]].
  apply surviving_In in Hn.
  destruct Hn as [raw [_ [-> [_ [y [Hy Hge]]]]]].
  unfold row_key, numeric_row in Hkey. cbn in Hkey. rewrite Hy in Hkey.
  destruct (country raw); [|discriminate].
  destruct (country_code raw); [|discriminate].
  unfold combined_key in Hkey. congruence.
Qed.

(** C8.  The cleaning step applied to its own result returns that result:
    every group is a single row, whose mean is its value, the order is kept
    and the rolling mean is computed again from the same values. *)
Theorem clean_idempotent (parse_float : string -> option Q) (df : DataFrame)
    (cd : list CombinedRow) :
  _clean_combined_data parse_float df = Ok cd ->
  _clean_combined_data parse_float (as_frame cd) = Ok cd.
Proof.
  intro Hclean. pose proof (clean_ok _ _ Hclean) as Hcd.
  set (G := groupby_agg (surviving parse_float df)) in *.
  assert (Herase : map (set_ma None) cd = G).
  { rewrite Hcd, rolling_transform_erase. apply groupby_agg_no_ma. }
  assert (Hsorted : Sorted key_lt (map combined_key cd)).
  { rewrite (clean_keys _ _ Hclean). apply group_keys_Sorted. }
  assert (Hlow : forall a, In a cd ->
            lowest_terms (c_co2_emissions a) /\ lowest_terms (c_co2_per_capita a)).
  { intros a Ha. rewrite Hcd in Ha. apply rolling_transform_In in Ha.
    destruct Ha as [r [ma [Hr ->]]]. exact (groupby_agg_lowest_terms _ _ Hr). }
  rewrite clean_as_frame.
  rewrite (surviving_as_frame _ _ (clean_years _ _ Hclean)).
  rewrite (groupby_agg_of_combined _ Hsorted Hlow), Herase.
  unfold G. rewrite groupby_sorted_stays. fold G. now rewrite <- Hcd.
Qed.

(** ** Hotspot detection *)

Lemma unpacked_fields (res : LinregressResult) :
  slice 3 5 (as_tuple res) = [pvalue res; stderr res].
Proof. reflexivity. Qed.

(** Line 107 unpacks the pair (p-value, standard error) into [_, p_value]:
    the value kept under the name [p_value] is the standard error of the
    slope. *)
Lemma recorded_p_value_is_stderr (res : LinregressResult) :
  recorded_p_value res = stderr res.
Proof. reflexivity. Qed.

Lemma check_finite_ok (l : list (Z * option Q)) (d : list (Z * Q)) :
  check_finite l = Ok d -> l = map (fun p => (fst p, Some (snd p))) d.
Proof.
  unfold check_finite. revert d.
  induction l as [|[x [y|]] l IH]; intros d H; cbn [mapM snd fst bind] in H.
  - injection H as <-. reflexivity.
  - destruct (mapM _ l) as [d'|]; cbn [bind] in H; [|discriminate].
    injection H as <-. cbn [map fst snd]. now rewrite <- (IH d' eq_refl).
  - discriminate.
Qed.

Lemma check_finite_missing (l : list (Z * option Q)) (x : Z) :
  In (x, None) l -> exists e, check_finite l = Raise e.
Proof.
  intro H. unfold check_finite.
  eapply mapM_raise; [exact H|reflexivity].
Qed.

Section DetectorFacts.
Variable coef : list (Z * Q) -> result Q.
Variable lin : list (Z * Q) -> result LinregressResult.
Variable sort : list Hotspot -> list Hotspot.

Lemma analyse_entry (recent : list CombinedRow) (c : string)
    (o : option Hotspot) :
  analyse coef lin recent c = Ok o -> o = entry coef lin recent c.
Proof.
  unfold analyse, entry.
  destruct (List.length (filter (same_country c) recent) <? 5)%nat.
  - congruence.
  - destruct (check_finite (fit_input recent c)) as [d|]; [|discriminate].
    cbn [bind].
    destruct (coef d) as [g|]; [|discriminate].
    cbn [bind].
    destruct (lin d) as [res|]; [|discriminate].
    cbn [bind]. rewrite unpacked_fields.
    change (recorded_p_value res) with (stderr res). cbv zeta.
    destruct (Qltb 0 g && Qltb (stderr res) (1 # 20)); congruence.
Qed.

Lemma scan_ok (recent : list CombinedRow) (cs : list string)
    (acc hs : list Hotspot) :
  scan coef lin recent cs acc = Ok hs ->
  hs = acc ++ flat_map (fun c => option_list (entry coef lin recent c)) cs.
Proof.
  revert acc. induction cs as [|c cs IH]; intros acc H; cbn [scan] in H.
  - injection H as <-. now rewrite app_nil_r.
  - destruct (analyse coef lin recent c) as [o|] eqn:E; [|discriminate].
    cbn [bind] in H. apply IH in H. rewrite (analyse_entry _ _ E) in H.
    cbn [flat_map]. destruct (entry coef lin recent c); cbn [option_list].
    + now rewrite H, <- app_assoc.
    + exact H.
Qed.

Lemma scan_raise (recent : list CombinedRow) (cs : list string)
    (acc : list Hotspot) (c : string) (e : exn) :
  In c cs -> analyse coef lin recent c = Raise e ->
  exists e', scan coef lin recent cs acc = Raise e'.
Proof.
  revert acc. induction cs as [|c0 cs IH]; intros acc Hin Hc; [contradiction|].
  cbn [scan]. destruct Hin as [->|Hin].
  - rewrite Hc. cbn. eauto.
  - destruct (analyse coef lin recent c0); cbn [bind]; [|eauto].
    now apply IH.
Qed.

(** A missing smoothed value among the rows of a country with five rows or
    more makes the fit raise. *)
Lemma analyse_missing (recent : list CombinedRow) (c : string) (x : Z) :
  (5 <= List.length (filter (same_country c) recent))%nat ->
  In (x, None) (fit_input recent c) ->
  exists e, analyse coef lin recent c = Raise e.
Proof.
  intros Hlen Hin. unfold analyse.
  destruct (Nat.ltb_spec (List.length (filter (same_country c) recent)) 5)
    as [Hlt|Hge]; [lia|].
  destruct (check_finite_missing _ _ Hin) as [e ->]. cbn. eauto.
Qed.

Lemma detect_ok (cd : list CombinedRow) (start_year : Z) (top : list Hotspot) :
  detect coef lin sort cd start_year = Ok top ->
  qualifying coef lin (filter (year_from start_year) cd) <> [] /\
  top = firstn 3 (sort (qualifying coef lin (filter (year_from start_year) cd))).
Proof.
  unfold detect. cbv zeta.
  destruct (scan coef lin _ _ []) as [hs|] eqn:E; [|discriminate].
  cbn [bind]. apply scan_ok in E. cbn [app] in E. fold (qualifying coef lin
    (filter (year_from start_year) cd)) in E. rewrite <- E.
  destruct hs; cbn [rank]; [discriminate|].
  intro H. injection H as <-. split; [discriminate|reflexivity].
Qed.

Lemma identify_ok (a a' : Analyzer) (start_year : Z) :
  identify_hotspots coef lin sort a start_year = (a', true) ->
  exists cd top,
    combined_data a = Some cd /\
    detect coef lin sort cd start_year = Ok top /\
    a' = mkAnalyzer (Some cd) (Some top).
Proof.
  unfold identify_hotspots.
  destruct (combined_data a) as [cd|]; [|discriminate].
  destruct (detect coef lin sort cd start_year) as [top|] eqn:E;
    [|discriminate].
  intro H. injection H as <-. exists cd, top. repeat split. exact E.
Qed.

Lemma entry_some (recent : list CombinedRow) (c : string) (h : Hotspot) :
  entry coef lin recent c = Some h ->
  h_country h = c /\
  (5 <= List.length (filter (same_country c) recent))%nat /\
  0 < growth_rate h /\ p_value h < 1 # 20 /\
  exists d res,
    check_finite (fit_input recent c) = Ok d /\
    coef d = Ok (growth_rate h) /\ lin d = Ok res /\
    p_value h = recorded_p_value res /\
    recent_emissions h = last (map snd d) 0.
Proof.
  unfold entry.
  destruct (Nat.ltb_spec (List.length (filter (same_country c) recent)) 5)
    as [Hlt|Hge]; [discriminate|].
  destruct (check_finite (fit_input recent c)) as [d|]; [|discriminate].
  destruct (coef d) as [g|] eqn:Eg; [|discriminate].
  destruct (lin d) as [res|] eqn:Er; [|discriminate]. cbv zeta.
  destruct (Qltb 0 g) eqn:E1; [|discriminate].
  destruct (Qltb (recorded_p_value res) (1 # 20)) eqn:E2; [|discriminate].
  cbn [andb]. intro Hsome. injection Hsome as <-.
  cbn [h_country growth_rate p_value recent_emissions].
  apply Qltb_lt in E1, E2. repeat split; auto.
  exists d, res. repeat split; auto.
Qed.

Lemma qualifying_In (recent : list CombinedRow) (h : Hotspot) :
  In h (qualifying coef lin recent) <->
  exists c, In c (unique (map c_country recent)) /\
            entry coef lin recent c = Some h.
Proof.
  unfold qualifying. rewrite in_flat_map. split.
  - intros [c [Hc Hh]]. exists c. split; [exact Hc|].
    destruct (entry coef lin recent c); cbn in Hh; [|contradiction].
    destruct Hh as [->|[]]. reflexivity.
  - intros [c [Hc Hh]]. exists c. split; [exact Hc|].
    rewrite Hh. now left.
Qed.
End DetectorFacts.

(** ** Sorting kernels *)

Lemma desc_by_growth_trans (a b c : Hotspot) :
  desc_by_growth a b -> desc_by_growth b c -> desc_by_growth a c.
Proof. unfold desc_by_growth. intros H1 H2. eapply Qle_trans; eassumption. Qed.

Lemma insertion_contract (leb : Hotspot -> Hotspot -> bool) :
  (forall x h, leb x h = true -> desc_by_growth x h) ->
  (forall x h, leb x h = false -> desc_by_growth h x) ->
  sort_contract (stable_sort leb).
Proof.
  intros Ht Hf l. split; [apply stable_sort_perm|].
  apply Sorted_StronglySorted; [exact desc_by_growth_trans|].
  now apply stable_sort_Sorted.
Qed.

Lemma stable_desc_contract : sort_contract stable_desc.
Proof.
  apply insertion_contract; intros x h H; unfold desc_by_growth.
  - now apply Qle_bool_iff.
  - apply Qlt_le_weak, Qnot_le_lt. intro Hle.
    apply Qle_bool_iff in Hle. congruence.
Qed.

Lemma stable_insert_filter (g : Q) (x : Hotspot) (l : list Hotspot) :
  filter (same_growth g)
    (insert_sorted (fun x h => Qle_bool (growth_rate h) (growth_rate x)) x l)
  = filter (same_growth g) (x :: l).
Proof.
  induction l as [|h t IH]; [reflexivity|].
  cbn [insert_sorted].
  destruct (Qle_bool (growth_rate h) (growth_rate x)) eqn:E; [reflexivity|].
  cbn [filter] in *. rewrite IH.
  destruct (same_growth g x) eqn:Ex; [|reflexivity].
  assert (Eh : same_growth g h = false).
  { unfold same_growth in *. apply Qeq_bool_iff in Ex.
    destruct (Qeq_bool (growth_rate h) g) eqn:Eh; [|reflexivity].
    apply Qeq_bool_iff in Eh.
    assert (Hle : Qle_bool (growth_rate h) (growth_rate x) = true).
    { apply Qle_bool_iff. rewrite Eh, Ex. apply Qle_refl. }
    congruence. }
  now rewrite Eh.
Qed.

(** The insertion sort that puts an entry in front of the first one that is
    not larger keeps entries of equal growth rate in their order. *)
Lemma stable_desc_stable : stable_kernel stable_desc.
Proof.
  intros g l. unfold stable_desc.
  induction l as [|x l IH]; [reflexivity|].
  cbn [stable_sort]. rewrite stable_insert_filter.
  cbn [filter]. now rewrite IH.
Qed.

Lemma In_skipn {A : Type} (n : nat) (l : list A) (x : A) :
  In x (skipn n l) -> In x l.
Proof.
  intro H. rewrite <- (firstn_skipn n l). apply in_or_app. now right.
Qed.

Lemma In_firstn {A : Type} (n : nat) (l : list A) (x : A) :
  In x (firstn n l) -> In x l.
Proof.
  intro H. rewrite <- (firstn_skipn n l). apply in_or_app. now left.
Qed.

Lemma firstn_dominates (s : list Hotspot) (n : nat) (h h' : Hotspot) :
  StronglySorted desc_by_growth s ->
  In h (firstn n s) -> In h' (skipn n s) ->
  growth_rate h' <= growth_rate h.
Proof.
  intro Hs. revert n. induction Hs as [|a l Hs IH Hall]; intros n Hh Hh'.
  - destruct n; contradiction.
  - destruct n as [|n]; [contradiction|].
    cbn [firstn skipn] in *. destruct Hh as [->|Hh].
    + rewrite Forall_forall in Hall. apply Hall. eapply In_skipn, Hh'.
    + eapply IH; eassumption.
Qed.

Section Detector.
Variable coef : list (Z * Q) -> result Q.
Variable lin : list (Z * Q) -> result LinregressResult.
Variable sort : list Hotspot -> list Hotspot.

(** A country with fewer than five rows is passed over without error. *)
Lemma few_rows_skipped (recent : list CombinedRow) (c : string) :
  (List.length (filter (same_country c) recent) < 5)%nat ->
  analyse coef lin recent c = Ok None.
Proof.
  intro H. unfold analyse.
  destruct (Nat.ltb_spec (List.length (filter (same_country c) recent)) 5)
    as [Hlt|Hge]; [reflexivity|lia].
Qed.

(** The hotspot list as the code computes it, with [p_value] read as the
    value the loop records under this name.  When detection succeeds, the
    hotspot list is the first three entries of the sorted list of
    candidates.  The candidates are the
    entries of the countries of the [year >= start_year] subset that have
    five rows or more and whose recorded [growth_rate] is positive and
    recorded [p_value] below 0.05; countries with fewer rows are passed over
    without error.  The sorted list holds the same entries in descending
    [growth_rate], so no entry left out has a larger growth rate than one
    kept.  The order of entries of equal growth rate is that of the sorting
    kernel: it is the order of the candidates when the kernel is stable. *)
Theorem hotspots_top_three (a a' : Analyzer) (start_year : Z) :
  sort_contract sort ->
  identify_hotspots coef lin sort a start_year = (a', true) ->
  exists cd,
    combined_data a = Some cd /\
    let recent := filter (year_from start_year) cd in
    let cand := qualifying coef lin recent in
    hotspots a' = Some (firstn 3 (sort cand)) /\
    (forall h, In h cand <->
       exists c, In c (unique (map c_country recent)) /\
                 entry coef lin recent c = Some h) /\
    (forall h, In h cand ->
       (5 <= List.length (filter (same_country (h_country h)) recent))%nat /\
       0 < growth_rate h /\ p_value h < 1 # 20) /\
    (forall c, (List.length (filter (same_country c) recent) < 5)%nat ->
       analyse coef lin recent c = Ok None) /\
    Permutation (sort cand) cand /\
    StronglySorted desc_by_growth (sort cand) /\
    (forall h h', In h (firstn 3 (sort cand)) -> In h' (skipn 3 (sort cand)) ->
       growth_rate h' <= growth_rate h) /\
    (stable_kernel sort ->
     forall g, filter (same_growth g) (sort cand) = filter (same_growth g) cand).
Proof.
  intros Hsort Hid.
  destruct (identify_ok _ _ _ _ _ Hid) as [cd [top [Hcd [Hdet ->]]]].
  destruct (detect_ok _ _ _ _ _ Hdet) as [_ ->].
  exists cd. split; [exact Hcd|]. cbv zeta.
  destruct (Hsort (qualifying coef lin (filter (year_from start_year) cd)))
    as [Hperm Hsorted].
  repeat split.
  - apply (proj1 (qualifying_In _ _ _ _)).
  - apply (proj2 (qualifying_In _ _ _ _)).
  - apply qualifying_In in H. destruct H as [c [_ Hc]].
    apply entry_some in Hc. destruct Hc as [-> [Hlen _]]. exact Hlen.
  - apply qualifying_In in H. destruct H as [c [_ Hc]].
    apply entry_some in Hc. tauto.
  - apply qualifying_In in H. destruct H as [c [_ Hc]].
    apply entry_some in Hc. tauto.
  - apply few_rows_skipped.
  - exact Hperm.
  - exact Hsorted.
  - intros h h'. now apply firstn_dominates.
  - intros Hstable g. apply Hstable.
Qed.

Lemma fit_input_length (recent : list CombinedRow) (c : string) :
  List.length (fit_input recent c)
  = List.length (filter (same_country c) recent).
Proof.
  unfold fit_input. rewrite length_combine, !length_map. apply Nat.min_id.
Qed.

(** C5 (amended).  The regression of a country is given every row that the
    country has in the [year >= start_year] subset.  If the country has
    five rows or more and [co2_ma_5yr] is missing in one of them, the
    detection fails and the analyzer is left as it was.  When the detection
    succeeds, no value is missing among the rows of a listed country, and
    its [growth_rate] is the coefficient fitted on all of them. *)
Theorem regression_on_every_row (a : Analyzer) (start_year : Z)
    (cd : list CombinedRow) :
  sort_contract sort ->
  combined_data a = Some cd ->
  let recent := filter (year_from start_year) cd in
  (forall c x,
     In c (unique (map c_country recent)) ->
     (5 <= List.length (filter (same_country c) recent))%nat ->
     In (x, None) (fit_input recent c) ->
     identify_hotspots coef lin sort a start_year = (a, false)) /\
  (forall a' hs h,
     identify_hotspots coef lin sort a start_year = (a', true) ->
     hotspots a' = Some hs -> In h hs ->
     exists d,
       fit_input recent (h_country h) = map (fun p => (fst p, Some (snd p))) d /\
       (5 <= List.length d)%nat /\
       coef d = Ok (growth_rate h)).
Proof.
  intros Hsort Hcd recent. split.
  - intros c x Hc Hlen Hmiss.
    destruct (analyse_missing coef lin _ _ _ Hlen Hmiss) as [e He].
    destruct (scan_raise coef lin recent _ [] _ Hc He) as [e' He'].
    unfold identify_hotspots, detect. rewrite Hcd. cbv zeta.
    fold recent. now rewrite He'.
  - intros a' hs h Hid Hhs Hin.
    destruct (identify_ok _ _ _ _ _ Hid) as [cd' [top [Hcd' [Hdet ->]]]].
    assert (cd' = cd) by congruence. subst cd'.
    destruct (detect_ok _ _ _ _ _ Hdet) as [_ ->].
    assert (Ehs : hs = firstn 3 (sort (qualifying coef lin recent))).
    { change (Some (firstn 3 (sort (qualifying coef lin recent))) = Some hs)
        in Hhs. congruence. }
    rewrite Ehs in Hin. apply In_firstn in Hin.
    destruct (Hsort (qualifying coef lin recent)) as [Hperm _].
    apply (Permutation_in _ Hperm) in Hin.
    apply qualifying_In in Hin. destruct Hin as [c [_ Hc]].
    apply entry_some in Hc.
    destruct Hc as [-> [Hlen [_ [_ [d [res [Hd [Hg _]]]]]]]].
    exists d. apply check_finite_ok in Hd. split; [exact Hd|]. split; [|exact Hg].
    rewrite <- fit_input_length in Hlen. rewrite Hd, length_map in Hlen.
    exact Hlen.
Qed.

(** The [p_value] of a listed country is the standard error that
    [linregress] returns for its rows, not the p-value. *)
Lemma listed_p_value_is_standard_error (a a' : Analyzer) (start_year : Z)
    (hs : list Hotspot) (h : Hotspot) :
  sort_contract sort ->
  identify_hotspots coef lin sort a start_year = (a', true) ->
  hotspots a' = Some hs -> In h hs ->
  exists cd d res,
    combined_data a = Some cd /\
    check_finite (fit_input (filter (year_from start_year) cd) (h_country h))
    = Ok d /\
    lin d = Ok res /\ p_value h = stderr res.
Proof.
  intros Hsort Hid Hhs Hin.
  destruct (identify_ok _ _ _ _ _ Hid) as [cd [top [Hcd [Hdet ->]]]].
  destruct (detect_ok _ _ _ _ _ Hdet) as [_ ->].
  assert (Ehs : hs = firstn 3 (sort (qualifying coef lin
                                       (filter (year_from start_year) cd)))).
  { change (Some (firstn 3 (sort (qualifying coef lin
              (filter (year_from start_year) cd)))) = Some hs) in Hhs.
    congruence. }
  rewrite Ehs in Hin. apply In_firstn in Hin.
  destruct (Hsort (qualifying coef lin (filter (year_from start_year) cd)))
    as [Hperm _].
  apply (Permutation_in _ Hperm) in Hin.
  apply qualifying_In in Hin. destruct Hin as [c [_ Hc]].
  apply entry_some in Hc.
  destruct Hc as [-> [_ [_ [_ [d [res [Hd [_ [Hres [Hp _]]]]]]]]]].
  exists cd, d, res. repeat split; auto.
Qed.

(** C9.  When no country qualifies, the frame built from the empty list has
    no column [growth_rate], sorting it raises, and [identify_hotspots]
    returns [False] and leaves the analyzer as it was. *)
Theorem no_candidate_detection_fails (a : Analyzer) (start_year : Z) :
  (forall cd, combined_data a = Some cd ->
     qualifying coef lin (filter (year_from start_year) cd) = []) ->
  identify_hotspots coef lin sort a start_year = (a, false) /\
  rank sort [] = Raise (KeyError "growth_rate").
Proof.
  intro Hnone. split; [|reflexivity]. unfold identify_hotspots.
  destruct (combined_data a) as [cd|] eqn:Hcd; [|reflexivity].
  destruct (detect coef lin sort cd start_year) as [top|] eqn:Hdet;
    [|reflexivity].
  destruct (detect_ok _ _ _ _ _ Hdet) as [Hne _].
  exfalso. apply Hne. now apply Hnone.
Qed.
End Detector.

(** ** Loading *)

Section Loading.
Variable parse_float : string -> option Q.

Lemma load_returns (w : World) (a : Analyzer) :
  (exists cd,
     (dfs <- mapM (load_source w) DATA_SOURCES ;;
      combined <- concat dfs ;;
      _clean_combined_data parse_float combined) = Ok cd /\
     load_and_clean_data parse_float w a
     = (mkWorld (read_csv w) (Some cd) (tableau_emissions_data w)
                (hotspots_trend w) (global_emissions_map w),
        mkAnalyzer (Some cd) (hotspots a), true)) \/
  ((exists e,
      (dfs <- mapM (load_source w) DATA_SOURCES ;;
       combined <- concat dfs ;;
       _clean_combined_data parse_float combined) = Raise e) /\
   load_and_clean_data parse_float w a = (w, a, false)).
Proof.
  unfold load_and_clean_data.
  destruct (dfs <- mapM (load_source w) DATA_SOURCES ;;
            combined <- concat dfs ;;
            _clean_combined_data parse_float combined) as [cd|e].
  - left. eauto.
  - right. eauto.
Qed.

Lemma clean_needs_columns (df : DataFrame) :
  in_columns "co2_emissions" df = false \/
  in_columns "co2_per_capita" df = false ->
  exists e, _clean_combined_data parse_float df = Raise e.
Proof.
  unfold _clean_combined_data. intros [H|H].
  - rewrite (getitem_absent _ _ _ H). cbn. eauto.
  - destruct (getitem df "co2_emissions" co2_emissions); cbn [bind]; [|eauto].
    destruct (getitem df "country" country); cbn [bind]; [|eauto].
    destruct (getitem df "year" year); cbn [bind]; [|eauto].
    destruct (getitem df "country_code" country_code); cbn [bind]; [|eauto].
    rewrite (getitem_absent _ _ _ H). cbn. eauto.
Qed.

(** C10.  When the concatenated table has no column [co2_emissions], or no
    column [co2_per_capita], the cleaning step raises [KeyError]:
    [load_and_clean_data] returns [False], and neither the database nor the
    analyzer is touched. *)
Theorem load_fails_without_emission_columns (w : World) (a : Analyzer)
    (dfs : list DataFrame) (combined : DataFrame) :
  mapM (load_source w) DATA_SOURCES = Ok dfs ->
  concat dfs = Ok combined ->
  in_columns "co2_emissions" combined = false \/
  in_columns "co2_per_capita" combined = false ->
  load_and_clean_data parse_float w a = (w, a, false).
Proof.
  intros Hload Hconcat Hcols.
  destruct (clean_needs_columns _ Hcols) as [e He].
  unfold load_and_clean_data. rewrite Hload. cbn [bind].
  rewrite Hconcat. cbn [bind]. now rewrite He.
Qed.

Lemma rename_assign_source_columns (df : DataFrame) (name : string) :
  in_columns "co2_emissions" (rename df) = true ->
  in_columns "co2_emissions" (rename (assign_source df name)) = true.
Proof.
  unfold in_columns. rewrite !existsb_exists.
  intros [x [Hin Hx]]. exists x. split; [|exact Hx].
  unfold rename, assign_source in *. cbn [columns] in *.
  apply in_map_iff in Hin. destruct Hin as [y [<- Hy]].
  apply in_map. destruct (in_columns "source" df); [exact Hy|].
  apply in_or_app. now left.
Qed.

Lemma standardize_raises_on_string (df : DataFrame) (t : string) :
  in_columns "co2_emissions" (rename df) = true ->
  In (Str t) (map co2_emissions (rows df)) ->
  exists e, _standardize_format df = Raise e.
Proof.
  intros Hcol Hstr. unfold _standardize_format. cbv zeta. rewrite Hcol.
  unfold getitem.
  destruct (count_occ string_dec (columns (rename df)) "co2_emissions"%string)
    as [|[|n]]; cbn [bind]; eauto.
  cbn [rename rows]. rewrite (series_max_string _ _ Hstr). cbn. eauto.
Qed.

(** A string that is no number in the emissions column of a source makes
    the whole load fail: the comparison of line 63 raises before line 72 can
    coerce the value. *)
Lemma load_fails_on_string (w : World) (a : Analyzer) (name path t : string)
    (df : DataFrame) :
  In (name, path) DATA_SOURCES ->
  read_csv w path = Ok df ->
  in_columns "co2_emissions" (rename df) = true ->
  In (Str t) (map co2_emissions (rows df)) ->
  load_and_clean_data parse_float w a = (w, a, false).
Proof.
  intros Hsrc Hread Hcol Hstr.
  assert (Hraise : exists e, load_source w (name, path) = Raise e).
  { unfold load_source. rewrite Hread. cbn [bind].
    apply (standardize_raises_on_string _ t).
    - now apply rename_assign_source_columns.
    - unfold assign_source. cbn [rows]. rewrite map_map. exact Hstr. }
  destruct Hraise as [e He].
  destruct (mapM_raise _ _ _ Hsrc He) as [e' He'].
  unfold load_and_clean_data. now rewrite He'.
Qed.

(** Line 72 by itself coerces: a string that does not parse becomes a
    missing value of its row. *)
Lemma to_numeric_coerces (s : string) :
  parse_float s = None -> to_numeric parse_float (Str s) = None.
Proof. intro H. exact H. Qed.
End Loading.

(** ** The run *)

Section Run.
Variable parse_float : string -> option Q.
Variable coef : list (Z * Q) -> result Q.
Variable lin : list (Z * Q) -> result LinregressResult.
Variable sort : list Hotspot -> list Hotspot.

Lemma load_world (w w1 : World) (a a1 : Analyzer) :
  load_and_clean_data parse_float w a = (w1, a1, true) ->
  read_csv w1 = read_csv w /\
  tableau_emissions_data w1 = tableau_emissions_data w /\
  hotspots_trend w1 = hotspots_trend w /\
  global_emissions_map w1 = global_emissions_map w /\
  global_emissions w1 = combined_data a1 /\
  combined_data a1 <> None.
Proof.
  destruct (load_returns parse_float w a) as [[cd [_ ->]]|[_ ->]];
    [|discriminate].
  intro H. injection H as <- <-. cbn. repeat split. discriminate.
Qed.

(** What a call of [prepare_tableau_data] that returns [True] has done. *)
Lemma export_ok (rt rt' : Runtime) (w w' : World) (a : Analyzer) :
  prepare_tableau_data rt w a = (rt', w', true) ->
  exists cd,
    combined_data a = Some cd /\ Path_bound rt = true /\
    visualization_dir rt' = true /\
    w' = mkWorld (read_csv w) (global_emissions w)
                 (Some (map (fun r => (r, is_hotspot a r)) cd))
                 (hotspots_trend w) (global_emissions_map w).
Proof.
  unfold prepare_tableau_data.
  destruct (combined_data a) as [cd|]; [|discriminate].
  destruct (Path_bound rt) eqn:Hp; [|discriminate].
  intro H. injection H as <- <-. exists cd. repeat split.
Qed.

(** A failed detection leaves the analyzer as it was. *)
Lemma identify_failure (a a' : Analyzer) (start_year : Z) :
  identify_hotspots coef lin sort a start_year = (a', false) -> a' = a.
Proof.
  unfold identify_hotspots. destruct (combined_data a) as [cd|].
  - destruct (detect coef lin sort cd start_year); [discriminate|].
    intro H. now injection H as <-.
  - intro H. now injection H as <-.
Qed.

(** C6 (amended).  When the load succeeds and hotspot detection fails,
    [main] returns at once: the run ends in the state left by the load, so
    the flat export, the trend chart and the map are not written and
    [visualization/] is not created.  The analyzer is left with its dataset
    and without hotspot list; the default of the flag is reached only by a
    direct call: whenever [prepare_tableau_data], called on this analyzer,
    returns [True], the export it has written has [is_hotspot] false on
    every row. *)
Theorem detection_failure_stops_run (rt : Runtime) (w w1 : World)
    (a1 a2 : Analyzer) :
  load_and_clean_data parse_float w init = (w1, a1, true) ->
  identify_hotspots coef lin sort a1 2015 = (a2, false) ->
  main parse_float coef lin sort rt w = (rt, w1) /\
  tableau_emissions_data (snd (main parse_float coef lin sort rt w))
    = tableau_emissions_data w /\
  hotspots_trend (snd (main parse_float coef lin sort rt w))
    = hotspots_trend w /\
  global_emissions_map (snd (main parse_float coef lin sort rt w))
    = global_emissions_map w /\
  exists cd,
    combined_data a2 = Some cd /\ hotspots a2 = None /\
    forall rt0 rt' w0 w',
      prepare_tableau_data rt0 w0 a2 = (rt', w', true) ->
      tableau_emissions_data w' = Some (map (fun r => (r, false)) cd).
Proof.
  intros Hload Hid.
  assert (Hmain : main parse_float coef lin sort rt w = (rt, w1)).
  { unfold main. cbv zeta. rewrite Hload. cbn [negb].
    rewrite Hid. reflexivity. }
  destruct (load_world _ _ Hload) as [_ [H1 [H2 [H3 [_ Hsome]]]]].
  rewrite Hmain. cbn [snd]. repeat split; auto.
  apply identify_failure in Hid. subst a2.
  assert (Hh : hotspots a1 = None).
  { destruct (load_returns parse_float w init) as [[cd [_ E]]|[_ E]];
      rewrite E in Hload; [|discriminate].
    now injection Hload as <- <-. }
  destruct (combined_data a1) as [cd|] eqn:Hcd; [|congruence].
  exists cd. repeat split; [exact Hh|].
  intros rt0 rt' w0 w' Hexp.
  destruct (export_ok _ _ _ Hexp) as [cd' [Hcd' [_ [_ ->]]]].
  assert (cd' = cd) by congruence. subst cd'.
  cbn [tableau_emissions_data]. f_equal. apply map_ext. intro r.
  unfold is_hotspot. now rewrite Hh.
Qed.
End Run.

(** * Examples *)

Ltac qcompare := unfold Qlt, Qle, Qeq; cbn; lia.

(** ** Unit rescaling *)

Lemma megaton_source_max :
  observed_max (map co2_emissions (rows megaton_source)) 500.
Proof.
  repeat split.
  - intros t H. cbn in H. intuition discriminate.
  - exists 500. split; [now left|reflexivity].
  - intros q H. cbn in H.
    destruct H as [H|[H|[H|[]]]]; try discriminate;
      injection H as <-; qcompare.
Qed.

Lemma standardize_rescales_witness :
  count_occ string_dec (columns (rename megaton_source)) "co2_emissions"%string
    = 1%nat /\
  observed_max (map co2_emissions (rows megaton_source)) 500 /\
  _standardize_format megaton_source
  = Ok (mkDF canonical_columns
          [ obs "Aland" "ALD" 2019 (Num 500000000);
            obs "Aland" "ALD" 2020 (Num 20000000);
            obs "Bland" "BLD" 2020 NaN ]).
Proof.
  split; [reflexivity|]. split; [exact megaton_source_max|].
  refine (eq_trans
    (proj1 (@standardize_rescales_by_magnitude megaton_source 500 eq_refl
              megaton_source_max) _) _).
  - reflexivity.
  - reflexivity.
Defined.

(** The three cases of the specification: maximum 500, 50000 and
    5000000. *)
Example rescale_megatons :
  option_map (map co2_emissions)
    (match _standardize_format megaton_source with
     | Ok df => Some (rows df) | Raise _ => None end)
  = Some [Num 500000000; Num 20000000; NaN].
Proof. reflexivity. Qed.

Example rescale_kilotons :
  option_map (map co2_emissions)
    (match _standardize_format kiloton_source with
     | Ok df => Some (rows df) | Raise _ => None end)
  = Some [Num 50000000; Num 700000].
Proof. reflexivity. Qed.

Example rescale_tons :
  option_map (map co2_emissions)
    (match _standardize_format ton_source with
     | Ok df => Some (rows df) | Raise _ => None end)
  = Some [Num 5000000; Num 700].
Proof. reflexivity. Qed.

(** Each source is rescaled on its own, before the tables are put
    together. *)
Lemma sources_standardized_one_by_one (w : World) :
  mapM (load_source w) DATA_SOURCES
  = (a <- load_source w ("edgar", "data/edgar_emissions.csv")%string ;;
     b <- load_source w ("global_carbon", "data/global_carbon_atlas.csv")%string ;;
     c <- load_source w ("bp_stats", "data/bp_statistical_review.csv")%string ;;
     Ok [a; b; c]).
Proof.
  unfold DATA_SOURCES. cbn [mapM].
  destruct (load_source w _); cbn [bind]; [|reflexivity].
  destruct (load_source w _); cbn [bind]; [|reflexivity].
  destruct (load_source w _); reflexivity.
Qed.

Example units_reconciled_per_source :
  option_map (fun dfs => map (fun df => map co2_emissions (rows df)) dfs)
    (match mapM (load_source (world_of megaton_source kiloton_source ton_source))
                DATA_SOURCES with
     | Ok dfs => Some dfs | Raise _ => None end)
  = Some [ [Num 500000000; Num 20000000; NaN];
           [Num 50000000; Num 700000];
           [Num 5000000; Num 700] ].
Proof. reflexivity. Qed.

(** ** Grouping and smoothing *)

Lemma clean_one_row_per_key_witness :
  _clean_combined_data parse_digits overlap_table = Ok overlap_combined /\
  NoDup (map combined_key overlap_combined).
Proof.
  split; [reflexivity|].
  exact (proj1 (@clean_one_row_per_key parse_digits overlap_table
                  overlap_combined eq_refl)).
Defined.

Lemma rolling_mean_per_country_witness :
  _clean_combined_data parse_digits short_series = Ok short_combined /\
  map co2_ma_5yr (filter (same_country "Aland") short_combined)
  = [None; None; mean [Some 10; Some 20; Some 60]].
Proof.
  split; [reflexivity|].
  exact (proj1 (proj1 (proj2 (proj2
           (@rolling_mean_per_country parse_digits short_series short_combined
              "Aland" eq_refl))) 10 20 60 eq_refl)).
Defined.

(** The boundary cases of the specification: three values give a smoothed
    value on the third row only, two values give none. *)
Example three_values_smoothed :
  map co2_ma_5yr (filter (same_country "Aland") short_combined)
  = [None; None; Some 30].
Proof. reflexivity. Qed.

Example two_values_not_smoothed :
  map co2_ma_5yr (filter (same_country "Bland") short_combined)
  = [None; None].
Proof. reflexivity. Qed.

(** A row of 1969 and a row without country are left out. *)
Example filtered_rows :
  List.length (rows overlap_table) = 5%nat /\
  List.length (surviving parse_digits overlap_table) = 3%nat.
Proof. split; reflexivity. Qed.

Lemma clean_idempotent_witness :
  _clean_combined_data parse_digits short_series = Ok short_combined /\
  _clean_combined_data parse_digits (as_frame short_combined)
  = Ok short_combined.
Proof.
  split; [reflexivity|].
  exact (@clean_idempotent parse_digits short_series short_combined eq_refl).
Defined.

(** ** Hotspots *)

(** C1 fails on the code.  In this run Nland has five observations from
    2015 on, all with a smoothed value, a growth rate of 10 and a p-value
    of 0.0021: by the rule of the claim it is a hotspot.  The code lists
    Aland alone, because the value that line 107 binds to [p_value] and
    line 109 compares with 0.05 is the standard error of the slope, 1 for
    Nland. *)
Theorem significant_growth_not_listed :
  let loaded := load_and_clean_data parse_digits line_and_noise_world init in
  let a1 := snd (fst loaded) in
  let recent :=
    filter (year_from 2015)
           (match combined_data a1 with Some cd => cd | None => [] end) in
  snd loaded = true /\
  List.length (filter (same_country "Nland") recent) = 5%nat /\
  check_finite (fit_input recent "Nland") = Ok noisy_series /\
  exact_coef noisy_series = Ok (slope noisy_result) /\
  tabled_linregress noisy_series = Ok noisy_result /\
  0 < slope noisy_result /\
  pvalue noisy_result < 1 # 20 /\
  recorded_p_value noisy_result = stderr noisy_result /\
  ~ stderr noisy_result < 1 # 20 /\
  identify_hotspots exact_coef tabled_linregress stable_desc a1 2015
  = (mkAnalyzer (combined_data a1) (Some [aland_entry]), true) /\
  ~ In "Nland"%string (map h_country [aland_entry]).
Proof.
  cbv zeta. repeat split; try (vm_compute; reflexivity).
  - intro H. vm_compute in H. discriminate.
  - intros [H|[]]. discriminate.
Qed.

(** Two countries of equal growth rate: a stable kernel lists them in the
    order of iteration. *)
Example ties_with_stable_kernel :
  qualifying exact_coef line_linregress (filter (year_from 2015) twins)
  = [twin_a; twin_b] /\
  identify_hotspots exact_coef line_linregress stable_desc
    (mkAnalyzer (Some twins) None) 2015
  = (mkAnalyzer (Some twins) (Some [twin_a; twin_b]), true).
Proof. split; vm_compute; reflexivity. Qed.

Lemma hotspots_top_three_witness :
  sort_contract stable_desc /\
  identify_hotspots exact_coef line_linregress stable_desc
    (mkAnalyzer (Some five_lines) None) 2015
  = (mkAnalyzer (Some five_lines) (Some top_of_five), true) /\
  Permutation
    (stable_desc (qualifying exact_coef line_linregress
                    (filter (year_from 2015) five_lines)))
    (qualifying exact_coef line_linregress (filter (year_from 2015) five_lines)).
Proof.
  assert (Hrun : identify_hotspots exact_coef line_linregress stable_desc
                   (mkAnalyzer (Some five_lines) None) 2015
                 = (mkAnalyzer (Some five_lines) (Some top_of_five), true)).
  { vm_compute. reflexivity. }
  split; [exact stable_desc_contract|]. split; [exact Hrun|].
  destruct (@hotspots_top_three exact_coef line_linregress stable_desc _ _ _
              stable_desc_contract Hrun) as [cd [Hcd H]].
  cbn [combined_data] in Hcd. injection Hcd as <-.
  exact (proj1 (proj2 (proj2 (proj2 (proj2 H))))).
Defined.

(** A country rising on a line over six years is selected, a flat one is
    not. *)
Example hotspot_inclusion :
  identify_hotspots exact_coef line_linregress stable_desc
    (mkAnalyzer (Some rising_and_flat) None) 2015
  = (mkAnalyzer (Some rising_and_flat) (Some [mkHotspot "Aland" 10 0 150]),
     true).
Proof. vm_compute. reflexivity. Qed.

(** Five qualifying countries: the three of largest growth rate are kept,
    in descending order; the country with four rows is passed over. *)
Example ranking_and_truncation :
  map h_country
    (qualifying exact_coef line_linregress (filter (year_from 2015) five_lines))
  = ["Aland"; "Bland"; "Cland"; "Dland"; "Eland"]%string /\
  map h_country top_of_five = ["Dland"; "Eland"; "Bland"]%string.
Proof. split; vm_compute; reflexivity. Qed.

Section MissingValues.
Variable coef : list (Z * Q) -> result Q.
Variable lin : list (Z * Q) -> result LinregressResult.
Variable sort : list Hotspot -> list Hotspot.

Lemma missing_value_fails (a : Analyzer) (start_year : Z)
    (cd : list CombinedRow) (c : string) (x : Z) :
  combined_data a = Some cd ->
  In c (unique (map c_country (filter (year_from start_year) cd))) ->
  (5 <= List.length (filter (same_country c)
                       (filter (year_from start_year) cd)))%nat ->
  In (x, None) (fit_input (filter (year_from start_year) cd) c) ->
  identify_hotspots coef lin sort a start_year = (a, false).
Proof.
  intros Hcd Hc Hlen Hmiss.
  destruct (analyse_missing coef lin _ _ _ Hlen Hmiss) as [e He].
  destruct (scan_raise coef lin _ _ [] _ Hc He) as [e' He'].
  unfold identify_hotspots, detect. rewrite Hcd. cbv zeta. now rewrite He'.
Qed.
End MissingValues.

(** C5, as stated, fails on a country whose records begin in the first
    year of the subset: the arrays given to the regression hold its two
    rows without smoothed value, and the detection fails whatever the
    regression routines and the sorting kernel are. *)
Lemma fit_receives_missing_values :
  _clean_combined_data parse_digits newcomer_table = Ok newcomer /\
  fit_input (filter (year_from 2015) newcomer) "Newland"
  = [ (2015%Z, None); (2016%Z, None); (2017%Z, Some 110); (2018%Z, Some 115);
      (2019%Z, Some 120) ] /\
  ~ (forall p, In p (fit_input (filter (year_from 2015) newcomer) "Newland") ->
               snd p <> None) /\
  (forall coef lin sort,
     identify_hotspots coef lin sort (mkAnalyzer (Some newcomer) None) 2015
     = (mkAnalyzer (Some newcomer) None, false)).
Proof.
  split; [reflexivity|]. split; [reflexivity|]. split.
  - intro H. apply (H (2015%Z, None)); [now left|reflexivity].
  - intros coef lin sort.
    apply (@missing_value_fails coef lin sort _ 2015 newcomer "Newland" 2015%Z).
    + reflexivity.
    + now left.
    + cbn. lia.
    + now left.
Qed.

Lemma regression_on_every_row_witness :
  sort_contract stable_desc /\
  combined_data (mkAnalyzer (Some five_lines) None) = Some five_lines /\
  exists d,
    fit_input (filter (year_from 2015) five_lines) "Dland"
    = map (fun p => (fst p, Some (snd p))) d /\
    (5 <= List.length d)%nat /\
    exact_coef d = Ok 50.
Proof.
  split; [exact stable_desc_contract|]. split; [reflexivity|].
  refine (proj2 (@regression_on_every_row exact_coef line_linregress stable_desc
                   (mkAnalyzer (Some five_lines) None) 2015 five_lines
                   stable_desc_contract eq_refl)
            (mkAnalyzer (Some five_lines) (Some top_of_five)) top_of_five
            (mkHotspot "Dland" 50 0 350) _ eq_refl (or_introl eq_refl)).
  vm_compute. reflexivity.
Defined.

Lemma no_candidate_detection_fails_witness :
  qualifying exact_coef line_linregress (filter (year_from 2015) flat_country)
  = [] /\
  identify_hotspots exact_coef line_linregress stable_desc
    (mkAnalyzer (Some flat_country) None) 2015
  = (mkAnalyzer (Some flat_country) None, false).
Proof.
  assert (Hnone : qualifying exact_coef line_linregress
                    (filter (year_from 2015) flat_country) = []).
  { vm_compute. reflexivity. }
  split; [exact Hnone|].
  apply (@no_candidate_detection_fails exact_coef line_linregress stable_desc
           (mkAnalyzer (Some flat_country) None) 2015).
  intros cd Hcd. cbn [combined_data] in Hcd. injection Hcd as <-. exact Hnone.
Defined.

(** ** The run *)

(** C6, as stated, fails on a run whose load succeeds and whose detection
    fails by an exception during fitting: the only country has its five
    rows from 2015 on, the first two without smoothed value, and [fit]
    raises on them.  [main] returns at once and no flat export is
    written. *)
Lemma fit_failure_leaves_no_export :
  snd (load_and_clean_data parse_digits newcomer_world init) = true /\
  combined_data (snd (fst (load_and_clean_data parse_digits newcomer_world init)))
  = Some newcomer_combined /\
  analyse exact_coef line_linregress
    (filter (year_from 2015) newcomer_combined) "Newland"
  = Raise ValueError /\
  snd (identify_hotspots exact_coef line_linregress stable_desc
         (snd (fst (load_and_clean_data parse_digits newcomer_world init))) 2015)
  = false /\
  fst (main parse_digits exact_coef line_linregress stable_desc script_run
         newcomer_world)
  = script_run /\
  tableau_emissions_data
    (snd (main parse_digits exact_coef line_linregress stable_desc script_run
            newcomer_world))
  = None.
Proof. repeat split; vm_compute; reflexivity. Qed.

Lemma detection_failure_stops_run_witness :
  load_and_clean_data parse_digits newcomer_world init
  = (fst (fst (load_and_clean_data parse_digits newcomer_world init)),
     snd (fst (load_and_clean_data parse_digits newcomer_world init)), true) /\
  identify_hotspots exact_coef line_linregress stable_desc
    (snd (fst (load_and_clean_data parse_digits newcomer_world init))) 2015
  = (snd (fst (load_and_clean_data parse_digits newcomer_world init)), false) /\
  tableau_emissions_data
    (snd (main parse_digits exact_coef line_linregress stable_desc script_run
            newcomer_world))
  = tableau_emissions_data newcomer_world /\
  tableau_emissions_data
    (snd (fst (prepare_tableau_data script_run newcomer_world
                 (snd (fst (load_and_clean_data parse_digits newcomer_world
                              init))))))
  = Some (map (fun r => (r, false)) newcomer_combined).
Proof.
  assert (H1 : load_and_clean_data parse_digits newcomer_world init
    = (fst (fst (load_and_clean_data parse_digits newcomer_world init)),
       snd (fst (load_and_clean_data parse_digits newcomer_world init)), true)).
  { vm_compute. reflexivity. }
  assert (H2 : identify_hotspots exact_coef line_linregress stable_desc
      (snd (fst (load_and_clean_data parse_digits newcomer_world init))) 2015
    = (snd (fst (load_and_clean_data parse_digits newcomer_world init)), false)).
  { vm_compute. reflexivity. }
  split; [exact H1|]. split; [exact H2|].
  destruct (@detection_failure_stops_run parse_digits exact_coef
              line_linregress stable_desc script_run _ _ _ _ H1 H2)
    as [_ [Hexp [_ [_ [cd [Hcd [_ Hflag]]]]]]].
  split; [exact Hexp|].
  assert (Ecd : cd = newcomer_combined).
  { assert (E : combined_data
                  (snd (fst (load_and_clean_data parse_digits newcomer_world
                               init)))
                = Some newcomer_combined) by (vm_compute; reflexivity).
    congruence. }
  rewrite <- Ecd.
  apply (Hflag script_run
           (fst (fst (prepare_tableau_data script_run newcomer_world
                        (snd (fst (load_and_clean_data parse_digits
                                     newcomer_world init))))))
           newcomer_world).
  vm_compute. reflexivity.
Defined.

(** C7 fails on the code: a value that is no number in a source makes the
    load fail, although line 72, given the same table, turns the value into
    a missing one. *)
Theorem unparsable_value_fails_load :
  load_and_clean_data parse_digits unparsable_world init
  = (unparsable_world, init, false) /\
  parse_digits "not reported" = None /\
  _clean_combined_data parse_digits (rename unparsable_source)
  = Ok [ mkCombined "Aland" 2019 "ALD" (Some 5) None None;
         mkCombined "Aland" 2020 "ALD" None None None ].
Proof. repeat split; vm_compute; reflexivity. Qed.

Lemma load_fails_without_emission_columns_witness :
  mapM (load_source bare_world) DATA_SOURCES = Ok bare_frames /\
  concat bare_frames = Ok bare_combined /\
  in_columns "co2_emissions" bare_combined = false /\
  load_and_clean_data parse_digits bare_world init = (bare_world, init, false).
Proof.
  split; [reflexivity|]. split; [reflexivity|]. split; [reflexivity|].
  exact (@load_fails_without_emission_columns parse_digits bare_world init
           bare_frames bare_combined eq_refl eq_refl (or_introl eq_refl)).
Defined.

(** * Further properties *)

(** ** [_standardize_format]: what a successful call returns *)

Lemma series_max_ok_numeric (s : list cell) (m : option Q) :
  series_max s = Ok m -> forall t, ~ In (Str t) s.
Proof.
  intros H t Hin. rewrite (series_max_string _ _ Hin) in H. discriminate.
Qed.

Lemma getitem_ok_series {A : Type} (df : DataFrame) (label : string)
    (field : Row -> A) (s : list A) :
  getitem df label field = Ok s -> s = map field (rows df).
Proof.
  unfold getitem.
  destruct (count_occ string_dec (columns df) label) as [|[|n]];
    try discriminate.
  congruence.
Qed.

(** X1.  A successful [_standardize_format] returns the table with its
    labels renamed and either nothing else changed or every emission value
    multiplied by the same factor, 1e3 or 1e6: no row is dropped or added
    and no other field is touched. *)
Theorem standardize_shape (df df' : DataFrame) :
  _standardize_format df = Ok df' ->
  df' = rename df \/
  df' = mkDF (columns (rename df)) (map (times 1000) (rows df)) \/
  df' = mkDF (columns (rename df)) (map (times 1000000) (rows df)).
Proof.
  unfold _standardize_format. cbv zeta.
  destruct (in_columns "co2_emissions" (rename df)).
  2:{ intro H. left. congruence. }
  destruct (getitem (rename df) "co2_emissions" co2_emissions) as [s|] eqn:Es;
    [|discriminate].
  cbn [bind]. apply getitem_ok_series in Es. cbn [rename rows] in Es.
  destruct (series_max s) as [m|] eqn:Em; [|discriminate]. cbn [bind].
  assert (Hnum : forall t, ~ In (Str t) (map co2_emissions (rows (rename df)))).
  { cbn [rename rows]. rewrite <- Es. exact (series_max_ok_numeric _ Em). }
  destruct (nan_lt m 1000).
  - rewrite (scale_numeric _ _ Hnum). intro H. injection H as <-.
    right. right. reflexivity.
  - destruct (nan_lt m 1000000).
    + rewrite (scale_numeric _ _ Hnum). intro H. injection H as <-.
      right. left. reflexivity.
    + intro H. left. congruence.
Qed.

Lemma standardize_shape_witness :
  _standardize_format kiloton_source = Ok kiloton_standardized /\
  (kiloton_standardized = rename kiloton_source \/
   kiloton_standardized
   = mkDF (columns (rename kiloton_source))
          (map (times 1000) (rows kiloton_source)) \/
   kiloton_standardized
   = mkDF (columns (rename kiloton_source))
          (map (times 1000000) (rows kiloton_source))).
Proof.
  split; [reflexivity|].
  exact (@standardize_shape kiloton_source kiloton_standardized eq_refl).
Defined.

(** X2.  A source whose emissions column holds no value at all (no rows, or
    missing values only) goes through unchanged: the maximum is NaN, both
    comparisons are false, and nothing raises. *)
Theorem standardize_without_values (df : DataFrame) :
  count_occ string_dec (columns (rename df)) "co2_emissions"%string = 1%nat ->
  (forall r, In r (rows df) -> co2_emissions r = NaN) ->
  _standardize_format df = Ok (rename df).
Proof.
  intros Hcount Hnan.
  assert (Hin : in_columns "co2_emissions" (rename df) = true).
  { apply in_columns_count. rewrite Hcount. lia. }
  assert (Hmax : series_max (map co2_emissions (rows df)) = Ok None).
  { induction (rows df) as [|r l IH]; [reflexivity|].
    cbn [map series_max]. rewrite (Hnan r (or_introl eq_refl)).
    apply IH. intros r' Hr'. apply Hnan. now right. }
  unfold _standardize_format, getitem. cbv zeta.
  rewrite Hin, Hcount. cbn [bind rename rows]. rewrite Hmax. reflexivity.
Qed.

Lemma standardize_without_values_witness :
  count_occ string_dec (columns (rename silent_source)) "co2_emissions"%string
    = 1%nat /\
  _standardize_format silent_source = Ok (rename silent_source).
Proof.
  split; [reflexivity|].
  apply (@standardize_without_values silent_source eq_refl).
  intros r Hr. cbn in Hr. destruct Hr as [<-|[<-|[]]]; reflexivity.
Defined.

(** ** [_standardize_format] applied twice *)

Lemma lookup_column_map_values (label v : string) :
  lookup label column_map = Some v ->
  v = "country"%string \/ v = "year"%string \/ v = "co2_emissions"%string \/
  v = "co2_per_capita"%string \/ v = "country_code"%string.
Proof.
  unfold column_map. cbn [lookup].
  repeat match goal with
         | |- context [String.eqb label ?s] => destruct (String.eqb label s)
         end; intro H; try discriminate; injection H as <-; tauto.
Qed.

(** Renaming leaves the canonical labels as they are. *)
Lemma rename_label_idempotent (label : string) :
  rename_label (rename_label label) = rename_label label.
Proof.
  unfold rename_label at 2 3.
  destruct (lookup label column_map) as [v|] eqn:E.
  - destruct (lookup_column_map_values _ E) as [-> | [-> | [-> | [-> | ->]]]];
      reflexivity.
  - unfold rename_label. now rewrite E.
Qed.

Lemma rename_idempotent (df : DataFrame) : rename (rename df) = rename df.
Proof.
  unfold rename. cbn [columns rows]. f_equal. rewrite map_map.
  apply map_ext. exact rename_label_idempotent.
Qed.

Lemma standardize_numeric (df : DataFrame) (m : Q) :
  count_occ string_dec (columns (rename df)) "co2_emissions"%string = 1%nat ->
  observed_max (map co2_emissions (rows df)) m ->
  _standardize_format df
  = Ok (mkDF (columns (rename df))
          (if Qltb m 1000 then map (times 1000000) (rows df)
           else if Qltb m 1000000 then map (times 1000) (rows df)
           else rows df)).
Proof.
  intros Hcount Hmax.
  destruct (series_max_observed Hmax) as [q [Hq Heq]].
  assert (Hin : in_columns "co2_emissions" (rename df) = true).
  { apply in_columns_count. rewrite Hcount. lia. }
  assert (Hstr : forall t, ~ In (Str t) (map co2_emissions (rows (rename df)))).
  { exact (proj1 Hmax). }
  unfold _standardize_format, getitem. cbv zeta. rewrite Hin, Hcount.
  cbn [bind rename rows]. rewrite Hq. cbn [bind]. unfold nan_lt.
  rewrite !(Qltb_comp _ Heq).
  destruct (Qltb m 1000); [now rewrite scale_numeric|].
  destruct (Qltb m 1000000); [now rewrite scale_numeric|reflexivity].
Qed.

Lemma co2_emissions_times (k : Q) (r : Row) :
  co2_emissions (times k r)
  = match co2_emissions r with
    | Num q => Num (q * k)
    | c => c
    end.
Proof.
  unfold times. destruct (co2_emissions r) eqn:E; [reflexivity|exact E..].
Qed.

Lemma observed_max_times (rs : list Row) (m k : Q) :
  0 < k ->
  observed_max (map co2_emissions rs) m ->
  observed_max (map co2_emissions (map (times k) rs)) (m * k).
Proof.
  intros Hk [Hstr [[q0 [Hin0 Heq0]] Hle]]. rewrite map_map.
  repeat split.
  - intros t Ht. apply in_map_iff in Ht. destruct Ht as [r [Hr Hin]].
    rewrite co2_emissions_times in Hr. apply (Hstr t).
    apply in_map_iff. exists r. split; [|exact Hin].
    destruct (co2_emissions r); congruence.
  - exists (q0 * k). split; [|rewrite Heq0; reflexivity].
    apply in_map_iff in Hin0. destruct Hin0 as [r [Hr Hin]].
    apply in_map_iff. exists r. split; [|exact Hin].
    now rewrite co2_emissions_times, Hr.
  - intros q Hq. apply in_map_iff in Hq. destruct Hq as [r [Hr Hin]].
    rewrite co2_emissions_times in Hr.
    destruct (co2_emissions r) as [q1| |] eqn:E; try discriminate.
    injection Hr as <-. apply Qmult_le_compat_r; [|now apply Qlt_le_weak].
    apply Hle. rewrite <- E. now apply in_map.
Qed.

(** X3.  Unit reconciliation is idempotent on a numeric source whose largest
    value is at least 1: the rescaled table has a maximum of 1e6 or more,
    so a second call changes nothing. *)
Theorem standardize_idempotent (df df1 : DataFrame) (m : Q) :
  count_occ string_dec (columns (rename df)) "co2_emissions"%string = 1%nat ->
  observed_max (map co2_emissions (rows df)) m ->
  1 <= m ->
  _standardize_format df = Ok df1 ->
  _standardize_format df1 = Ok df1.
Proof.
  intros Hcount Hmax Hm H1.
  rewrite (standardize_numeric _ Hcount Hmax) in H1. injection H1 as <-.
  assert (Hcount' : forall rs,
            count_occ string_dec
              (columns (rename (mkDF (columns (rename df)) rs)))
              "co2_emissions"%string = 1%nat).
  { intro rs. unfold rename at 1. cbn [columns rows].
    change (map rename_label (columns (rename df)))
      with (columns (rename (rename df))).
    now rewrite rename_idempotent. }
  assert (Hback : forall rs,
            mkDF (columns (rename (mkDF (columns (rename df)) rs))) rs
            = mkDF (columns (rename df)) rs).
  { intro rs. f_equal. unfold rename at 1. cbn [columns rows].
    change (map rename_label (columns (rename df)))
      with (columns (rename (rename df))).
    now rewrite rename_idempotent. }
  assert (Hlarge : forall rs m',
            observed_max (map co2_emissions rs) m' -> 1000000 <= m' ->
            _standardize_format (mkDF (columns (rename df)) rs)
            = Ok (mkDF (columns (rename df)) rs)).
  { intros rs m' Hmax' Hge.
    rewrite (@standardize_numeric (mkDF (columns (rename df)) rs) m'
               (Hcount' rs) Hmax').
    assert (E1 : Qltb m' 1000000 = false) by now apply Qltb_ge.
    assert (E2 : Qltb m' 1000 = false).
    { apply Qltb_ge. eapply Qle_trans; [|exact Hge]. discriminate. }
    rewrite E1, E2. cbn [rows]. now rewrite Hback. }
  destruct (Qltb m 1000) eqn:E1.
  - apply (Hlarge _ (m * 1000000)).
    + apply observed_max_times; [reflexivity|exact Hmax].
    + setoid_replace 1000000 with (1 * 1000000) at 1 by reflexivity.
      apply Qmult_le_compat_r; [exact Hm|discriminate].
  - destruct (Qltb m 1000000) eqn:E2.
    + apply (Hlarge _ (m * 1000)).
      * apply observed_max_times; [reflexivity|exact Hmax].
      * apply Qltb_ge in E1.
        setoid_replace 1000000 with (1000 * 1000) at 1 by reflexivity.
        apply Qmult_le_compat_r; [exact E1|discriminate].
    + apply (Hlarge _ m Hmax). now apply Qltb_ge.
Qed.

Lemma standardize_idempotent_witness :
  observed_max (map co2_emissions (rows megaton_source)) 500 /\
  1 <= 500 /\
  _standardize_format megaton_source = Ok megaton_standardized /\
  _standardize_format megaton_standardized = Ok megaton_standardized.
Proof.
  split; [exact megaton_source_max|]. split; [discriminate|].
  split; [reflexivity|].
  refine (@standardize_idempotent megaton_source megaton_standardized 500
            eq_refl megaton_source_max _ eq_refl).
  discriminate.
Defined.

(** Below one megaton the precondition fails and so does idempotence: 0.5
    becomes 5e5 and then 5e8. *)
Example standardize_twice_small :
  option_map (map co2_emissions)
    (match (df <- _standardize_format small_source ;; _standardize_format df)
     with Ok df => Some (rows df) | Raise _ => None end)
  = Some [Num ((1 # 2) * 1000000 * 1000)] /\
  option_map (map co2_emissions)
    (match _standardize_format small_source
     with Ok df => Some (rows df) | Raise _ => None end)
  = Some [Num ((1 # 2) * 1000000)].
Proof. split; reflexivity. Qed.

(** ** [pd.concat] *)

Lemma union_columns_fold (dfs : list DataFrame) :
  union_columns dfs = fold_left add_label (flat_map columns dfs) [].
Proof. reflexivity. Qed.

Lemma add_label_In (acc : list string) (c x : string) :
  In x (add_label acc c) <-> In x acc \/ x = c.
Proof.
  unfold add_label. destruct (existsb (String.eqb c) acc) eqn:E.
  - split; [tauto|]. intros [H| ->]; [exact H|].
    apply existsb_exists in E. destruct E as [y [Hy Hc]].
    apply String.eqb_eq in Hc. now subst.
  - rewrite in_app_iff. cbn. intuition.
Qed.

Lemma fold_add_label_In (l acc : list string) (x : string) :
  In x (fold_left add_label l acc) <-> In x acc \/ In x l.
Proof.
  revert acc. induction l as [|c l IH]; intro acc; cbn [fold_left].
  - cbn. tauto.
  - rewrite IH, add_label_In. cbn. intuition.
Qed.

Lemma in_columns_In (label : string) (df : DataFrame) :
  in_columns label df = true <-> In label (columns df).
Proof.
  unfold in_columns. rewrite existsb_exists. split.
  - intros [x [Hx E]]. apply String.eqb_eq in E. now subst.
  - intro H. exists label. split; [exact H|apply String.eqb_refl].
Qed.

Lemma same_labels_eq (l l' : list string) :
  same_labels l l' = true -> l = l'.
Proof.
  unfold same_labels. destruct (list_eq_dec string_dec l l');
    [trivial|discriminate].
Qed.

(** The labels of the concatenated table are those of the frames. *)
Lemma concat_labels (dfs : list DataFrame) (c : DataFrame) :
  concat dfs = Ok c ->
  forall label, In label (columns c) <->
                exists df, In df dfs /\ In label (columns df).
Proof.
  unfold concat. destruct dfs as [|d dfs]; [discriminate|].
  destruct (forallb (fun df => nodupb (columns df)) (d :: dfs)).
  - intro H. injection H as <-. cbn [columns].
    rewrite union_columns_fold. intro label. split.
    + intro Hin. apply fold_add_label_In in Hin.
      destruct Hin as [[]|Hin]. apply in_flat_map in Hin. exact Hin.
    + intro Hin. apply fold_add_label_In. right. now apply in_flat_map.
  - destruct (forallb (fun df => same_labels (columns df) (columns d))
                (d :: dfs)) eqn:Hs; [|discriminate].
    intro H. injection H as <-. cbn [columns]. intro label. split.
    + intro Hin. exists d. split; [now left|exact Hin].
    + intros [df [Hdf Hin]]. rewrite forallb_forall in Hs.
      apply Hs in Hdf. apply same_labels_eq in Hdf. now rewrite <- Hdf.
Qed.

(** ** Loading sources without emissions *)

Lemma mapM_ok_In {A B : Type} (f : A -> result B) (l : list A) (bs : list B)
    (b : B) :
  mapM f l = Ok bs -> In b bs -> exists a, In a l /\ f a = Ok b.
Proof.
  revert bs. induction l as [|a l IH]; intros bs H Hb; cbn [mapM] in H.
  - injection H as <-. contradiction.
  - destruct (f a) as [b0|] eqn:Ea; [|discriminate]. cbn [bind] in H.
    destruct (mapM f l) as [bs0|]; [|discriminate]. cbn [bind] in H.
    injection H as <-. destruct Hb as [<- | Hb].
    + exists a. split; [now left|exact Ea].
    + destruct (IH bs0 eq_refl Hb) as [a' [Ha' Hf]].
      exists a'. split; [now right|exact Hf].
Qed.

(** Only [co2] and [co2_emissions] are renamed to [co2_emissions]. *)
Lemma rename_label_to_emissions (label : string) :
  rename_label label = "co2_emissions"%string ->
  label = "co2"%string \/ label = "co2_emissions"%string.
Proof.
  unfold rename_label, column_map. cbn [lookup].
  destruct (String.eqb label "country"); [discriminate|].
  destruct (String.eqb label "year"); [discriminate|].
  destruct (String.eqb_spec label "co2") as [-> | _]; [now left|].
  destruct (String.eqb label "co2_per_capita"); [discriminate|].
  destruct (String.eqb label "iso_code"); [discriminate|].
  now right.
Qed.

Lemma scale_columns (df : DataFrame) (k : Q) (df' : DataFrame) :
  scale_co2_emissions df k = Ok df' -> columns df' = columns df.
Proof.
  unfold scale_co2_emissions.
  destruct (mapM (scale_row k) (rows df)); [|discriminate].
  cbn [bind]. intro H. injection H as <-. reflexivity.
Qed.

Lemma standardize_columns (df df' : DataFrame) :
  _standardize_format df = Ok df' ->
  columns df' = map rename_label (columns df).
Proof.
  unfold _standardize_format. cbv zeta.
  destruct (in_columns "co2_emissions" (rename df)).
  2:{ intro H. injection H as <-. reflexivity. }
  destruct (getitem (rename df) "co2_emissions" co2_emissions) as [s|];
    [|discriminate].
  cbn [bind]. destruct (series_max s) as [m|]; [|discriminate]. cbn [bind].
  destruct (nan_lt m 1000).
  - intro H. now rewrite (scale_columns _ _ H).
  - destruct (nan_lt m 1000000).
    + intro H. now rewrite (scale_columns _ _ H).
    + intro H. injection H as <-. reflexivity.
Qed.

Lemma load_source_columns (w : World) (name path : string) (df' : DataFrame) :
  load_source w (name, path) = Ok df' ->
  exists df, read_csv w path = Ok df /\
    forall label, In label (columns df') ->
      exists x, rename_label x = label /\
                (In x (columns df) \/ x = "source"%string).
Proof.
  unfold load_source. destruct (read_csv w path) as [df|]; [|discriminate].
  cbn [bind]. intro H. exists df. split; [reflexivity|].
  intros label Hl. rewrite (@standardize_columns _ _ H) in Hl.
  apply in_map_iff in Hl. destruct Hl as [x [Hx Hin]].
  exists x. split; [exact Hx|].
  unfold assign_source in Hin. cbn [columns] in Hin.
  destruct (in_columns "source" df); [now left|].
  apply in_app_or in Hin. destruct Hin as [Hin | [<- | []]]; auto.
Qed.

Section LoadingMore.
Variable parse_float : string -> option Q.

(** X5.  When no source that can be read has a column [co2] or
    [co2_emissions], the load fails and writes nothing: renaming and
    concatenation give a table without [co2_emissions], on which the
    cleaning step raises. *)
Theorem load_needs_an_emissions_column (w : World) (a : Analyzer) :
  (forall name path df,
     In (name, path) DATA_SOURCES -> read_csv w path = Ok df ->
     ~ In "co2"%string (columns df) /\
     ~ In "co2_emissions"%string (columns df)) ->
  load_and_clean_data parse_float w a = (w, a, false).
Proof.
  intro Hno. unfold load_and_clean_data.
  destruct (mapM (load_source w) DATA_SOURCES) as [dfs|] eqn:Hload;
    [|reflexivity].
  cbn [bind]. destruct (concat dfs) as [c|] eqn:Hc; [|reflexivity].
  cbn [bind].
  assert (Habsent : in_columns "co2_emissions" c = false).
  { destruct (in_columns "co2_emissions" c) eqn:E; [|reflexivity].
    exfalso. apply in_columns_In in E.
    pose proof (@concat_labels _ _ Hc) as Hcols.
    apply Hcols in E. destruct E as [df' [Hdf' Hl]].
    destruct (@mapM_ok_In _ _ _ _ _ _ Hload Hdf') as [[name path] [Hsrc Hsource]].
    destruct (@load_source_columns _ _ _ _ Hsource) as [df [Hread Hlab]].
    destruct (Hlab _ Hl) as [x [Hx Hin]].
    destruct (Hno _ _ _ Hsrc Hread) as [H1 H2].
    apply rename_label_to_emissions in Hx.
    destruct Hin as [Hin | ->]; destruct Hx as [Hx | Hx];
      try discriminate; subst; contradiction. }
  destruct (clean_needs_columns parse_float _ (or_introl Habsent)) as [e ->].
  reflexivity.
Qed.
End LoadingMore.

Lemma load_needs_an_emissions_column_witness :
  load_and_clean_data parse_digits bare_world init = (bare_world, init, false).
Proof.
  apply (@load_needs_an_emissions_column parse_digits bare_world init).
  intros name path df Hsrc Hread.
  assert (Hdf : df = bare_source).
  { cbn in Hsrc. destruct Hsrc as [H | [H | [H | []]]];
      injection H as <- <-; cbn in Hread; congruence. }
  subst df. split; intro H; cbn in H; intuition discriminate.
Defined.

(** ** [_clean_combined_data]: errors and invariants *)

Section CleanMore.
Variable parse_float : string -> option Q.

(** X6.  The cleaning step raises when the table lacks any one of the five
    labels [country], [year], [co2_emissions], [co2_per_capita] and
    [country_code]. *)
Theorem clean_needs_every_label (df : DataFrame) (label : string) :
  In label canonical_columns ->
  in_columns label df = false ->
  exists e, _clean_combined_data parse_float df = Raise e.
Proof.
  intros Hl Habs. unfold _clean_combined_data.
  assert (Hraise : forall A (field : Row -> A),
            getitem df label field = Raise (KeyError label)).
  { intros A field. now apply getitem_absent. }
  destruct (getitem df "co2_emissions" co2_emissions) eqn:E1;
    cbn [bind]; [|eauto].
  destruct (getitem df "country" country) eqn:E2; cbn [bind]; [|eauto].
  destruct (getitem df "year" year) eqn:E3; cbn [bind]; [|eauto].
  destruct (getitem df "country_code" country_code) eqn:E4;
    cbn [bind]; [|eauto].
  destruct (getitem df "co2_per_capita" co2_per_capita) eqn:E5;
    cbn [bind]; [|eauto].
  exfalso. cbn in Hl.
  destruct Hl as [<- | [<- | [<- | [<- | [<- | []]]]]];
    rewrite Hraise in *; discriminate.
Qed.

Lemma clean_row_means (df : DataFrame) (cd : list CombinedRow)
    (row : CombinedRow) :
  _clean_combined_data parse_float df = Ok cd -> In row cd ->
  c_co2_emissions row
  = mean (map n_co2_emissions
            (filter (in_group (combined_key row)) (surviving parse_float df))) /\
  c_co2_per_capita row
  = mean (map n_co2_per_capita
            (filter (in_group (combined_key row)) (surviving parse_float df))).
Proof.
  intros Hclean Hrow. rewrite (clean_ok _ _ Hclean) in Hrow.
  apply rolling_transform_In in Hrow. destruct Hrow as [r0 [ma [Hr0 ->]]].
  unfold groupby_agg in Hr0. apply in_map_iff in Hr0.
  destruct Hr0 as [k [<- _]].
  rewrite combined_key_set_ma, aggregate_key.
  destruct k as [[c y] code]. split; reflexivity.
Qed.

(** X7.  The Combined Dataset is in strictly ascending order of (country,
    year, country_code), hence ordered by (country, year); every row has
    [year >= 1970] and stems from a row of the input with the same country,
    year and country code. *)
Theorem combined_sorted_and_grounded (df : DataFrame) (cd : list CombinedRow) :
  _clean_combined_data parse_float df = Ok cd ->
  StronglySorted key_lt (map combined_key cd) /\
  Sorted (fun a b => country_year_leb a b = true) cd /\
  (forall row, In row cd ->
     (1970 <= c_year row)%Z /\
     exists raw, In raw (rows df) /\
       country raw = Some (c_country row) /\
       year raw = Some (c_year row) /\
       country_code raw = Some (c_country_code row)).
Proof.
  intro Hclean.
  assert (Hs : Sorted key_lt (map combined_key cd)).
  { rewrite (clean_keys _ _ Hclean). apply group_keys_Sorted. }
  split; [now apply key_lt_StronglySorted|].
  split; [now apply Sorted_keys_country_year|].
  intros row Hrow. split; [exact (clean_years _ _ Hclean _ Hrow)|].
  assert (Hk : In (combined_key row) (group_keys (surviving parse_float df))).
  { rewrite <- (clean_keys _ _ Hclean). now apply in_map. }
  apply group_keys_In in Hk. destruct Hk as [n [Hn Hkey]].
  apply surviving_In in Hn. destruct Hn as [raw [Hraw [-> _]]].
  exists raw. split; [exact Hraw|].
  unfold row_key, numeric_row in Hkey. cbn in Hkey.
  destruct (country raw); [|discriminate].
  destruct (year raw); [|discriminate].
  destruct (country_code raw); [|discriminate].
  unfold combined_key in Hkey. injection Hkey as <- <- <-. auto.
Qed.

Lemma insert_key_length (k : key) (l : list key) :
  (List.length (insert_key k l) <= S (List.length l))%nat.
Proof.
  induction l as [|h t IH]; cbn [insert_key List.length]; [lia|].
  destruct (key_compare k h); cbn [List.length]; lia.
Qed.

Lemma group_keys_length (rs : list NumRow) :
  (List.length (group_keys rs) <= List.length rs)%nat.
Proof.
  induction rs as [|r rs IH]; cbn [group_keys List.length]; [lia|].
  destruct (row_key r); [|lia].
  pose proof (insert_key_length k (group_keys rs)). lia.
Qed.

Lemma surviving_length (df : DataFrame) :
  (List.length (surviving parse_float df) <= List.length (rows df))%nat.
Proof.
  unfold surviving.
  eapply Nat.le_trans; [apply filter_length_le|].
  eapply Nat.le_trans; [apply filter_length_le|].
  now rewrite length_map.
Qed.

(** X8.  Averaging duplicates never adds rows: the Combined Dataset has one
    row per distinct complete key, so at most as many rows as survive the
    filters, and at most as many as the input has. *)
Theorem combined_row_count (df : DataFrame) (cd : list CombinedRow) :
  _clean_combined_data parse_float df = Ok cd ->
  List.length cd = List.length (group_keys (surviving parse_float df)) /\
  (List.length cd <= List.length (surviving parse_float df))%nat /\
  (List.length cd <= List.length (rows df))%nat.
Proof.
  intro Hclean.
  assert (Hlen : List.length cd
                 = List.length (group_keys (surviving parse_float df))).
  { rewrite <- (clean_keys _ _ Hclean). now rewrite length_map. }
  pose proof (group_keys_length (surviving parse_float df)).
  pose proof (surviving_length df). repeat split; lia.
Qed.
End CleanMore.

Lemma combined_sorted_and_grounded_witness :
  _clean_combined_data parse_digits overlap_table = Ok overlap_combined /\
  StronglySorted key_lt (map combined_key overlap_combined).
Proof.
  split; [reflexivity|].
  exact (proj1 (@combined_sorted_and_grounded parse_digits overlap_table
                  overlap_combined eq_refl)).
Defined.

Lemma combined_row_count_witness :
  _clean_combined_data parse_digits overlap_table = Ok overlap_combined /\
  (List.length overlap_combined <= List.length (rows overlap_table))%nat.
Proof.
  split; [reflexivity|].
  exact (proj2 (proj2 (@combined_row_count parse_digits overlap_table
                         overlap_combined eq_refl))).
Defined.

Lemma clean_needs_every_label_witness :
  In "country_code"%string canonical_columns /\
  in_columns "country_code" codeless_columns_table = false /\
  exists e,
    _clean_combined_data parse_digits codeless_columns_table = Raise e.
Proof.
  assert (Hin : In "country_code"%string canonical_columns).
  { cbn. tauto. }
  split; [exact Hin|]. split; [reflexivity|].
  exact (@clean_needs_every_label parse_digits codeless_columns_table
           "country_code"%string Hin eq_refl).
Defined.

(** ** Means stay within the values averaged *)

Lemma In_dropna (l : list (option Q)) (q : Q) :
  In q (dropna l) <-> In (Some q) l.
Proof.
  induction l as [|[x|] l IH]; cbn [dropna In].
  - tauto.
  - rewrite IH. split; intros [H|H]; auto; left; congruence.
  - rewrite IH. split; [auto|]. intros [H|H]; [discriminate|exact H].
Qed.

Lemma count_succ (n : nat) :
  inject_Z (Z.of_nat (S n)) == inject_Z (Z.of_nat n) + 1.
Proof.
  rewrite Nat2Z.inj_succ. unfold Z.succ. rewrite inject_Z_plus. reflexivity.
Qed.

Lemma count_pos (n : nat) : 0 < inject_Z (Z.of_nat (S n)).
Proof.
  change 0 with (inject_Z 0). rewrite <- Zlt_Qlt. lia.
Qed.

Lemma sumQ_bounds (l : list Q) (lo hi : Q) :
  (forall q, In q l -> lo <= q /\ q <= hi) ->
  inject_Z (Z.of_nat (List.length l)) * lo <= sumQ l /\
  sumQ l <= inject_Z (Z.of_nat (List.length l)) * hi.
Proof.
  induction l as [|x l IH]; intro H.
  - cbn. split; rewrite Qmult_0_l; apply Qle_refl.
  - destruct (H x (or_introl eq_refl)) as [Hlo Hhi].
    destruct IH as [IHlo IHhi]; [intros q Hq; apply H; now right|].
    cbn [List.length sumQ fold_right]. fold (sumQ l).
    rewrite count_succ, !Qmult_plus_distr_l, !Qmult_1_l.
    split.
    + rewrite (Qplus_comm _ lo). now apply Qplus_le_compat.
    + rewrite (Qplus_comm _ hi). now apply Qplus_le_compat.
Qed.

Lemma mean_bounds (l : list (option Q)) (a lo hi : Q) :
  mean l = Some a ->
  (forall q, In (Some q) l -> lo <= q /\ q <= hi) ->
  lo <= a /\ a <= hi.
Proof.
  unfold mean. intros Hmean Hb.
  assert (Hd : forall q, In q (dropna l) -> lo <= q /\ q <= hi).
  { intros q Hq. apply Hb. now apply In_dropna. }
  destruct (dropna l) as [|q qs]; [discriminate|].
  assert (Ea : Qred (sumQ (q :: qs)
                     / inject_Z (Z.of_nat (List.length (q :: qs)))) = a)
    by congruence.
  rewrite <- Ea, Qred_correct.
  destruct (sumQ_bounds _ Hd) as [Hlo Hhi].
  pose proof (count_pos (List.length qs)) as Hpos.
  change (S (List.length qs)) with (List.length (q :: qs)) in Hpos.
  split.
  - apply Qle_shift_div_l; [exact Hpos|]. now rewrite Qmult_comm.
  - apply Qle_shift_div_r; [exact Hpos|]. now rewrite Qmult_comm.
Qed.

Section Ranges.
Variable parse_float : string -> option Q.

(** X9.  In exact arithmetic the emission value of a row of the Combined
    Dataset lies between the smallest and the largest of the values
    averaged: if every value of the surviving rows of its key is within
    [lo] and [hi], so is the mean.  (The rounding of a float mean, which can
    leave the range by a unit in the last place, is not modelled.) *)
Theorem group_mean_within_range (df : DataFrame) (cd : list CombinedRow)
    (row : CombinedRow) (a lo hi : Q) :
  _clean_combined_data parse_float df = Ok cd ->
  In row cd ->
  c_co2_emissions row = Some a ->
  (forall r q, In r (surviving parse_float df) ->
     in_group (combined_key row) r = true ->
     n_co2_emissions r = Some q -> lo <= q /\ q <= hi) ->
  lo <= a /\ a <= hi.
Proof.
  intros Hclean Hrow Ha Hb.
  destruct (clean_row_means _ _ _ Hclean Hrow) as [He _].
  rewrite Ha in He. symmetry in He.
  apply (mean_bounds _ He). intros q Hq.
  apply in_map_iff in Hq. destruct Hq as [r [Hr Hin]].
  apply filter_In in Hin. destruct Hin as [Hin Hg].
  exact (Hb r q Hin Hg Hr).
Qed.

Lemma combined_ma_at (df : DataFrame) (cd : list CombinedRow) (c : string)
    (j : nat) (row : CombinedRow) :
  _clean_combined_data parse_float df = Ok cd ->
  nth_error (filter (same_country c) cd) j = Some row ->
  co2_ma_5yr row
  = window_mean
      (trailing_window (map c_co2_emissions (filter (same_country c) cd)) j).
Proof.
  intros Hclean Hj. pose proof (clean_ok _ _ Hclean) as Hcd.
  assert (Hma : map co2_ma_5yr (filter (same_country c) cd)
                = rolling_series []
                    (map c_co2_emissions (filter (same_country c) cd))).
  { rewrite Hcd at 1. rewrite rolling_transform_country.
    cbn [filter map]. rewrite Hcd at 1.
    now rewrite rolling_transform_emissions. }
  pose proof (map_nth_error co2_ma_5yr _ _ Hj) as H1.
  pose proof (map_nth_error c_co2_emissions _ _ Hj) as H2.
  rewrite Hma, (rolling_series_window _ _ H2) in H1. congruence.
Qed.

(** X10.  Whatever the data, the first two rows of every country have no
    smoothed value: their windows hold fewer than three rows. *)
Theorem first_two_rows_not_smoothed (df : DataFrame) (cd : list CombinedRow)
    (c : string) (j : nat) (row : CombinedRow) :
  _clean_combined_data parse_float df = Ok cd ->
  nth_error (filter (same_country c) cd) j = Some row ->
  (j < 2)%nat ->
  co2_ma_5yr row = None.
Proof.
  intros Hclean Hj Hlt. rewrite (combined_ma_at _ _ _ Hclean Hj).
  destruct (window_mean _) eqn:E; [|reflexivity].
  assert (H3 : (3 <= List.length (dropna (trailing_window
            (map c_co2_emissions (filter (same_country c) cd)) j)))%nat).
  { apply window_mean_defined. congruence. }
  pose proof (dropna_length (trailing_window
            (map c_co2_emissions (filter (same_country c) cd)) j)).
  pose proof (trailing_window_length
            (map c_co2_emissions (filter (same_country c) cd)) j). lia.
Qed.

End Ranges.

(** ** What the cleaning step does not depend on *)

Section CleanInvariance.
Variable parse_float : string -> option Q.

Lemma clean_depends_on (df df' : DataFrame) :
  columns df = columns df' ->
  groupby_agg (surviving parse_float df)
  = groupby_agg (surviving parse_float df') ->
  _clean_combined_data parse_float df = _clean_combined_data parse_float df'.
Proof.
  intros Hc Hg. unfold _clean_combined_data, getitem. rewrite Hc.
  repeat match goal with
         | |- context [count_occ string_dec (columns df') ?l] =>
             destruct (count_occ string_dec (columns df') l) as [|[|?]];
             cbn [bind]; try reflexivity
         end.
  now rewrite Hg.
Qed.

(** X12.  Given to the cleaning step, an emission value that is a string
    which does not parse counts as a missing value: the table and the table
    with these cells blanked give the same result. *)
Theorem clean_coerces_unparsable (df : DataFrame) :
  _clean_combined_data parse_float (blank_unparsable parse_float df)
  = _clean_combined_data parse_float df.
Proof.
  apply clean_depends_on; [reflexivity|].
  assert (Hs : surviving parse_float (blank_unparsable parse_float df)
               = surviving parse_float df).
  { unfold surviving, blank_unparsable. cbn [rows]. rewrite map_map.
    rewrite (map_ext _ (numeric_row parse_float)); [reflexivity|].
    intro r. unfold numeric_row. cbv beta.
    destruct (co2_emissions r) as [q|s|] eqn:E; try (now rewrite E).
    destruct (parse_float s) eqn:Ep; [now rewrite E|].
    cbn. now rewrite Ep. }
  now rewrite Hs.
Qed.








End CleanInvariance.

(** ** Loading: a source that cannot be read *)

(** X14.  If any one of the three sources cannot be read, the load fails:
    nothing is written to the database and the analyzer keeps its fields,
    whatever the other sources hold. *)
Theorem unreadable_source_fails_load (parse_float : string -> option Q)
    (w : World) (a : Analyzer) (name path : string) (e : exn) :
  In (name, path) DATA_SOURCES ->
  read_csv w path = Raise e ->
  load_and_clean_data parse_float w a = (w, a, false).
Proof.
  intros Hsrc Hread.
  assert (Hraise : load_source w (name, path) = Raise e).
  { unfold load_source. now rewrite Hread. }
  destruct (mapM_raise _ _ _ Hsrc Hraise) as [e' He'].
  unfold load_and_clean_data. now rewrite He'.
Qed.

(** ** The hotspot list *)

Lemma unique_In (l : list string) (x : string) : In x (unique l) <-> In x l.
Proof.
  induction l as [|y l IH]; cbn [unique In]; [tauto|].
  rewrite filter_In, IH. split.
  - intros [H|[H _]]; auto.
  - intros [H|H]; [now left|].
    destruct (String.eqb_spec x y) as [->|Hne]; [now left|].
    right. split; [exact H|reflexivity].
Qed.

Lemma NoDup_filter {A : Type} (f : A -> bool) (l : list A) :
  NoDup l -> NoDup (filter f l).
Proof.
  induction 1 as [|x l Hx Hl IH]; cbn [filter]; [constructor|].
  destruct (f x); [|exact IH].
  constructor; [|exact IH]. intro H. apply Hx.
  apply filter_In in H. tauto.
Qed.

Lemma unique_NoDup (l : list string) : NoDup (unique l).
Proof.
  induction l as [|y l IH]; cbn [unique]; constructor.
  - intro H. apply filter_In in H. destruct H as [_ H].
    now rewrite String.eqb_refl in H.
  - now apply NoDup_filter.
Qed.

Lemma NoDup_firstn {A : Type} (n : nat) (l : list A) :
  NoDup l -> NoDup (firstn n l).
Proof.
  intro H. rewrite <- (firstn_skipn n l) in H.
  exact (NoDup_app_remove_r _ _ H).
Qed.

Lemma last_map {A B : Type} (f : A -> B) (l : list A) (d : A) :
  last (map f l) (f d) = f (last l d).
Proof.
  induction l as [|x l IH]; [reflexivity|].
  destruct l as [|y l]; [reflexivity|]. exact IH.
Qed.

Lemma last_indep {A : Type} (l : list A) (d d' : A) :
  l <> [] -> last l d = last l d'.
Proof.
  induction l as [|x l IH]; [congruence|]. intros _.
  destruct l as [|y l]; [reflexivity|]. apply IH. discriminate.
Qed.

Lemma map_snd_combine {A B : Type} (l : list A) (l' : list B) :
  List.length l = List.length l' -> map snd (combine l l') = l'.
Proof.
  revert l'. induction l as [|x l IH]; intros [|y l'] H;
    try discriminate; [reflexivity|].
  cbn. f_equal. apply IH. now injection H.
Qed.

Section DetectorMore.
Variable coef : list (Z * Q) -> result Q.
Variable lin : list (Z * Q) -> result LinregressResult.
Variable sort : list Hotspot -> list Hotspot.

Lemma qualifying_countries (recent : list CombinedRow) (cs : list string) :
  NoDup cs ->
  NoDup (map h_country
           (flat_map (fun c => option_list (entry coef lin recent c)) cs)) /\
  forall c, In c (map h_country
                    (flat_map (fun c => option_list (entry coef lin recent c))
                       cs)) -> In c cs.
Proof.
  induction 1 as [|c cs Hc Hcs [IH1 IH2]]; cbn [flat_map map].
  - split; [constructor|intros c []].
  - destruct (entry coef lin recent c) as [h|] eqn:E; cbn [option_list app map].
    + apply entry_some in E. destruct E as [-> _]. split.
      * constructor; [|exact IH1]. intro H. apply Hc. now apply IH2.
      * intros c' [<-|H]; [now left|right; now apply IH2].
    + split; [exact IH1|]. intros c' H. right. now apply IH2.
Qed.

(** X15.  When detection succeeds the hotspot list has one, two or three
    entries, no country appears twice, every listed country has rows in the
    [year >= start_year] subset, and the Combined Dataset of the analyzer
    is left as it was. *)
Theorem hotspot_list_shape (a a' : Analyzer) (start_year : Z)
    (hs : list Hotspot) :
  sort_contract sort ->
  identify_hotspots coef lin sort a start_year = (a', true) ->
  hotspots a' = Some hs ->
  (1 <= List.length hs <= 3)%nat /\
  NoDup (map h_country hs) /\
  combined_data a' = combined_data a /\
  (forall h, In h hs ->
     exists cd row, combined_data a = Some cd /\ In row cd /\
                    (start_year <= c_year row)%Z /\
                    c_country row = h_country h).
Proof.
  intros Hsort Hid Hhs.
  destruct (identify_ok _ _ _ _ _ Hid) as [cd [top [Hcd [Hdet ->]]]].
  destruct (detect_ok _ _ _ _ _ Hdet) as [Hne ->].
  set (recent := filter (year_from start_year) cd) in *.
  set (cand := qualifying coef lin recent) in *.
  assert (Ehs : hs = firstn 3 (sort cand)).
  { change (Some (firstn 3 (sort cand)) = Some hs) in Hhs. congruence. }
  destruct (Hsort cand) as [Hperm _].
  destruct (qualifying_countries recent (unique_NoDup (map c_country recent)))
    as [Hnd Hsub].
  fold (qualifying coef lin recent) in Hnd, Hsub. fold cand in Hnd, Hsub.
  subst hs. repeat split.
  - rewrite length_firstn, (Permutation_length Hperm).
    destruct cand; [congruence|cbn [List.length]; lia].
  - rewrite length_firstn. lia.
  - rewrite <- firstn_map. apply NoDup_firstn.
    apply (Permutation_NoDup (l := map h_country cand)); [|exact Hnd].
    apply Permutation_map, Permutation_sym, Hperm.
  - cbn [combined_data]. now rewrite Hcd.
  - intros h Hh. apply In_firstn in Hh.
    apply (Permutation_in _ Hperm) in Hh.
    assert (Hc : In (h_country h) (map c_country recent)).
    { apply unique_In, Hsub. now apply in_map. }
    apply in_map_iff in Hc. destruct Hc as [row [Hrow Hin]].
    unfold recent in Hin. apply filter_In in Hin. destruct Hin as [Hin Hy].
    exists cd, row. repeat split; auto. now apply Z.leb_le.
Qed.

(** X16.  When no country has five rows or more from [start_year] on - in
    particular when [start_year] lies beyond the data - detection fails and
    the analyzer is left as it was. *)
Theorem too_few_rows_detection_fails (a : Analyzer) (start_year : Z) :
  (forall cd c, combined_data a = Some cd ->
     (List.length (filter (same_country c)
                     (filter (year_from start_year) cd)) < 5)%nat) ->
  identify_hotspots coef lin sort a start_year = (a, false).
Proof.
  intro Hfew. unfold identify_hotspots.
  destruct (combined_data a) as [cd|] eqn:Hcd; [|reflexivity].
  destruct (detect coef lin sort cd start_year) as [top|] eqn:Hdet;
    [|reflexivity].
  destruct (detect_ok _ _ _ _ _ Hdet) as [Hne _].
  exfalso. apply Hne. unfold qualifying.
  induction (unique (map c_country (filter (year_from start_year) cd)))
    as [|c cs IH]; [reflexivity|].
  cbn [flat_map]. rewrite IH. unfold entry.
  destruct (Nat.ltb_spec
              (List.length (filter (same_country c)
                              (filter (year_from start_year) cd))) 5)
    as [_|Hge]; [reflexivity|].
  specialize (Hfew cd c eq_refl). lia.
Qed.

(** X18.  The [recent_emissions] of a listed country is the smoothed value
    of the last of its rows in the [year >= start_year] subset. *)
Theorem recent_emissions_is_last_value (a a' : Analyzer) (start_year : Z)
    (hs : list Hotspot) (h : Hotspot) (cd : list CombinedRow)
    (dflt : CombinedRow) :
  sort_contract sort ->
  identify_hotspots coef lin sort a start_year = (a', true) ->
  hotspots a' = Some hs -> In h hs ->
  combined_data a = Some cd ->
  co2_ma_5yr
    (last (filter (same_country (h_country h))
             (filter (year_from start_year) cd)) dflt)
  = Some (recent_emissions h).
Proof.
  intros Hsort Hid Hhs Hin Hcd.
  destruct (identify_ok _ _ _ _ _ Hid) as [cd' [top [Hcd' [Hdet ->]]]].
  assert (cd' = cd) by congruence. subst cd'.
  destruct (detect_ok _ _ _ _ _ Hdet) as [_ ->].
  set (recent := filter (year_from start_year) cd) in *.
  assert (Ehs : hs = firstn 3 (sort (qualifying coef lin recent))).
  { change (Some (firstn 3 (sort (qualifying coef lin recent))) = Some hs)
      in Hhs. congruence. }
  rewrite Ehs in Hin. apply In_firstn in Hin.
  destruct (Hsort (qualifying coef lin recent)) as [Hperm _].
  apply (Permutation_in _ Hperm) in Hin.
  apply qualifying_In in Hin. destruct Hin as [c [_ Hc]].
  apply entry_some in Hc.
  destruct Hc as [-> [Hlen [_ [_ [d [res [Hd [_ [_ [_ Hlast]]]]]]]]]].
  set (cty := filter (same_country c) recent) in *.
  apply check_finite_ok in Hd.
  assert (Hma : map co2_ma_5yr cty = map Some (map snd d)).
  { assert (H1 : map snd (fit_input recent c) = map co2_ma_5yr cty).
    { unfold fit_input. fold cty. apply map_snd_combine.
      now rewrite !length_map. }
    rewrite Hd, map_map in H1. cbn [snd] in H1.
    rewrite <- H1. now rewrite map_map. }
  assert (Hne : cty <> []).
  { intro E. rewrite E in Hlen. cbn in Hlen. lia. }
  rewrite Hlast.
  rewrite <- (last_map co2_ma_5yr), Hma.
  assert (Hne' : map Some (map snd d) <> []).
  { rewrite <- Hma. intro E. apply Hne.
    destruct cty; [reflexivity|discriminate]. }
  rewrite (last_indep (co2_ma_5yr dflt) (Some 0) Hne').
  apply (last_map Some).
Qed.
End DetectorMore.

(** ** The whole run *)

Lemma isin_iff (cs : list string) (c : string) : isin cs c = true <-> In c cs.
Proof.
  unfold isin. rewrite existsb_exists. split.
  - intros [x [Hx E]]. apply String.eqb_eq in E. now subst.
  - intro H. exists c. split; [exact H|apply String.eqb_refl].
Qed.

Section RunMore.
Variable parse_float : string -> option Q.
Variable coef : list (Z * Q) -> result Q.
Variable lin : list (Z * Q) -> result LinregressResult.
Variable sort : list Hotspot -> list Hotspot.

(** X19.  A run whose load and detection both succeed.  Run as a script
    ([Path] bound), [main] creates [visualization/] and writes four things,
    all from the same Combined Dataset: the database table, the flat export
    with every row flagged exactly when its country is in the hotspot list,
    the trend chart restricted to the rows of the listed countries, and the
    map restricted to the rows of 2020.  Called with [Path] unbound, [main]
    writes no flat export and creates no directory: the chart and the map
    are written if [visualization/] was there already, and nothing but the
    database table otherwise.  The input files are never touched. *)
Theorem main_full_run (rt : Runtime) (w w1 : World) (a1 a2 : Analyzer) :
  load_and_clean_data parse_float w init = (w1, a1, true) ->
  identify_hotspots coef lin sort a1 2015 = (a2, true) ->
  exists cd hs,
    combined_data a2 = Some cd /\ hotspots a2 = Some hs /\
    let flags := map (fun r => (r, isin (map h_country hs) (c_country r))) cd in
    let trend := filter (fun r => isin (map h_country hs) (c_country r)) cd in
    let latest := filter (fun r => (c_year r =? 2020)%Z) cd in
    (Path_bound rt = true ->
     main parse_float coef lin sort rt w
     = (mkRuntime true true,
        mkWorld (read_csv w) (Some cd) (Some flags) (Some trend)
                (Some latest))) /\
    (Path_bound rt = false -> visualization_dir rt = true ->
     main parse_float coef lin sort rt w
     = (rt, mkWorld (read_csv w) (Some cd) (tableau_emissions_data w)
                    (Some trend) (Some latest))) /\
    (Path_bound rt = false -> visualization_dir rt = false ->
     main parse_float coef lin sort rt w
     = (rt, mkWorld (read_csv w) (Some cd) (tableau_emissions_data w)
                    (hotspots_trend w) (global_emissions_map w))) /\
    (forall r flag,
       In (r, flag) flags ->
       (flag = true <-> exists h, In h hs /\ h_country h = c_country r)).
Proof.
  intros Hload Hid.
  destruct (load_returns parse_float w init) as [[cd [_ E]]|[_ E]];
    rewrite E in Hload; [|discriminate].
  injection Hload as <- <-.
  destruct (identify_ok _ _ _ _ _ Hid) as [cd' [top [Hcd' [_ ->]]]].
  cbn [combined_data] in Hcd'. injection Hcd' as <-.
  exists cd, top. split; [reflexivity|]. split; [reflexivity|].
  cbv zeta.
  assert (Hmain : main parse_float coef lin sort rt w
    = (let '(rt', w', _) :=
         prepare_tableau_data rt
           (mkWorld (read_csv w) (Some cd) (tableau_emissions_data w)
                    (hotspots_trend w) (global_emissions_map w))
           (mkAnalyzer (Some cd) (Some top)) in
       let '(w'', _) :=
         generate_visualizations rt' w' (mkAnalyzer (Some cd) (Some top)) in
       (rt', w''))).
  { unfold main. cbv zeta. rewrite E. cbn [negb hotspots init].
    rewrite Hid. reflexivity. }
  rewrite Hmain. unfold prepare_tableau_data, generate_visualizations.
  destruct rt as [p v]. cbn [combined_data hotspots Path_bound
                             visualization_dir].
  repeat split.
  - intros ->. reflexivity.
  - intros -> ->. reflexivity.
  - intros -> ->. reflexivity.
  - apply in_map_iff in H. destruct H as [r' [Hr' _]].
    injection Hr' as -> <-. intro Hf.
    apply isin_iff, in_map_iff in Hf. destruct Hf as [h [Hh Hin]]. eauto.
  - apply in_map_iff in H. destruct H as [r' [Hr' _]].
    injection Hr' as -> <-. intros [h [Hin Hh]].
    apply isin_iff, in_map_iff. eauto.
Qed.

(** X20.  A run whose load fails writes nothing at all and creates no
    directory: [main] returns the state it was given. *)
Theorem main_load_failure (rt : Runtime) (w w1 : World) (a1 : Analyzer) :
  load_and_clean_data parse_float w init = (w1, a1, false) ->
  main parse_float coef lin sort rt w = (rt, w).
Proof.
  intro Hload.
  destruct (load_returns parse_float w init) as [[cd [_ E]]|[_ E]];
    rewrite E in Hload; [discriminate|].
  unfold main. cbv zeta. now rewrite E.
Qed.
End RunMore.

(** * Further examples *)

Lemma group_mean_within_range_witness :
  _clean_combined_data parse_digits overlap_table = Ok overlap_combined /\
  100 <= 200 /\ 200 <= 300.
Proof.
  split; [reflexivity|].
  refine (@group_mean_within_range parse_digits overlap_table overlap_combined
            (mkCombined "Aland" 2000 "ALD" (Some 200) (Some 2) None)
            200 100 300 eq_refl (or_introl eq_refl) eq_refl _).
  intros r q Hr Hg Hq. cbv in Hr.
  destruct Hr as [<- | [<- | [<- | []]]]; cbv in Hg, Hq;
    try discriminate; injection Hq as <-; split; discriminate.
Defined.

Lemma first_two_rows_not_smoothed_witness :
  _clean_combined_data parse_digits short_series = Ok short_combined /\
  co2_ma_5yr (mkCombined "Aland" 2001 "ALD" (Some 20) None None) = None.
Proof.
  split; [reflexivity|].
  refine (@first_two_rows_not_smoothed parse_digits short_series short_combined
            "Aland" 1 _ eq_refl eq_refl _).
  lia.
Defined.



Lemma unreadable_source_fails_load_witness :
  In ("edgar", "data/edgar_emissions.csv")%string DATA_SOURCES /\
  load_and_clean_data parse_digits empty_disk init = (empty_disk, init, false).
Proof.
  assert (Hin : In ("edgar", "data/edgar_emissions.csv")%string DATA_SOURCES).
  { now left. }
  split; [exact Hin|].
  exact (@unreadable_source_fails_load parse_digits empty_disk init _ _ OSError
           Hin eq_refl).
Defined.

Lemma five_lines_run :
  identify_hotspots exact_coef line_linregress stable_desc
    (mkAnalyzer (Some five_lines) None) 2015
  = (mkAnalyzer (Some five_lines) (Some top_of_five), true).
Proof. vm_compute. reflexivity. Qed.

Lemma hotspot_list_shape_witness :
  sort_contract stable_desc /\
  (1 <= List.length top_of_five <= 3)%nat /\
  NoDup (map h_country top_of_five).
Proof.
  split; [exact stable_desc_contract|].
  destruct (@hotspot_list_shape exact_coef line_linregress stable_desc
              (mkAnalyzer (Some five_lines) None)
              (mkAnalyzer (Some five_lines) (Some top_of_five)) 2015
              top_of_five stable_desc_contract five_lines_run eq_refl)
    as [Hlen [Hnd _]].
  split; [exact Hlen|exact Hnd].
Defined.

Lemma too_few_rows_detection_fails_witness :
  filter (year_from 2015) short_combined = [] /\
  identify_hotspots exact_coef line_linregress stable_desc
    (mkAnalyzer (Some short_combined) None) 2015
  = (mkAnalyzer (Some short_combined) None, false).
Proof.
  split; [reflexivity|].
  apply (@too_few_rows_detection_fails exact_coef line_linregress stable_desc
           (mkAnalyzer (Some short_combined) None) 2015).
  intros cd c Hcd. cbn [combined_data] in Hcd. injection Hcd as <-.
  change (filter (year_from 2015) short_combined) with (@nil CombinedRow).
  cbn. lia.
Defined.

Lemma listed_p_value_is_standard_error_witness :
  sort_contract stable_desc /\
  In d_entry top_of_five /\
  exists cd d res,
    combined_data (mkAnalyzer (Some five_lines) None) = Some cd /\
    check_finite (fit_input (filter (year_from 2015) cd) (h_country d_entry))
    = Ok d /\
    line_linregress d = Ok res /\ p_value d_entry = stderr res.
Proof.
  assert (Hin : In d_entry top_of_five) by now left.
  split; [exact stable_desc_contract|]. split; [exact Hin|].
  exact (@listed_p_value_is_standard_error exact_coef line_linregress
           stable_desc (mkAnalyzer (Some five_lines) None)
           (mkAnalyzer (Some five_lines) (Some top_of_five)) 2015
           top_of_five d_entry stable_desc_contract five_lines_run eq_refl Hin).
Defined.

Lemma recent_emissions_is_last_value_witness :
  sort_contract stable_desc /\
  co2_ma_5yr
    (last (filter (same_country "Dland") (filter (year_from 2015) five_lines))
          no_row)
  = Some 350.
Proof.
  split; [exact stable_desc_contract|].
  exact (@recent_emissions_is_last_value exact_coef line_linregress stable_desc
           (mkAnalyzer (Some five_lines) None)
           (mkAnalyzer (Some five_lines) (Some top_of_five)) 2015
           top_of_five d_entry five_lines no_row stable_desc_contract
           five_lines_run eq_refl (or_introl eq_refl) eq_refl).
Defined.

Lemma main_full_run_witness :
  snd (load_and_clean_data parse_digits rising_world init) = true /\
  snd (identify_hotspots exact_coef line_linregress stable_desc
         (snd (fst (load_and_clean_data parse_digits rising_world init))) 2015)
  = true /\
  Path_bound script_run = true /\
  exists cd hs,
    main parse_digits exact_coef line_linregress stable_desc script_run
      rising_world
    = (mkRuntime true true,
       mkWorld (read_csv rising_world) (Some cd)
         (Some (map (fun r => (r, isin (map h_country hs) (c_country r))) cd))
         (Some (filter (fun r => isin (map h_country hs) (c_country r)) cd))
         (Some (filter (fun r => (c_year r =? 2020)%Z) cd))).
Proof.
  assert (H1 : load_and_clean_data parse_digits rising_world init
    = (fst (fst (load_and_clean_data parse_digits rising_world init)),
       snd (fst (load_and_clean_data parse_digits rising_world init)), true)).
  { vm_compute. reflexivity. }
  assert (H2 : identify_hotspots exact_coef line_linregress stable_desc
      (snd (fst (load_and_clean_data parse_digits rising_world init))) 2015
    = (fst (identify_hotspots exact_coef line_linregress stable_desc
         (snd (fst (load_and_clean_data parse_digits rising_world init)))
         2015), true)).
  { vm_compute. reflexivity. }
  split; [vm_compute; reflexivity|]. split; [vm_compute; reflexivity|].
  split; [reflexivity|].
  destruct (@main_full_run parse_digits exact_coef line_linregress stable_desc
              script_run _ _ _ _ H1 H2) as [cd [hs [_ [_ [Hmain _]]]]].
  exists cd, hs. exact (Hmain eq_refl).
Defined.

Lemma main_load_failure_witness :
  load_and_clean_data parse_digits unparsable_world init
  = (unparsable_world, init, false) /\
  main parse_digits exact_coef line_linregress stable_desc script_run
    unparsable_world
  = (script_run, unparsable_world).
Proof.
  assert (H : load_and_clean_data parse_digits unparsable_world init
              = (unparsable_world, init, false)).
  { vm_compute. reflexivity. }
  split; [exact H|].
  exact (@main_load_failure parse_digits exact_coef line_linregress stable_desc
           script_run _ _ _ H).
Defined.

(** ** Three sources in three units *)

Lemma single_max (r : Row) (q : Q) :
  co2_emissions r = Num q -> observed_max (map co2_emissions [r]) q.
Proof.
  intro E. cbn [map]. rewrite E. repeat split.
  - intros t [H|[]]. discriminate.
  - exists q. split; [now left|reflexivity].
  - intros q' [H|[]]. injection H as <-. apply Qle_refl.
Qed.

Lemma load_single (w : World) (name path c code : string) (y : Z) (q : Q) :
  read_csv w path = Ok (single_source c code y q) ->
  load_source w (name, path)
  = Ok (mkDF loaded_columns
          [ loaded_row c code name y
              (if Qltb q 1000 then q * 1000000
               else if Qltb q 1000000 then q * 1000 else q) ]).
Proof.
  intro Hread. unfold load_source. rewrite Hread. cbn [bind].
  rewrite (@standardize_numeric
             (assign_source (single_source c code y q) name) q eq_refl
             (@single_max (set_source name (obs c code y (Num q))) q
                eq_refl)).
  destruct (Qltb q 1000); [reflexivity|].
  destruct (Qltb q 1000000); reflexivity.
Qed.

Section ThreeUnits.
Variable parse_float : string -> option Q.

Lemma clean_returns (df : DataFrame) :
  (forall label, In label canonical_columns ->
     count_occ string_dec (columns df) label = 1%nat) ->
  _clean_combined_data parse_float df
  = Ok (rolling_transform [] (groupby_agg (surviving parse_float df))).
Proof.
  intro H. unfold _clean_combined_data, getitem.
  rewrite !H by (cbn; tauto). cbn [bind].
  now rewrite groupby_sorted_stays.
Qed.

Lemma groupby_same_key (k : key) (r1 r2 r3 : NumRow) :
  row_key r1 = Some k -> row_key r2 = Some k -> row_key r3 = Some k ->
  groupby_agg [r1; r2; r3] = [aggregate [r1; r2; r3] k] /\
  filter (in_group k) [r1; r2; r3] = [r1; r2; r3].
Proof.
  intros H1 H2 H3. split.
  - unfold groupby_agg. cbn [group_keys]. rewrite H1, H2, H3.
    cbn [insert_key]. rewrite key_compare_refl. cbn [insert_key].
    now rewrite key_compare_refl.
  - cbn [filter].
    now rewrite !(proj2 (in_group_iff _ _)) by assumption.
Qed.

(** X21.  Three sources reporting the same country and year in megatons,
    kilotons and tons end up as one row of the Combined Dataset, whose
    emission value is the mean of the three values brought to tons; the
    table is written to the database and kept by the analyzer. *)
Theorem three_units_one_row (c code : string) (y : Z) (q1 q2 q3 : Q) :
  (1970 <= y)%Z ->
  q1 < 1000 -> 1000 <= q2 -> q2 < 1000000 -> 1000000 <= q3 ->
  load_and_clean_data parse_float
    (world_of (single_source c code y q1) (single_source c code y q2)
              (single_source c code y q3)) init
  = (mkWorld
       (read_csv (world_of (single_source c code y q1)
                    (single_source c code y q2) (single_source c code y q3)))
       (Some [ mkCombined c y code
                 (mean [Some (q1 * 1000000); Some (q2 * 1000); Some q3])
                 None None ])
       None None None,
     mkAnalyzer
       (Some [ mkCombined c y code
                 (mean [Some (q1 * 1000000); Some (q2 * 1000); Some q3])
                 None None ])
       None,
     true).
Proof.
  intros Hy H1 H2a H2b H3.
  set (w := world_of _ _ _).
  assert (E1 : Qltb q1 1000 = true) by now apply Qltb_lt.
  assert (E2 : Qltb q2 1000 = false) by now apply Qltb_ge.
  assert (E2' : Qltb q2 1000000 = true) by now apply Qltb_lt.
  assert (E3 : Qltb q3 1000000 = false) by now apply Qltb_ge.
  assert (E3' : Qltb q3 1000 = false).
  { apply Qltb_ge. eapply Qle_trans; [|exact H3]. discriminate. }
  assert (Hload : mapM (load_source w) DATA_SOURCES
    = Ok [ mkDF loaded_columns [loaded_row c code "edgar" y (q1 * 1000000)];
           mkDF loaded_columns
             [loaded_row c code "global_carbon" y (q2 * 1000)];
           mkDF loaded_columns [loaded_row c code "bp_stats" y q3] ]).
  { rewrite sources_standardized_one_by_one.
    rewrite (@load_single w "edgar" "data/edgar_emissions.csv"
               c code y q1 eq_refl).
    rewrite (@load_single w "global_carbon" "data/global_carbon_atlas.csv"
               c code y q2 eq_refl).
    rewrite (@load_single w "bp_stats" "data/bp_statistical_review.csv"
               c code y q3 eq_refl).
    now rewrite E1, E2, E2', E3, E3'. }
  set (df := mkDF loaded_columns
               [ loaded_row c code "edgar" y (q1 * 1000000);
                 loaded_row c code "global_carbon" y (q2 * 1000);
                 loaded_row c code "bp_stats" y q3 ]).
  assert (Hclean : _clean_combined_data parse_float df
    = Ok [ mkCombined c y code
             (mean [Some (q1 * 1000000); Some (q2 * 1000); Some q3])
             None None ]).
  { rewrite clean_returns.
    2:{ intros label Hl. cbn in Hl.
        destruct Hl as [<- | [<- | [<- | [<- | [<- | []]]]]]; reflexivity. }
    assert (Hs : surviving parse_float df
              = [ mkNumRow (Some c) (Some y) (Some code)
                           (Some (q1 * 1000000)) None;
                  mkNumRow (Some c) (Some y) (Some code) (Some (q2 * 1000)) None;
                  mkNumRow (Some c) (Some y) (Some code) (Some q3) None ]).
    { unfold surviving, df.
      cbn [rows map numeric_row loaded_row country year country_code
           co2_emissions co2_per_capita to_numeric filter notna n_country
           n_year year_ge].
      now rewrite (proj2 (Z.leb_le 1970 y) Hy). }
    rewrite Hs.
    destruct (@groupby_same_key (c, y, code)
                (mkNumRow (Some c) (Some y) (Some code)
                          (Some (q1 * 1000000)) None)
                (mkNumRow (Some c) (Some y) (Some code)
                          (Some (q2 * 1000)) None)
                (mkNumRow (Some c) (Some y) (Some code) (Some q3) None)
                eq_refl eq_refl eq_refl)
      as [Hg Hf].
    rewrite Hg. unfold aggregate. rewrite Hf. reflexivity. }
  unfold load_and_clean_data. rewrite Hload. cbn [bind].
  change (concat _) with (Ok df). cbn [bind]. rewrite Hclean. reflexivity.
Qed.
End ThreeUnits.

Lemma three_units_one_row_witness :
  load_and_clean_data parse_digits
    (world_of (single_source "Aland" "ALD" 2020 500)
              (single_source "Aland" "ALD" 2020 400000)
              (single_source "Aland" "ALD" 2020 600000000)) init
  = (mkWorld
       (read_csv (world_of (single_source "Aland" "ALD" 2020 500)
                    (single_source "Aland" "ALD" 2020 400000)
                    (single_source "Aland" "ALD" 2020 600000000)))
       (Some [ mkCombined "Aland" 2020 "ALD"
                 (mean [Some (500 * 1000000); Some (400000 * 1000);
                        Some 600000000])
                 None None ])
       None None None,
     mkAnalyzer
       (Some [ mkCombined "Aland" 2020 "ALD"
                 (mean [Some (500 * 1000000); Some (400000 * 1000);
                        Some 600000000])
                 None None ])
       None,
     true).
Proof.
  apply (@three_units_one_row parse_digits "Aland" "ALD" 2020 500 400000
           600000000); try lia; try reflexivity; discriminate.
Defined.

Example three_units_mean :
  mean [Some (500 * 1000000); Some (400000 * 1000); Some 600000000]
  = Some 500000000.
Proof. reflexivity. Qed.

(** ** The inclusion test and the standard error *)

Section StandardError.
Variable coef : list (Z * Q) -> result Q.
Variable lin : list (Z * Q) -> result LinregressResult.
Variable sort : list Hotspot -> list Hotspot.

(** X17.  The value tested against 0.05 is the standard error of the slope
    (the fifth field of the result of [linregress]), not the p-value (the
    fourth): a country whose fit has a standard error of 0.05 or more is
    never listed, whatever its p-value. *)
Theorem large_standard_error_never_listed (a a' : Analyzer) (start_year : Z)
    (hs : list Hotspot) (cd : list CombinedRow) (c : string)
    (d : list (Z * Q)) (res : LinregressResult) :
  sort_contract sort ->
  identify_hotspots coef lin sort a start_year = (a', true) ->
  hotspots a' = Some hs ->
  combined_data a = Some cd ->
  check_finite (fit_input (filter (year_from start_year) cd) c) = Ok d ->
  lin d = Ok res ->
  1 # 20 <= stderr res ->
  ~ In c (map h_country hs).
Proof.
  intros Hsort Hid Hhs Hcd Hd Hres Hse Hin.
  apply in_map_iff in Hin. destruct Hin as [h [Hc Hin]].
  destruct (@listed_p_value_is_standard_error coef lin sort a a' start_year
              hs h Hsort Hid Hhs Hin)
    as [cd' [d' [res' [Hcd' [Hd' [Hres' Hp]]]]]].
  assert (cd' = cd) by congruence. subst cd'.
  rewrite Hc, Hd in Hd'. injection Hd' as <-.
  assert (res' = res) by congruence. subst res'.
  destruct (identify_ok _ _ _ _ _ Hid) as [cd2 [top [Hcd2 [Hdet ->]]]].
  destruct (detect_ok _ _ _ _ _ Hdet) as [_ ->].
  assert (Ehs : hs = firstn 3 (sort (qualifying coef lin
                                       (filter (year_from start_year) cd2)))).
  { change (Some (firstn 3 (sort (qualifying coef lin
              (filter (year_from start_year) cd2)))) = Some hs) in Hhs.
    congruence. }
  rewrite Ehs in Hin. apply In_firstn in Hin.
  destruct (Hsort (qualifying coef lin (filter (year_from start_year) cd2)))
    as [Hperm _].
  apply (Permutation_in _ Hperm) in Hin.
  apply qualifying_In in Hin. destruct Hin as [c' [_ Hc']].
  apply entry_some in Hc'. destruct Hc' as [_ [_ [_ [Hlt _]]]].
  rewrite Hp in Hlt. exact (Qlt_not_le _ _ Hlt Hse).
Qed.
End StandardError.

Lemma line_and_noise_run :
  identify_hotspots exact_coef tabled_linregress stable_desc
    (mkAnalyzer (Some line_and_noise) None) 2015
  = (mkAnalyzer (Some line_and_noise)
       (Some [mkHotspot "Aland" 10 0 140]), true).
Proof. vm_compute. reflexivity. Qed.

Lemma large_standard_error_never_listed_witness :
  exact_coef noisy_series = Ok 10 /\
  tabled_linregress noisy_series = Ok noisy_result /\
  pvalue noisy_result < 1 # 20 /\
  1 # 20 <= stderr noisy_result /\
  ~ In "Nland"%string (map h_country [mkHotspot "Aland" 10 0 140]).
Proof.
  split; [reflexivity|]. split; [reflexivity|]. split; [reflexivity|].
  split; [discriminate|].
  refine (@large_standard_error_never_listed exact_coef tabled_linregress
            stable_desc (mkAnalyzer (Some line_and_noise) None)
            (mkAnalyzer (Some line_and_noise)
               (Some [mkHotspot "Aland" 10 0 140]))
            2015 [mkHotspot "Aland" 10 0 140] line_and_noise "Nland"
            noisy_series noisy_result stable_desc_contract line_and_noise_run
            eq_refl eq_refl eq_refl eq_refl _).
  discriminate.
Defined.

(** ** The state after a successful load *)

Section LoadState.
Variable parse_float : string -> option Q.

Lemma bind_ok {A B : Type} (m : result A) (k : A -> result B) (b : B) :
  bind m k = Ok b -> exists a, m = Ok a /\ k a = Ok b.
Proof. destruct m as [a|]; [eauto|discriminate]. Qed.

(** X22.  After a successful load the table written to the database is the
    dataset held by the analyzer; it has one row per (country, year,
    country_code), all with [year >= 1970]; the hotspot list of the
    analyzer, the input files and the files under [visualization/] are as
    before. *)
Theorem load_success_state (w w1 : World) (a a1 : Analyzer) :
  load_and_clean_data parse_float w a = (w1, a1, true) ->
  exists cd,
    global_emissions w1 = Some cd /\ combined_data a1 = Some cd /\
    NoDup (map combined_key cd) /\
    (forall row, In row cd -> (1970 <= c_year row)%Z) /\
    hotspots a1 = hotspots a /\
    read_csv w1 = read_csv w /\
    tableau_emissions_data w1 = tableau_emissions_data w /\
    hotspots_trend w1 = hotspots_trend w /\
    global_emissions_map w1 = global_emissions_map w.
Proof.
  intro Hload.
  destruct (load_returns parse_float w a) as [[cd [Hcd E]]|[_ E]];
    rewrite E in Hload; [|discriminate].
  injection Hload as <- <-.
  apply bind_ok in Hcd. destruct Hcd as [dfs [_ Hcd]].
  apply bind_ok in Hcd. destruct Hcd as [combined [_ Hclean]].
  exists cd. repeat split.
  - rewrite (clean_keys _ _ Hclean). apply group_keys_NoDup.
  - exact (clean_years _ _ Hclean).
Qed.
End LoadState.

Lemma load_success_state_witness :
  load_and_clean_data parse_digits steady_world init
  = (fst (fst (load_and_clean_data parse_digits steady_world init)),
     snd (fst (load_and_clean_data parse_digits steady_world init)), true) /\
  exists cd,
    global_emissions
      (fst (fst (load_and_clean_data parse_digits steady_world init)))
    = Some cd /\ NoDup (map combined_key cd).
Proof.
  assert (H : load_and_clean_data parse_digits steady_world init
    = (fst (fst (load_and_clean_data parse_digits steady_world init)),
       snd (fst (load_and_clean_data parse_digits steady_world init)), true)).
  { vm_compute. reflexivity. }
  split; [exact H|].
  destruct (@load_success_state parse_digits _ _ _ _ H)
    as [cd [Hdb [_ [Hnd _]]]].
  exists cd. split; [exact Hdb|exact Hnd].
Defined.
